(** * OpenJupy: error-analysis middleware, embedded and verified

    The Python sources embedded here are
      - [openjupy/mappings/packages.py]
      - [openjupy/mappings/error_fixes.py]
      - [openjupy/middleware/error_handler.py]
      - [openjupy/middleware/response_wrapper.py]
      - [validate_jupyter_setup.py] (the environment check and the report)

    Python [str] values are modelled as [string] (code points below 256),
    [dict[str, str]] as [gmap string string], the caller's response
    dictionaries as objects in a heap addressed by locations, and Python
    exceptions as the [Raise] outcome of a small error monad. *)

From Stdlib Require Import Ascii String ZArith DecimalString.
From stdpp Require Import gmap strings list fin_maps.

Open Scope Z_scope.

(* ===================================================================== *)
(** * Exceptions and the error monad *)
(* ===================================================================== *)

Inductive exn : Type :=
| KeyError (key : string)
| IndexError
| ValueError
| TypeError
| Unmodelled.

Inductive result (A : Type) : Type :=
| Ok (a : A)
| Raise (e : exn).
Arguments Ok {A} a.
Arguments Raise {A} e.

Definition rbind {A B} (m : result A) (f : A -> result B) : result B :=
  match m with
  | Ok a => f a
  | Raise e => Raise e
  end.

Declare Scope res_scope.
Delimit Scope res_scope with res.
Notation "'let!' x ':=' m 'in' k" := (rbind m (fun x => k))
  (at level 10, x name, m at level 100, k at level 200) : res_scope.
Open Scope res_scope.

(* ===================================================================== *)
(** * Python string primitives *)
(* ===================================================================== *)

Module PyStr.

Definition nl : ascii := "010"%char.
Definition dq : ascii := "034"%char.
Definition sq : ascii := "039"%char.

Definition code (c : ascii) : N := N_of_ascii c.

(** [str.isspace] on one code point below 256. *)
Definition isspace (c : ascii) : bool :=
  let n := code c in
  ((9 <=? n) && (n <=? 13) || (28 <=? n) && (n <=? 32)
   || (n =? 133) || (n =? 160))%N.

Definition isdigit (c : ascii) : bool :=
  let n := code c in ((48 <=? n) && (n <=? 57))%N.

Definition nonempty (s : string) : bool :=
  match s with EmptyString => false | String _ _ => true end.

Fixpoint lstrip (s : string) : string :=
  match s with
  | String c s' => if isspace c then lstrip s' else s
  | EmptyString => EmptyString
  end.

Fixpoint rstrip (s : string) : string :=
  match s with
  | String c s' =>
      let r := rstrip s' in
      if negb (nonempty r) && isspace c then EmptyString else String c r
  | EmptyString => EmptyString
  end.

(** [s.strip()] *)
Definition strip (s : string) : string := rstrip (lstrip s).

(** [s.startswith(p)] *)
Fixpoint startswith (p s : string) : bool :=
  match p, s with
  | EmptyString, _ => true
  | String a p', String b s' => bool_decide (a = b) && startswith p' s'
  | String _ _, EmptyString => false
  end.

(** [s.endswith(p)] *)
Definition endswith (p s : string) : bool :=
  startswith (String.rev p) (String.rev s).

(** [sub in s] *)
Fixpoint contains (sub s : string) : bool :=
  startswith sub s ||
  match s with
  | String _ s' => contains sub s'
  | EmptyString => false
  end.

Fixpoint drop (n : nat) (s : string) : string :=
  match n, s with
  | O, _ => s
  | S n', String _ s' => drop n' s'
  | S _, EmptyString => EmptyString
  end.

Fixpoint take (n : nat) (s : string) : string :=
  match n, s with
  | O, _ => EmptyString
  | S n', String c s' => String c (take n' s')
  | S _, EmptyString => EmptyString
  end.

(** [s.split(c)] for a one-character separator [c]. *)
Fixpoint split_chr (c : ascii) (s : string) : list string :=
  match s with
  | EmptyString => [EmptyString]
  | String a s' =>
      if bool_decide (a = c) then EmptyString :: split_chr c s'
      else match split_chr c s' with
           | h :: t => String a h :: t
           | [] => [String a EmptyString]
           end
  end.

(** The text before and after the first occurrence of [sep]. *)
Fixpoint find_sub (sep s : string) : option (string * string) :=
  if startswith sep s then Some (EmptyString, drop (String.length sep) s)
  else match s with
       | String a s' =>
           match find_sub sep s' with
           | Some (b, r) => Some (String a b, r)
           | None => None
           end
       | EmptyString => None
       end.

(** [s.split(sep, 1)] *)
Definition split_max1 (sep s : string) : list string :=
  match find_sub sep s with
  | Some (b, r) => [b; r]
  | None => [s]
  end.

(** [sep.join(l)] *)
Fixpoint join (sep : string) (l : list string) : string :=
  match l with
  | [] => EmptyString
  | [x] => x
  | x :: rest => x +:+ sep +:+ join sep rest
  end.

(** [l[i]] on a list, raising [IndexError] out of range. *)
Definition getitem {A} (l : list A) (i : nat) : result A :=
  match l !! i with
  | Some x => Ok x
  | None => Raise IndexError
  end.

(** [str(n)] for an integer. *)
Definition str_of_Z (z : Z) : string := NilZero.string_of_int (Z.to_int z).

Definition digit_val (c : ascii) : Z := Z.of_N (code c) - 48.

Fixpoint int_go (acc : Z) (s : string) : result Z :=
  match s with
  | EmptyString => Ok acc
  | String c s' =>
      if isdigit c then int_go (10 * acc + digit_val c) s'
      else Raise ValueError
  end.

(** The most digits [int] converts from a string: the default of
    [sys.int_max_str_digits] on CPython 3.11 and later. *)
Definition int_max_str_digits : Z := 4300.

(** [int(s)] on a string of decimal digits.  Signs, surrounding blanks and
    underscores, which Python also accepts, are rejected here.  A run of
    more than [int_max_str_digits] digits raises [ValueError], as the
    interpreter does with its default setting. *)
Definition py_int (s : string) : result Z :=
  match s with
  | EmptyString => Raise ValueError
  | _ =>
      if (int_max_str_digits <? Z.of_nat (String.length s))%Z
      then Raise ValueError
      else int_go 0 s
  end.

(** Case mapping of one code point below 256: the ASCII letters and the
    Latin-1 letters 192 to 222 and 224 to 254, without the signs 215
    and 247. *)
Definition lower_chr (c : ascii) : ascii :=
  let n := code c in
  if ((65 <=? n) && (n <=? 90))%N then ascii_of_N (n + 32)
  else if ((192 <=? n) && (n <=? 222) && negb (n =? 215))%N
  then ascii_of_N (n + 32)
  else c.

Definition upper_chr (c : ascii) : ascii :=
  let n := code c in
  if ((97 <=? n) && (n <=? 122))%N then ascii_of_N (n - 32)
  else if ((224 <=? n) && (n <=? 254) && negb (n =? 247))%N
  then ascii_of_N (n - 32)
  else c.

(** Title case of the first character, as [str.capitalize] applies it:
    the upper-case letter, and [Ss] for the sharp s (223).  The micro
    sign (181) and the y with diaeresis (255) have their upper case
    above 255, outside the modelled code points; they are left as they
    are. *)
Definition title_chr (c : ascii) : string :=
  if (code c =? 223)%N then "Ss" else String (upper_chr c) "".

Fixpoint lower (s : string) : string :=
  match s with
  | String c s' => String (lower_chr c) (lower s')
  | EmptyString => EmptyString
  end.

(** [s.capitalize()] *)
Definition capitalize (s : string) : string :=
  match s with
  | String c s' => title_chr c +:+ lower s'
  | EmptyString => EmptyString
  end.

End PyStr.

(* ===================================================================== *)
(** * mappings/packages.py *)
(* ===================================================================== *)

Module Packages.

Definition PACKAGE_NAME_ITEMS : list (string * string) :=
  [ ("cv2", "opencv-python");
    ("sklearn", "scikit-learn");
    ("PIL", "pillow");
    ("yaml", "pyyaml");
    ("bs4", "beautifulsoup4");
    ("dateutil", "python-dateutil");
    ("dotenv", "python-dotenv");
    ("jwt", "pyjwt");
    ("magic", "python-magic");
    ("serial", "pyserial");
    ("usb", "pyusb");
    ("wx", "wxpython");
    ("gi", "pygobject");
    ("cairo", "pycairo");
    ("Crypto", "pycryptodome");
    ("OpenSSL", "pyopenssl");
    ("MySQLdb", "mysqlclient");
    ("psycopg2", "psycopg2-binary");
    ("lxml", "lxml");
    ("skimage", "scikit-image");
    ("tensorflow", "tensorflow");
    ("tf", "tensorflow");
    ("torch", "torch");
    ("torchvision", "torchvision");
    ("transformers", "transformers");
    ("langchain", "langchain");
    ("openai", "openai");
    ("anthropic", "anthropic");
    ("httpx", "httpx");
    ("aiohttp", "aiohttp");
    ("fastapi", "fastapi");
    ("flask", "flask");
    ("django", "django");
    ("sqlalchemy", "sqlalchemy");
    ("alembic", "alembic");
    ("celery", "celery");
    ("redis", "redis");
    ("boto3", "boto3");
    ("botocore", "botocore");
    ("google.cloud", "google-cloud-core");
    ("azure", "azure-core") ].

(** The dict literal [PACKAGE_NAME_MAP]; its keys are pairwise distinct. *)
Definition PACKAGE_NAME_MAP : gmap string string :=
  list_to_map PACKAGE_NAME_ITEMS.

(** [import_name.split(".")[0]] *)
Definition base_module (import_name : string) : result string :=
  PyStr.getitem (PyStr.split_chr "." import_name) 0.

(** [PACKAGE_NAME_MAP.get(base_module, import_name)] *)
Definition get_correct_package_name (import_name : string) : result string :=
  let! base := base_module import_name in
  Ok (default import_name (PACKAGE_NAME_MAP !! base)).

End Packages.

(* ===================================================================== *)
(** * The fragment of [re] used by the error handler *)
(* ===================================================================== *)

Module Re.

(** Pattern syntax: literal text, one character of a class, a greedy
    [+] over a class, a greedy [?], concatenation and a numbered group. *)
Inductive re : Type :=
| Lit (s : string)
| Cls (cls : ascii -> bool)
| Plus (cls : ascii -> bool)
| Opt (r : re)
| Seq (r1 r2 : re)
| Grp (n : nat) (r : re).

Infix "&>" := Seq (at level 60, right associativity).

(** A match object: the text of each group that took part. *)
Abbreviation captures := (gmap nat string).

(** Rest of the subject after each way [cls+] can match, longest first. *)
Fixpoint plus_alts (cls : ascii -> bool) (s : string) : list string :=
  match s with
  | String a s' => if cls a then plus_alts cls s' ++ [s'] else []
  | EmptyString => []
  end.

(** Every way [r] matches a prefix of [s], in the order a backtracking
    matcher tries them: the rest of the subject and the groups so far. *)
Fixpoint matches (r : re) (s : string) (c : captures)
  : list (string * captures) :=
  match r with
  | Lit l =>
      if PyStr.startswith l s then [(PyStr.drop (String.length l) s, c)]
      else []
  | Cls cls =>
      match s with
      | String a s' => if cls a then [(s', c)] else []
      | EmptyString => []
      end
  | Plus cls => (fun s' => (s', c)) <$> plus_alts cls s
  | Opt r1 => matches r1 s c ++ [(s, c)]
  | Seq r1 r2 =>
      '(s1, c1) ← matches r1 s c; matches r2 s1 c1
  | Grp n r1 =>
      (fun '(s1, c1) =>
         (s1, <[n := PyStr.take (String.length s - String.length s1) s]> c1))
        <$> matches r1 s c
  end.

(** [pattern.search(s)]: the first alternative at the leftmost position
    where the pattern matches. *)
Fixpoint search (r : re) (s : string) : option captures :=
  match matches r s ∅ with
  | (_, c) :: _ => Some c
  | [] =>
      match s with
      | String _ s' => search r s'
      | EmptyString => None
      end
  end.

(** [match.group(n)]; [None] when the group did not take part. *)
Definition group (m : captures) (n : nat) : option string := m !! n.

(** [match.group(n)] where the code goes on to use it as a [str]. *)
Definition group_str (m : captures) (n : nat) : result string :=
  match group m n with
  | Some s => Ok s
  | None => Raise TypeError
  end.

(** Groups that occur in a pattern, and those that every match sets. *)
Fixpoint groups (r : re) : list nat :=
  match r with
  | Lit _ | Cls _ | Plus _ => []
  | Opt r1 => groups r1
  | Seq r1 r2 => groups r1 ++ groups r2
  | Grp n r1 => n :: groups r1
  end.

Fixpoint binds (r : re) : list nat :=
  match r with
  | Lit _ | Cls _ | Plus _ | Opt _ => []
  | Seq r1 r2 => binds r1 ++ binds r2
  | Grp n r1 => n :: binds r1
  end.

Definition quote (c : ascii) : bool :=
  bool_decide (c = PyStr.sq) || bool_decide (c = PyStr.dq).
Definition not_quote (c : ascii) : bool := negb (quote c).
Definition not_dq (c : ascii) : bool := negb (bool_decide (c = PyStr.dq)).
Definition not_nl (c : ascii) : bool := negb (bool_decide (c = PyStr.nl)).

(** An optional quote (single or double), group [n] of one or more
    characters that are not quotes, an optional quote. *)
Definition quoted (n : nat) : re :=
  Opt (Cls quote) &> Grp n (Plus not_quote) &> Opt (Cls quote).

End Re.

(* ===================================================================== *)
(** * mappings/error_fixes.py *)
(* ===================================================================== *)

Module ErrorFixes.

Record FixSuggestion : Type := {
  message_template : string;
  action_template : option string
}.

Definition fix_ (m a : string) : FixSuggestion :=
  {| message_template := m; action_template := Some a |}.

Definition ERROR_FIX_ITEMS : list (string * FixSuggestion) :=
  [ ("ModuleNotFoundError",
      fix_ "Module '{module}' is not installed." "uv add {package}");
    ("ImportError",
      fix_ "Cannot import '{name}' from '{module}'."
           "Check if the module is installed correctly: uv add {package}");
    ("FileNotFoundError",
      fix_ "File or directory not found: '{path}'."
           "Verify the path exists. Current directory: use os.getcwd() to check.");
    ("PermissionError",
      fix_ "Permission denied: '{path}'."
           "Check file permissions or run with appropriate privileges.");
    ("NameError",
      fix_ "Name '{name}' is not defined."
           "Define the variable before use, or check for typos.");
    ("AttributeError",
      fix_ "'{type}' object has no attribute '{attribute}'."
           "Check the object type and available attributes using dir().");
    ("TypeError",
      fix_ "Type error in operation."
           "Check argument types. Use type() to inspect values.");
    ("ValueError",
      fix_ "Invalid value provided."
           "Check the expected value format or range.");
    ("KeyError",
      fix_ "Key '{key}' not found in dictionary."
           "Use .get(key, default) for safe access, or check available keys.");
    ("IndexError",
      fix_ "Index out of range."
           "Check sequence length with len() before accessing.");
    ("ZeroDivisionError",
      fix_ "Division by zero." "Add a check for zero before dividing.");
    ("SyntaxError",
      fix_ "Syntax error in code."
           "Check for missing colons, parentheses, or quotes.");
    ("IndentationError",
      fix_ "Indentation error."
           "Use consistent indentation (4 spaces recommended).");
    ("ConnectionError",
      fix_ "Connection failed."
           "Check network connectivity and the target URL/host.");
    ("TimeoutError",
      fix_ "Operation timed out."
           "Increase timeout or check if the service is responding.");
    ("MemoryError",
      fix_ "Out of memory."
           "Reduce data size, use generators, or process in chunks.");
    ("RecursionError",
      fix_ "Maximum recursion depth exceeded."
           "Add a base case or convert to iterative approach.") ].

Definition ERROR_FIX_MAP : gmap string FixSuggestion :=
  list_to_map ERROR_FIX_ITEMS.

(** [get_fix_suggestion(error_type, _error_message, _context)] *)
Definition get_fix_suggestion (error_type _error_message : string)
  (_context : option (gmap string string)) : option FixSuggestion :=
  ERROR_FIX_MAP !! error_type.

End ErrorFixes.

(* ===================================================================== *)
(** * Keyword-only [str.format] *)
(* ===================================================================== *)

Module Format.

(** Characters that start an attribute, index, conversion or format
    specification inside a replacement field, or nest another field. *)
Definition field_special (c : ascii) : bool :=
  bool_decide (c = "."%char) || bool_decide (c = "["%char)
  || bool_decide (c = "!"%char) || bool_decide (c = ":"%char)
  || bool_decide (c = "{"%char).

Fixpoint all_digits (s : string) : bool :=
  match s with
  | String c s' => PyStr.isdigit c && all_digits s'
  | EmptyString => true
  end.

(** The value of a replacement field: only keyword arguments are passed,
    so an empty or numeric field name finds no positional argument. *)
Definition lookup_field (name : string) (kw : gmap string string)
  : result string :=
  if all_digits name then Raise IndexError
  else match kw !! name with
       | Some v => Ok v
       | None => Raise (KeyError name)
       end.

(** [fmt t None kw] renders the template [t] from the start;
    [fmt t (Some name) kw] continues inside a field whose name so far is
    [name].  Plain fields [{name}] and the escapes [{{], [}}] are
    rendered as Python does; anything richer raises [Unmodelled]. *)
Fixpoint fmt (t : string) (field : option string) (kw : gmap string string)
  : result string :=
  match t, field with
  | EmptyString, None => Ok EmptyString
  | EmptyString, Some _ => Raise ValueError
  | String c t', None =>
      if bool_decide (c = "{"%char) then
        match t' with
        | String c' t'' =>
            if bool_decide (c' = "{"%char) then
              let! rest := fmt t'' None kw in Ok (String "{" rest)
            else fmt t' (Some EmptyString) kw
        | EmptyString => Raise ValueError
        end
      else if bool_decide (c = "}"%char) then
        match t' with
        | String c' t'' =>
            if bool_decide (c' = "}"%char) then
              let! rest := fmt t'' None kw in Ok (String "}" rest)
            else Raise ValueError
        | EmptyString => Raise ValueError
        end
      else let! rest := fmt t' None kw in Ok (String c rest)
  | String c t', Some name =>
      if bool_decide (c = "}"%char) then
        let! v := lookup_field name kw in
        let! rest := fmt t' None kw in
        Ok (v +:+ rest)
      else if field_special c then Raise Unmodelled
      else fmt t' (Some (name +:+ String c EmptyString)) kw
  end.

(** [template.format] applied to the keyword arguments [kw] *)
Definition format (template : string) (kw : gmap string string)
  : result string :=
  fmt template None kw.

End Format.

(* ===================================================================== *)
(** * middleware/error_handler.py: parsing and analysis *)
(* ===================================================================== *)

Module ErrorHandler.
Import Re ErrorFixes.

Record ParsedError : Type := {
  error_type : string;
  error_message : string;
  file_path : option string;
  line_number : option Z;
  function_name : option string;
  code_context : option string;
  extracted_values : gmap string string
}.

Record ErrorAnalysis : Type := {
  parsed_error : ParsedError;
  fix_suggestion : option FixSuggestion;
  claude_tip : string;
  claude_next : string;
  suggested_action : option string
}.

Definition MODULE_NOT_FOUND_PATTERN : re :=
  Lit "No module named " &> quoted 1.
Definition IMPORT_ERROR_PATTERN : re :=
  Lit "cannot import name " &> quoted 1.
Definition NAME_ERROR_PATTERN : re :=
  Lit "name " &> quoted 1 &> Lit " is not defined".
Definition ATTRIBUTE_ERROR_PATTERN : re :=
  quoted 1 &> Lit " object has no attribute " &> quoted 2.
Definition KEY_ERROR_PATTERN : re := quoted 1.
Definition FILE_NOT_FOUND_PATTERN : re :=
  Lit "[Errno 2] No such file or directory: " &> quoted 1.

(** [File], a path in double quotes, [, line] and a number, then
    optionally [, in] and the rest of the line. *)
Definition TRACEBACK_LINE_PATTERN : re :=
  Lit ("File " +:+ String PyStr.dq "")
  &> Grp 1 (Plus not_dq)
  &> Lit (String PyStr.dq ", line ")
  &> Grp 2 (Plus PyStr.isdigit)
  &> Opt (Lit ", in " &> Grp 3 (Plus not_nl)).

(** The test of the backward scan:
    [": " in line and not line.startswith(" ")]. *)
Definition is_error_line (line : string) : bool :=
  PyStr.contains ": " line && negb (PyStr.startswith " " line).

(** Body of the backward scan once a line passes the test. *)
Definition split_error_line (line : string) : result (string * string) :=
  let parts := PyStr.split_max1 ": " line in
  let! p0 := PyStr.getitem parts 0 in
  let! msg :=
    if bool_decide (1 < length parts)%nat
    then let! p1 := PyStr.getitem parts 1 in Ok (PyStr.strip p1)
    else Ok EmptyString in
  Ok (PyStr.strip p0, msg).

(** [for line in reversed(lines): ... break], run on the reversed list
    with the values the two variables had before the loop. *)
Fixpoint scan_error (rlines : list string) (ty msg : string)
  : result (string * string) :=
  match rlines with
  | [] => Ok (ty, msg)
  | line :: rest =>
      if is_error_line line then split_error_line line
      else scan_error rest ty msg
  end.

Record frame_state : Type := {
  fs_file : option string;
  fs_line : option Z;
  fs_func : option string;
  fs_ctx : option string
}.

Definition frame_init : frame_state :=
  {| fs_file := None; fs_line := None; fs_func := None; fs_ctx := None |}.

(** One iteration of [for i, line in enumerate(lines)]. *)
Definition frame_step (lines : list string) (i : nat) (line : string)
  (st : frame_state) : result frame_state :=
  match search TRACEBACK_LINE_PATTERN line with
  | Some m =>
      let! digits := group_str m 2 in
      let! n := PyStr.py_int digits in
      let! ctx :=
        if bool_decide (i + 1 < length lines)%nat then
          let! nxt := PyStr.getitem lines (i + 1) in
          if PyStr.startswith "    " nxt then Ok (Some (PyStr.strip nxt))
          else Ok (fs_ctx st)
        else Ok (fs_ctx st) in
      Ok {| fs_file := group m 1; fs_line := Some n;
            fs_func := group m 3; fs_ctx := ctx |}
  | None => Ok st
  end.

Fixpoint frame_loop (lines : list string) (i : nat) (todo : list string)
  (st : frame_state) : result frame_state :=
  match todo with
  | [] => Ok st
  | line :: rest =>
      let! st' := frame_step lines i line st in
      frame_loop lines (S i) rest st'
  end.

Definition if_type (ty name : string) : bool := bool_decide (ty = name).

Definition _extract_error_values (ty msg : string)
  : result (gmap string string) :=
  let values : gmap string string := ∅ in
  if if_type ty "ModuleNotFoundError" then
    match search MODULE_NOT_FOUND_PATTERN msg with
    | Some m =>
        let! module := group_str m 1 in
        let values := <["module" := module]> values in
        let! package := Packages.get_correct_package_name module in
        Ok (<["package" := package]> values)
    | None => Ok values
    end
  else if if_type ty "ImportError" then
    match search IMPORT_ERROR_PATTERN msg with
    | Some m => let! name := group_str m 1 in Ok (<["name" := name]> values)
    | None => Ok values
    end
  else if if_type ty "NameError" then
    match search NAME_ERROR_PATTERN msg with
    | Some m => let! name := group_str m 1 in Ok (<["name" := name]> values)
    | None => Ok values
    end
  else if if_type ty "AttributeError" then
    match search ATTRIBUTE_ERROR_PATTERN msg with
    | Some m =>
        let! t := group_str m 1 in
        let values := <["type" := t]> values in
        let! a := group_str m 2 in
        Ok (<["attribute" := a]> values)
    | None => Ok values
    end
  else if if_type ty "KeyError" then
    match search KEY_ERROR_PATTERN msg with
    | Some m => let! key := group_str m 1 in Ok (<["key" := key]> values)
    | None => Ok values
    end
  else if if_type ty "FileNotFoundError" then
    match search FILE_NOT_FOUND_PATTERN msg with
    | Some m => let! path := group_str m 1 in Ok (<["path" := path]> values)
    | None => Ok values
    end
  else Ok values.

(** [traceback_text.strip().split(newline)] *)
Definition text_lines (traceback_text : string) : list string :=
  PyStr.split_chr PyStr.nl (PyStr.strip traceback_text).

Definition parse_traceback (traceback_text : string) : result ParsedError :=
  let lines := text_lines traceback_text in
  let! found := scan_error (rev lines) "UnknownError" "" in
  let ty := fst found in
  let msg := snd found in
  let! st := frame_loop lines 0 lines frame_init in
  let! values := _extract_error_values ty msg in
  Ok {| error_type := ty; error_message := msg;
        file_path := fs_file st; line_number := fs_line st;
        function_name := fs_func st; code_context := fs_ctx st;
        extracted_values := values |}.

(** Truth value of an optional string and of an optional integer. *)
Definition truthy_str (o : option string) : bool :=
  match o with Some s => PyStr.nonempty s | None => false end.
Definition truthy_int (o : option Z) : bool :=
  match o with Some n => negb (n =? 0) | None => false end.

(** The text after the [try] block of [_generate_claude_tip]. *)
Definition plain_tip (parsed : ParsedError) : string :=
  let location :=
    if truthy_str (file_path parsed) && truthy_int (line_number parsed)
    then " at " +:+ default "" (file_path parsed) +:+ ":"
         +:+ PyStr.str_of_Z (default 0 (line_number parsed))
    else "" in
  error_type parsed +:+ location +:+ ": " +:+ error_message parsed.

Definition _generate_claude_tip (parsed : ParsedError)
  (fix_ : option FixSuggestion) : result string :=
  match fix_ with
  | Some f =>
      if PyStr.nonempty (message_template f) then
        match Format.format (message_template f) (extracted_values parsed) with
        | Ok s => Ok s
        | Raise (KeyError _) => Ok (plain_tip parsed)
        | Raise e => Raise e
        end
      else Ok (plain_tip parsed)
  | None => Ok (plain_tip parsed)
  end.

Definition generic_next : string :=
  "Review the error and fix the underlying issue.".

Definition _generate_claude_next (parsed : ParsedError)
  (fix_ : option FixSuggestion) : result string :=
  if if_type (error_type parsed) "ModuleNotFoundError" then
    let package := default "" (extracted_values parsed !! "package") in
    if PyStr.nonempty package
    then Ok ("Install the missing package using: uv add " +:+ package)
    else Ok "Install the missing module using uv or pip."
  else if if_type (error_type parsed) "NameError" then
    let name := default "" (extracted_values parsed !! "name") in
    Ok ("Define '" +:+ name +:+ "' before using it, or check for typos.")
  else if if_type (error_type parsed) "FileNotFoundError" then
    Ok "Verify the file path. Use os.getcwd() to check current directory."
  else
    match fix_ with
    | Some f =>
        if truthy_str (action_template f) then
          let t := default "" (action_template f) in
          match Format.format t (extracted_values parsed) with
          | Ok s => Ok s
          | Raise (KeyError _) => Ok t
          | Raise e => Raise e
          end
        else Ok generic_next
    | None => Ok generic_next
    end.

(** The part of [_generate_action] after the ModuleNotFoundError branch. *)
Definition template_action (parsed : ParsedError)
  (fix_ : option FixSuggestion) : result (option string) :=
  match fix_ with
  | Some f =>
      if truthy_str (action_template f) then
        match Format.format (default "" (action_template f))
                (extracted_values parsed) with
        | Ok s => Ok (Some s)
        | Raise (KeyError _) => Ok None
        | Raise e => Raise e
        end
      else Ok None
  | None => Ok None
  end.

Definition _generate_action (parsed : ParsedError)
  (fix_ : option FixSuggestion) : result (option string) :=
  if if_type (error_type parsed) "ModuleNotFoundError" then
    let package := extracted_values parsed !! "package" in
    if truthy_str package
    then Ok (Some ("uv add " +:+ default "" package))
    else template_action parsed fix_
  else template_action parsed fix_.

Definition analyze_error (traceback_text : string) : result ErrorAnalysis :=
  let! parsed := parse_traceback traceback_text in
  let fix_ := ERROR_FIX_MAP !! error_type parsed in
  let! tip := _generate_claude_tip parsed fix_ in
  let! next := _generate_claude_next parsed fix_ in
  let! action := _generate_action parsed fix_ in
  Ok {| parsed_error := parsed; fix_suggestion := fix_;
        claude_tip := tip; claude_next := next;
        suggested_action := action |}.

End ErrorHandler.

(* ===================================================================== *)
(** * Response dictionaries: values, objects and the heap *)
(* ===================================================================== *)

Module Heap.

Definition loc := positive.

(** Values a response can hold under a key.  Strings, numbers and
    [None] are immutable; lists and dictionaries are objects in the heap
    and a value only refers to them. *)
Inductive val : Type :=
| VNone
| VBool (b : bool)
| VInt (z : Z)
| VStr (s : string)
| VRef (l : loc).

Inductive obj : Type :=
| ODict (d : gmap string val)
| OList (l : list val).

Abbreviation heap := (gmap loc obj).

(** Computations that read and update the heap and may raise. *)
Definition M (A : Type) : Type := heap -> result A * heap.

Definition ret {A} (a : A) : M A := fun h => (Ok a, h).

Definition bind {A B} (m : M A) (f : A -> M B) : M B :=
  fun h =>
    match m h with
    | (Ok a, h') => f a h'
    | (Raise e, h') => (Raise e, h')
    end.

Definition lift {A} (r : result A) : M A := fun h => (r, h).

Definition alloc (o : obj) : M loc :=
  fun h => let l := fresh (dom h) in (Ok l, <[l := o]> h).

(** [dict(d)]: a new dictionary with the items of [d]. *)
Definition dict_copy (d : loc) : M loc :=
  fun h =>
    match h !! d with
    | Some (ODict items) => alloc (ODict items) h
    | _ => (Raise TypeError, h)
    end.

(** [d[k] = v] *)
Definition setitem (d : loc) (k : string) (v : val) : M unit :=
  fun h =>
    match h !! d with
    | Some (ODict items) => (Ok tt, <[d := ODict (<[k := v]> items)]> h)
    | _ => (Raise TypeError, h)
    end.

(** [d[k]] *)
Definition getitem (d : loc) (k : string) : M val :=
  fun h =>
    match h !! d with
    | Some (ODict items) =>
        match items !! k with
        | Some v => (Ok v, h)
        | None => (Raise (KeyError k), h)
        end
    | _ => (Raise TypeError, h)
    end.

(** [d[k] += suffix] where [d[k]] holds a string. *)
Definition iadd_str (d : loc) (k : string) (suffix : string) : M unit :=
  bind (getitem d k) (fun v =>
    match v with
    | VStr s => setitem d k (VStr (s +:+ suffix))
    | _ => lift (Raise TypeError)
    end).

End Heap.

Declare Scope heap_scope.
Delimit Scope heap_scope with heap.
Notation "'do!' x ':=' m 'in' k" := (Heap.bind m (fun x => k))
  (at level 10, x name, m at level 100, k at level 200) : heap_scope.
Notation "m ';;;' k" := (Heap.bind m (fun _ => k))
  (at level 100, k at level 200, right associativity) : heap_scope.

(* ===================================================================== *)
(** * middleware/error_handler.py: [enrich_response] *)
(* ===================================================================== *)

Module Enrich.
Import Heap ErrorHandler.
Open Scope heap_scope.

Definition opt_str (o : option string) : val :=
  match o with Some s => VStr s | None => VNone end.
Definition opt_int (o : option Z) : val :=
  match o with Some n => VInt n | None => VNone end.

(** The dictionary literal stored under [error_details]. *)
Definition error_details (p : ParsedError) : gmap string val :=
  <["function" := opt_str (function_name p)]>
  (<["line" := opt_int (line_number p)]>
  (<["file" := opt_str (file_path p)]>
  (<["message" := VStr (error_message p)]>
  (<["type" := VStr (error_type p)]> ∅)))).

Definition enrich_response (response : loc) (traceback_text : string)
  : M loc :=
  do! analysis := lift (analyze_error traceback_text) in
  do! enriched := dict_copy response in
  setitem enriched "claude_tip" (VStr (claude_tip analysis)) ;;;
  setitem enriched "claude_next" (VStr (claude_next analysis)) ;;;
  (if truthy_str (suggested_action analysis)
   then setitem enriched "suggested_action"
          (VStr (default "" (suggested_action analysis)))
   else ret tt) ;;;
  do! details := alloc (ODict (error_details (parsed_error analysis))) in
  setitem enriched "error_details" (VRef details) ;;;
  ret enriched.

End Enrich.

(* ===================================================================== *)
(** * middleware/response_wrapper.py *)
(* ===================================================================== *)

Module ResponseWrapper.
Import Heap.
Open Scope heap_scope.

(** [v.endswith("_df") or v == "df"] *)
Definition is_df_var (v : string) : bool :=
  PyStr.endswith "_df" v || bool_decide (v = "df").

Definition nonempty_list {A} (l : list A) : bool :=
  match l with [] => false | _ :: _ => true end.

(** The two lists [tips] and [next_steps] of [wrap_execution_success]. *)
Definition success_lists (output : option string)
  (namespace_vars : option (list string))
  : result (list string * list string) :=
  let tips : list string := [] in
  let next_steps : list string := [] in
  let tips :=
    if ErrorHandler.truthy_str output
    then tips ++ ["Code executed successfully with output."]
    else tips ++ ["Code executed successfully (no output)."] in
  match namespace_vars with
  | Some vars =>
      if nonempty_list vars then
        let df_vars := filter (fun v => is_df_var v = true) vars in
        let! step1 :=
          if nonempty_list df_vars then
            let! first := PyStr.getitem df_vars 0 in
            Ok (tips ++ ["DataFrames available: " +:+ PyStr.join ", " df_vars],
                next_steps ++ ["Explore data with " +:+ first +:+ ".head() or "
                               +:+ first +:+ ".describe()"])
          else Ok (tips, next_steps) in
        if bool_decide (0 < length vars)%nat then
          Ok (fst step1 ++ ["Namespace contains "
                +:+ PyStr.str_of_Z (Z.of_nat (length vars)) +:+ " variable(s)."],
              snd step1 ++ ["Use jupyter_inspect_namespace() to see all defined variables."])
        else Ok step1
      else Ok (tips, next_steps)
  | None => Ok (tips, next_steps)
  end.

Definition wrap_execution_success (response : loc) (output : option string)
  (namespace_vars : option (list string)) : M loc :=
  do! enriched := dict_copy response in
  setitem enriched "status" (VStr "success") ;;;
  do! lists := lift (success_lists output namespace_vars) in
  let tips := fst lists in
  let next_steps := snd lists in
  setitem enriched "claude_tip"
    (VStr (if nonempty_list tips then PyStr.join " " tips
           else "Execution complete.")) ;;;
  setitem enriched "claude_next"
    (VStr (if nonempty_list next_steps then PyStr.join " " next_steps
           else "Continue with your analysis.")) ;;;
  ret enriched.

Definition wrap_execution_error (response : loc) (traceback_text : string)
  : M loc :=
  do! enriched := dict_copy response in
  setitem enriched "status" (VStr "error") ;;;
  Enrich.enrich_response enriched traceback_text.

Definition wrap_notebook_created (response : loc) (notebook_path : string)
  (kernel_name : option string) : M loc :=
  do! enriched := dict_copy response in
  setitem enriched "status" (VStr "success") ;;;
  setitem enriched "claude_tip"
    (VStr ("Notebook created at " +:+ notebook_path +:+ ".")) ;;;
  (if ErrorHandler.truthy_str kernel_name
   then iadd_str enriched "claude_tip"
          (" Using kernel: " +:+ default "" kernel_name +:+ ".")
   else ret tt) ;;;
  setitem enriched "claude_next"
    (VStr "Add cells with jupyter_add_cell() or execute code with jupyter_execute_cell().") ;;;
  ret enriched.

Definition wrap_cell_added (response : loc) (cell_type : string)
  (cell_index : Z) : M loc :=
  do! enriched := dict_copy response in
  setitem enriched "status" (VStr "success") ;;;
  setitem enriched "claude_tip"
    (VStr (PyStr.capitalize cell_type +:+ " cell added at index "
           +:+ PyStr.str_of_Z cell_index +:+ ".")) ;;;
  (if bool_decide (cell_type = "code")
   then setitem enriched "claude_next"
          (VStr "Execute the cell with jupyter_execute_cell().")
   else setitem enriched "claude_next"
          (VStr "Add more cells or execute existing code cells.")) ;;;
  ret enriched.

Definition wrap_kernel_status (response : loc) (is_alive : bool)
  (execution_count : option Z) : M loc :=
  do! enriched := dict_copy response in
  (if is_alive then
     setitem enriched "status" (VStr "running") ;;;
     setitem enriched "claude_tip"
       (VStr "Kernel is running and ready for execution.") ;;;
     (match execution_count with
      | Some n => iadd_str enriched "claude_tip"
                    (" Execution count: " +:+ PyStr.str_of_Z n +:+ ".")
      | None => ret tt
      end) ;;;
     setitem enriched "claude_next"
       (VStr "Execute code with jupyter_execute_cell().")
   else
     setitem enriched "status" (VStr "stopped") ;;;
     setitem enriched "claude_tip" (VStr "Kernel is not running.") ;;;
     setitem enriched "claude_next"
       (VStr "Start the kernel or create a new notebook.")) ;;;
  ret enriched.

Definition wrap_generic_success (response : loc) (operation : string)
  (details : option string) : M loc :=
  do! enriched := dict_copy response in
  setitem enriched "status" (VStr "success") ;;;
  setitem enriched "claude_tip"
    (VStr (operation +:+ " completed successfully.")) ;;;
  (if ErrorHandler.truthy_str details
   then iadd_str enriched "claude_tip" (" " +:+ default "" details)
   else ret tt) ;;;
  setitem enriched "claude_next" (VStr "Continue with your workflow.") ;;;
  ret enriched.

End ResponseWrapper.

(* ===================================================================== *)
(** * validate_jupyter_setup.py *)
(* ===================================================================== *)

Module Validate.

(** [@dataclass class CheckResult] *)
Record CheckResult := mkCheckResult {
  name : string;
  passed : bool;
  message : string;
  fix_hint : option string
}.

(** [check_env_var(var_name)], with [os.environ] as a map. *)
Definition check_env_var (environ : gmap string string) (var_name : string)
  : CheckResult :=
  let value := environ !! var_name in
  if ErrorHandler.truthy_str value then
    let value := default "" value in
    let masked :=
      if bool_decide (8 < String.length value)%nat
      then PyStr.take 4 value +:+ "..."
           +:+ PyStr.drop (String.length value - 4) value
      else "****" in
    mkCheckResult ("$" +:+ var_name) true ("Set (" +:+ masked +:+ ")") None
  else
    mkCheckResult ("$" +:+ var_name) false "Not set"
      (Some ("export " +:+ var_name +:+ "='your-value'")).

(** [s * n] on a string. *)
Fixpoint str_mul (s : string) (n : nat) : string :=
  match n with
  | O => ""
  | S n' => s +:+ str_mul s n'
  end.

Definition esc : ascii := "027"%char.
Definition green : string := String esc "[92m".
Definition red : string := String esc "[91m".
Definition reset : string := String esc "[0m".

(** Standard output as the list of the arguments of the [print] calls so
    far. *)
Definition print (line : string) (out : list string) : list string :=
  out ++ [line].

(** The loop of [print_results] over the results, carrying the flag
    [all_passed] and the output. *)
Fixpoint results_loop (results : list CheckResult) (all_passed : bool)
  (out : list string) : bool * list string :=
  match results with
  | [] => (all_passed, out)
  | result :: rest =>
      let status := if passed result then "[PASS]" else "[FAIL]" in
      let color := if passed result then green else red in
      let out :=
        print (color +:+ status +:+ reset +:+ " " +:+ name result
               +:+ ": " +:+ message result) out in
      let out :=
        if ErrorHandler.truthy_str (fix_hint result)
        then print ("       Fix: " +:+ default "" (fix_hint result)) out
        else out in
      let all_passed := if negb (passed result) then false else all_passed in
      results_loop rest all_passed out
  end.

(** [print_results(results)]: the value returned and the output after the
    call. *)
Definition print_results (results : list CheckResult) (out : list string)
  : bool * list string :=
  let out := print (String PyStr.nl "" +:+ str_mul "=" 60) out in
  let out := print "OpenCode Jupyter Integration - Validation Results" out in
  let out := print (str_mul "=" 60 +:+ String PyStr.nl "") out in
  let all_passed := true in
  let looped := results_loop results all_passed out in
  let all_passed := fst looped in
  let out := snd looped in
  let out := print (String PyStr.nl "" +:+ str_mul "-" 60) out in
  let out :=
    if all_passed
    then print (green +:+ "All checks passed! Your setup is ready." +:+ reset)
           out
    else print (red +:+ "Some checks failed. Please fix the issues above."
                +:+ reset) out in
  let out := print (str_mul "-" 60 +:+ String PyStr.nl "") out in
  (all_passed, out).

End Validate.

(* ===================================================================== *)
(** * Vocabulary of the specifications *)
(* ===================================================================== *)

Module Vocab.

(** The character [c] occurs in [s]. *)
Fixpoint mem_chr (c : ascii) (s : string) : bool :=
  match s with
  | String a s' => bool_decide (a = c) || mem_chr c s'
  | EmptyString => false
  end.

(** Every character of [s] belongs to the class [cls]. *)
Fixpoint all_cls (cls : ascii -> bool) (s : string) : bool :=
  match s with
  | String a s' => cls a && all_cls cls s'
  | EmptyString => true
  end.

(** [base] is the leading dotted component of [s]: it holds no dot and
    [s] is [base] alone or [base], a dot and more text. *)
Definition leading_component (base s : string) : Prop :=
  mem_chr "." base = false /\
  (s = base \/ exists rest, s = base +:+ String "." rest).

(** No element of [l] passes the test [p]. *)
Fixpoint none_of {A} (p : A -> bool) (l : list A) : bool :=
  match l with
  | [] => true
  | x :: rest => negb (p x) && none_of p rest
  end.

End Vocab.

Module ReSpec.
Import Vocab Re.

Section GroupContents.
Variable P : nat -> string -> Prop.

(** Every group of the pattern is a class repetition whose non-empty
    runs satisfy [P]. *)
Fixpoint groups_ok (r : re) : Prop :=
  match r with
  | Lit _ | Cls _ | Plus _ => True
  | Opt r1 => groups_ok r1
  | Seq r1 r2 => groups_ok r1 /\ groups_ok r2
  | Grp n (Plus cls) =>
      forall u, u <> "" -> all_cls cls u = true -> P n u
  | Grp _ _ => False
  end.

Definition caps_ok (c : captures) : Prop :=
  forall n u, c !! n = Some u -> P n u.

End GroupContents.

End ReSpec.

Module FormatSpec.
Import Format.

(** The template is built from literal text, the two brace escapes and
    plain named fields only; [field] is as in [fmt]. *)
Fixpoint well_formed (t : string) (field : option string) : bool :=
  match t, field with
  | EmptyString, None => true
  | EmptyString, Some _ => false
  | String c t', None =>
      if bool_decide (c = "{"%char) then
        match t' with
        | String c' t'' =>
            if bool_decide (c' = "{"%char) then well_formed t'' None
            else well_formed t' (Some EmptyString)
        | EmptyString => false
        end
      else if bool_decide (c = "}"%char) then
        match t' with
        | String c' t'' =>
            if bool_decide (c' = "}"%char) then well_formed t'' None
            else false
        | EmptyString => false
        end
      else well_formed t' None
  | String c t', Some name =>
      if bool_decide (c = "}"%char) then
        negb (all_digits name) && well_formed t' None
      else if field_special c then false
      else well_formed t' (Some (name +:+ String c EmptyString))
  end.

(** The template begins with a character that is no brace. *)
Definition starts_literal (t : string) : bool :=
  match t with
  | String c _ =>
      negb (bool_decide (c = "{"%char)) && negb (bool_decide (c = "}"%char))
  | EmptyString => false
  end.

(** A template the analyzer can render: well formed and led by literal
    text, so that its rendering is never empty. *)
Definition renderable (t : string) : bool :=
  well_formed t None && starts_literal t.

(** A catalog entry whose two templates are renderable. *)
Definition entry_ok (f : ErrorFixes.FixSuggestion) : bool :=
  renderable (ErrorFixes.message_template f) &&
  match ErrorFixes.action_template f with
  | Some t => renderable t
  | None => false
  end.

End FormatSpec.

Module FrameSpec.
Import ErrorHandler.

(** The frame pattern matches somewhere in the line. *)
Definition frame_line (line : string) : bool :=
  match Re.search TRACEBACK_LINE_PATTERN line with
  | Some _ => true
  | None => false
  end.

(** The two indentation tests of the parser: the backward scan asks for
    one leading space, the frame loop for four. *)
Definition indented1 (line : string) : bool := PyStr.startswith " " line.
Definition indented4 (line : string) : bool := PyStr.startswith "    " line.

(** No frame line of [l] is immediately followed, within [l], by a line
    that passes the indentation test [ind]. *)
Fixpoint ctx_kept (ind : string -> bool) (l : list string) : bool :=
  match l with
  | line :: rest =>
      negb (frame_line line &&
            match rest with nxt :: _ => ind nxt | [] => false end)
      && ctx_kept ind rest
  | [] => true
  end.

(** What the frame claim says of a parse [p] of [text], with [ind] as
    the meaning of an indented line: the location recorded is that of
    the last frame line, and the code context is the trimmed line after
    the last frame line that is followed by an indented line. *)
Definition frame_fields (ind : string -> bool) (text : string)
  (p : ParsedError) : Prop :=
  (forall pre line post m,
      text_lines text = pre ++ line :: post ->
      Re.search TRACEBACK_LINE_PATTERN line = Some m ->
      Vocab.none_of frame_line post = true ->
      file_path p = Re.group m 1 /\
      function_name p = Re.group m 3 /\
      exists d n, Re.group m 2 = Some d /\ PyStr.py_int d = Ok n /\
                  line_number p = Some n) /\
  (forall pre line nxt post,
      text_lines text = pre ++ line :: nxt :: post ->
      frame_line line = true ->
      ind nxt = true ->
      ctx_kept ind (nxt :: post) = true ->
      code_context p = Some (PyStr.strip nxt)).

(** The frame claim: the parser returns such a parse. *)
Definition frame_spec (ind : string -> bool) (text : string) : Prop :=
  exists p, parse_traceback text = Ok p /\ frame_fields ind text p.

(** The digits the frame pattern takes as the line number of a line it
    matches. *)
Definition frame_number (line : string) : option string :=
  match Re.search TRACEBACK_LINE_PATTERN line with
  | Some m => Re.group m 2
  | None => None
  end.

(** [int] converts the line number of the line, if it is a frame
    line: the number has no more digits than [int] accepts. *)
Definition number_fits (line : string) : bool :=
  match frame_number line with
  | Some d => (Z.of_nat (String.length d) <=? PyStr.int_max_str_digits)%Z
  | None => true
  end.

(** Every frame line of the text has a line number that [int]
    converts. *)
Definition digits_bounded (text : string) : bool :=
  forallb number_fits (text_lines text).

(** The text [v] does not continue a run of the class. *)
Definition ends_run (cls : ascii -> bool) (v : string) : Prop :=
  match v with
  | String a _ => cls a = false
  | EmptyString => True
  end.

(** The text of a frame line: [File], the path in double quotes,
    [, line], the digits and, when [fn] is given, [, in] and the
    function. *)
Definition frame_text (path digits : string) (fn : option string) : string :=
  "File " +:+ String PyStr.dq (path +:+ String PyStr.dq (", line " +:+ digits +:+
    match fn with Some f => ", in " +:+ f | None => "" end)).

Definition frame_groups (path digits : string) (fn : option string)
  : Re.captures :=
  match fn with
  | Some f => <[3%nat := f]> (<[2%nat := digits]> (<[1%nat := path]> ∅))
  | None => <[2%nat := digits]> (<[1%nat := path]> ∅)
  end.

(** A frame line followed by a source line indented by two spaces. *)
Definition two_space_trace : string :=
  PyStr.join (String PyStr.nl "")
    [ "File " +:+ String PyStr.dq "a.py" +:+ String PyStr.dq ", line 1";
      "  x = 1" ].

(** Two frames, each followed by its source line, and the error line. *)
Definition two_frame_trace : string :=
  PyStr.join (String PyStr.nl "")
    [ "Traceback (most recent call last):";
      "  File " +:+ String PyStr.dq "app.py"
        +:+ String PyStr.dq ", line 12, in main";
      "    run(data)";
      "  File " +:+ String PyStr.dq "lib.py"
        +:+ String PyStr.dq ", line 7, in run";
      "    return data[0]";
      "IndexError: list index out of range" ].

End FrameSpec.

Module EntryPoints.
Import Heap.

(** The enrichment entry points with their shape-specific arguments. *)
Inductive entry_point : Type :=
| ExecutionSuccess (output : option string)
    (namespace_vars : option (list string))
| ExecutionError (traceback_text : string)
| NotebookCreated (notebook_path : string) (kernel_name : option string)
| CellAdded (cell_type : string) (cell_index : Z)
| KernelStatus (is_alive : bool) (execution_count : option Z)
| GenericSuccess (operation : string) (details : option string)
| EnrichResponse (traceback_text : string).

(** Calling an entry point on the response stored at [response]. *)
Definition call (ep : entry_point) (response : loc) : M loc :=
  match ep with
  | ExecutionSuccess output namespace_vars =>
      ResponseWrapper.wrap_execution_success response output namespace_vars
  | ExecutionError traceback_text =>
      ResponseWrapper.wrap_execution_error response traceback_text
  | NotebookCreated notebook_path kernel_name =>
      ResponseWrapper.wrap_notebook_created response notebook_path kernel_name
  | CellAdded cell_type cell_index =>
      ResponseWrapper.wrap_cell_added response cell_type cell_index
  | KernelStatus is_alive execution_count =>
      ResponseWrapper.wrap_kernel_status response is_alive execution_count
  | GenericSuccess operation details =>
      ResponseWrapper.wrap_generic_success response operation details
  | EnrichResponse traceback_text =>
      Enrich.enrich_response response traceback_text
  end.

Definition wrapper_keys : list string :=
  ["status"; "claude_tip"; "claude_next"].
Definition enrich_keys : list string :=
  ["claude_tip"; "claude_next"; "suggested_action"; "error_details"].

(** The keys an entry point assigns in the dictionary it returns. *)
Definition written_keys (ep : entry_point) : list string :=
  match ep with
  | EnrichResponse _ => enrich_keys
  | ExecutionError _ => "status" :: enrich_keys
  | _ => wrapper_keys
  end.

(** The keys an entry point assigns on every call. *)
Definition guaranteed_keys (ep : entry_point) : list string :=
  match ep with
  | EnrichResponse _ => ["claude_tip"; "claude_next"; "error_details"]
  | ExecutionError _ =>
      ["status"; "claude_tip"; "claude_next"; "error_details"]
  | _ => wrapper_keys
  end.

(** What a call that starts in heap [h], on a response holding the
    items [d], has done when it ends with [out]: it returned a location
    [l] that was free in [h] and now holds a dictionary [d']; every
    object of [h] is as it was; [d'] agrees with [d] outside the keys
    [W]; and the keys [G] are present in [d']. *)
Definition enriched_post (W G : list string) (h : heap)
  (d : gmap string val) (out : result loc * heap) : Prop :=
  exists l d',
    out.1 = Ok l /\
    h !! l = None /\
    out.2 !! l = Some (ODict d') /\
    (forall l0, is_Some (h !! l0) -> out.2 !! l0 = h !! l0) /\
    (forall k, k ∉ W -> d' !! k = d !! k) /\
    (forall k, k ∈ G -> is_Some (d' !! k)).

(** The trace text an entry point analyses, if it analyses one. *)
Definition analysed (ep : entry_point) : option string :=
  match ep with
  | ExecutionError traceback_text | EnrichResponse traceback_text =>
      Some traceback_text
  | _ => None
  end.

(** The frame lines of the text an entry point analyses have line
    numbers that [int] converts. *)
Definition call_defined (ep : entry_point) : bool :=
  match analysed ep with
  | Some text => FrameSpec.digits_bounded text
  | None => true
  end.




End EntryPoints.

(* ===================================================================== *)
(** * Claims as the specification words them, and sample inputs *)
(* ===================================================================== *)

Module Claims.
Import Packages.

(** The resolver claim as the specification words it, at one input. *)
Definition resolver_claim (s : string) : Prop :=
  exists base r,
    base_module s = Ok base /\
    get_correct_package_name s = Ok r /\
    match PACKAGE_NAME_MAP !! base with
    | Some pkg => r = pkg
    | None => r = s
    end /\
    r <> "".

(** The claim that one value is never returned, at one input. *)
Definition never_core (s : string) : Prop :=
  get_correct_package_name s <> Ok "google-cloud-core".

(** No line of the text passes the test of the backward scan: there is
    no unindented line holding the separator. *)
Definition no_error_line (text : string) : Prop :=
  Vocab.none_of ErrorHandler.is_error_line (ErrorHandler.text_lines text)
  = true.

(** The unknown-error claim as the specification words it: when no line
    of the text, split at newlines, is unindented and holds the
    separator, the kind is the sentinel and the whole trimmed text
    becomes the message. *)
Definition unknown_claim (text : string) : Prop :=
  Vocab.none_of ErrorHandler.is_error_line (PyStr.split_chr PyStr.nl text)
  = true ->
  exists p, ErrorHandler.parse_traceback text = Ok p /\
    ErrorHandler.error_type p = "UnknownError" /\
    ErrorHandler.error_message p = PyStr.strip text.

(** The error-kind claim as the specification words it: never empty, and
    the sentinel exactly when no typed line is found. *)
Definition kind_claim (text : string) : Prop :=
  exists p, ErrorHandler.parse_traceback text = Ok p /\
    ErrorHandler.error_type p <> "" /\
    (ErrorHandler.error_type p = "UnknownError" <-> no_error_line text).

(** The final typed line of the cv2 scenario. *)
Definition cv2_line : string := "ModuleNotFoundError: No module named 'cv2'".

(** The preservation claim as the specification words it: every pair
    of the response is in the returned dictionary. *)
Definition preserve_claim (ep : EntryPoints.entry_point) (h : Heap.heap)
  (r : Heap.loc) : Prop :=
  forall d, h !! r = Some (Heap.ODict d) ->
  exists l h' d',
    EntryPoints.call ep r h = (Ok l, h') /\
    h' !! l = Some (Heap.ODict d') /\
    forall k v, d !! k = Some v -> d' !! k = Some v.




(** A heap with one response that already has a status. *)
Definition queued_heap : Heap.heap :=
  {[ 1%positive := Heap.ODict {[ "status" := Heap.VStr "queued" ]} ]}.

(** A heap with the response of the success scenario. *)
Definition ok_heap : Heap.heap :=
  {[ 1%positive := Heap.ODict {[ "output" := Heap.VStr "ok" ]} ]}.

(** The trace of the cv2 scenario as an interpreter prints it. *)
Definition cv2_trace : string :=
  PyStr.join (String PyStr.nl "")
    [ "Traceback (most recent call last):";
      "  File " +:+ String PyStr.dq "test.py"
        +:+ String PyStr.dq ", line 1, in <module>";
      "    import cv2";
      cv2_line ].

End Claims.

(* ===================================================================== *)
(** * Vocabulary of the further properties *)
(* ===================================================================== *)

Module MoreSpec.
Import ErrorHandler.

(** The location fields of a parse are all absent, or a non-empty file
    path and a line number that is not negative are both present. *)
Definition location_ok (p : ParsedError) : Prop :=
  (file_path p = None /\ line_number p = None /\
   function_name p = None /\ code_context p = None) \/
  (exists f n, file_path p = Some f /\ f <> "" /\
               line_number p = Some n /\ 0 <= n).

(** The same on the state of the frame loop. *)
Definition frame_state_ok (st : frame_state) : Prop :=
  (fs_file st = None /\ fs_line st = None /\
   fs_func st = None /\ fs_ctx st = None) \/
  (exists f n, fs_file st = Some f /\ f <> "" /\
               fs_line st = Some n /\ 0 <= n).

(** What the extraction can have recorded for an error kind: nothing,
    or exactly the keys of that kind's rule. *)
Definition values_shape (ty : string) (v : gmap string string) : Prop :=
  v = ∅ \/
  (ty = "ModuleNotFoundError" /\ exists m pkg,
     m <> "" /\ pkg <> "" /\ Packages.get_correct_package_name m = Ok pkg /\
     v = <["package" := pkg]> (<["module" := m]> ∅)) \/
  (ty = "ImportError" /\ exists n, n <> "" /\ v = <["name" := n]> ∅) \/
  (ty = "NameError" /\ exists n, n <> "" /\ v = <["name" := n]> ∅) \/
  (ty = "AttributeError" /\ exists t a,
     t <> "" /\ a <> "" /\ v = <["attribute" := a]> (<["type" := t]> ∅)) \/
  (ty = "KeyError" /\ exists k, k <> "" /\ v = <["key" := k]> ∅) \/
  (ty = "FileNotFoundError" /\ exists p, p <> "" /\ v = <["path" := p]> ∅).

(** The message of a NameError for the name [x], and of a
    ModuleNotFoundError for the module [m]. *)
Definition name_msg (x : string) : string :=
  "name " +:+ String PyStr.sq (x +:+ String PyStr.sq " is not defined").

Definition module_msg (m : string) : string :=
  "No module named " +:+ String PyStr.sq (m +:+ String PyStr.sq "").

(** The template holds no brace, so it has no placeholder. *)
Definition no_brace (t : string) : bool :=
  negb (Vocab.mem_chr "{" t) && negb (Vocab.mem_chr "}" t).

(** The entry points that do not analyse a trace. *)
Definition simple (ep : EntryPoints.entry_point) : bool :=
  match ep with
  | EntryPoints.ExecutionError _ | EntryPoints.EnrichResponse _ => false
  | _ => true
  end.

(** The status an entry point assigns; [enrich_response] assigns none. *)
Definition status_written (ep : EntryPoints.entry_point) : option string :=
  match ep with
  | EntryPoints.ExecutionError _ => Some "error"
  | EntryPoints.KernelStatus true _ => Some "running"
  | EntryPoints.KernelStatus false _ => Some "stopped"
  | EntryPoints.EnrichResponse _ => None
  | _ => Some "success"
  end.

(** The items of the copy after [enrich_response] has assigned the tip,
    the next step and, when the analysis has one, the action. *)
Definition enriched_items (d : gmap string Heap.val) (a : ErrorAnalysis)
  : gmap string Heap.val :=
  let base :=
    <["claude_next" := Heap.VStr (claude_next a)]>
      (<["claude_tip" := Heap.VStr (claude_tip a)]> d) in
  match suggested_action a with
  | Some s => <["suggested_action" := Heap.VStr s]> base
  | None => base
  end.

End MoreSpec.

(* ===================================================================== *)
(** * Vocabulary of the validation report *)
(* ===================================================================== *)

Module ValidateSpec.
Import Validate.

(** The lines printed for one result: the verdict line, and the fix line
    when the result carries a non-empty hint. *)
Definition lines_for (r : CheckResult) : nat :=
  if ErrorHandler.truthy_str (fix_hint r) then 2%nat else 1%nat.

Definition header : list string :=
  [ String PyStr.nl "" +:+ str_mul "=" 60;
    "OpenCode Jupyter Integration - Validation Results";
    str_mul "=" 60 +:+ String PyStr.nl "" ].

Definition footer (all_passed : bool) : list string :=
  [ String PyStr.nl "" +:+ str_mul "-" 60;
    if all_passed
    then green +:+ "All checks passed! Your setup is ready." +:+ reset
    else red +:+ "Some checks failed. Please fix the issues above."
         +:+ reset;
    str_mul "-" 60 +:+ String PyStr.nl "" ].

End ValidateSpec.
(* ===================================================================== *)
(** * Facts about the string primitives *)
(* ===================================================================== *)

Module PyStrFacts.
Import PyStr Vocab.

Lemma split_chr_cons c s : exists h t, split_chr c s = h :: t.
Proof.
  destruct s as [|a s]; simpl; [by eauto|].
  case_bool_decide; [by eauto|].
  destruct (split_chr c s); eauto.
Qed.

Lemma split_chr_head c s h t :
  split_chr c s = h :: t ->
  mem_chr c h = false /\ (s = h \/ exists rest, s = h +:+ String c rest).
Proof.
  revert h t. induction s as [|a s IH]; simpl; intros h t Hs.
  - inversion Hs; subst. split; [done|by left].
  - case_bool_decide as Hac.
    + inversion Hs; subst. split; [done|]. right. by exists s.
    + destruct (split_chr c s) as [|h' t'] eqn:Hsp.
      { destruct (split_chr_cons c s) as (? & ? & ?); congruence. }
      inversion Hs; subst. destruct (IH h' t eq_refl) as [Hm Hform].
      split.
      * simpl. rewrite Hm. by rewrite bool_decide_eq_false_2.
      * destruct Hform as [->|[rest ->]]; [by left|right; by exists rest].
Qed.

End PyStrFacts.

(* ===================================================================== *)
(** * The package-name resolver *)
(* ===================================================================== *)

Module PackagesFacts.
Import PyStr Vocab Packages PyStrFacts Claims.

Lemma base_module_spec s :
  exists base, base_module s = Ok base /\ leading_component base s.
Proof.
  unfold base_module.
  destruct (split_chr_cons "." s) as (h & t & Hs). rewrite Hs.
  exists h. split; [done|]. by apply split_chr_head in Hs.
Qed.

Lemma package_items_lookup k v :
  PACKAGE_NAME_MAP !! k = Some v -> (k, v) ∈ PACKAGE_NAME_ITEMS.
Proof. apply elem_of_list_to_map_2. Qed.

(** Every value of the table is a non-empty string. *)
Lemma package_values_nonempty :
  Forall (fun kv => kv.2 <> EmptyString) PACKAGE_NAME_ITEMS.
Proof. unfold PACKAGE_NAME_ITEMS. repeat constructor; discriminate. Qed.

(** The only entry whose value is [google-cloud-core] has a dotted key. *)
Lemma package_core_key :
  Forall (fun kv => kv.2 = "google-cloud-core" -> kv.1 = "google.cloud")
    PACKAGE_NAME_ITEMS.
Proof.
  unfold PACKAGE_NAME_ITEMS. repeat constructor; simpl; congruence.
Qed.

Lemma get_correct_package_name_unfold s base :
  base_module s = Ok base ->
  get_correct_package_name s = Ok (default s (PACKAGE_NAME_MAP !! base)).
Proof. unfold get_correct_package_name. by intros ->. Qed.

Lemma get_correct_package_name_total s :
  exists r, get_correct_package_name s = Ok r /\ (s <> "" -> r <> "").
Proof.
  destruct (base_module_spec s) as (base & Hb & _).
  rewrite (get_correct_package_name_unfold _ _ Hb).
  eexists; split; [reflexivity|]. intros Hs.
  destruct (PACKAGE_NAME_MAP !! base) as [v|] eqn:Hl; simpl; [|exact Hs].
  apply package_items_lookup in Hl.
  by apply (proj1 (Forall_forall _ _) package_values_nonempty) in Hl.
Qed.

(** C5, as stated, fails at the empty string: its leading component is
    no key of the table, so the empty string itself comes back. *)
Lemma resolver_claim_fails_on_empty : ~ resolver_claim "".
Proof.
  intros (base & r & Hb & Hr & _ & Hne).
  vm_compute in Hr. congruence.
Qed.

(** C5 (amended): for every string [s] the resolver returns without
    raising; the result is the table's value for the leading dotted
    component of [s] when that component is a key, and [s] itself
    otherwise; and the result is non-empty whenever [s] is non-empty. *)
Theorem resolver_total_and_nonempty s :
  exists base r,
    base_module s = Ok base /\
    leading_component base s /\
    get_correct_package_name s = Ok r /\
    match PACKAGE_NAME_MAP !! base with
    | Some pkg => r = pkg
    | None => r = s
    end /\
    (s <> "" -> r <> "").
Proof.
  destruct (base_module_spec s) as (base & Hb & Hlead).
  destruct (get_correct_package_name_total s) as (r & Hr & Hne).
  exists base, r.
  split; [exact Hb|]. split; [exact Hlead|]. split; [exact Hr|].
  split; [|exact Hne].
  rewrite (get_correct_package_name_unfold _ _ Hb) in Hr.
  destruct (PACKAGE_NAME_MAP !! base); simpl in Hr; congruence.
Qed.

Lemma resolver_total_and_nonempty_witness :
  exists base r,
    base_module "sklearn.ensemble" = Ok base /\
    leading_component base "sklearn.ensemble" /\
    get_correct_package_name "sklearn.ensemble" = Ok r /\
    r = "scikit-learn" /\ r <> "".
Proof.
  destruct (resolver_total_and_nonempty "sklearn.ensemble")
    as (base & r & Hb & Hl & Hr & Hm & Hne).
  exists base, r.
  split; [exact Hb|]. split; [exact Hl|]. split; [exact Hr|].
  split; [|apply Hne; discriminate].
  vm_compute in Hb. injection Hb as <-. vm_compute in Hm. exact Hm.
Defined.

(** C10, as stated, fails when the input already spells the value: an
    unmapped name is returned verbatim. *)
Lemma never_core_fails_on_itself : ~ never_core "google-cloud-core".
Proof. intros H. apply H. vm_compute. reflexivity. Qed.

(** C10 (amended): the lookup key is the input up to its first dot and
    so never holds a dot; the entry keyed [google.cloud] is unreachable,
    [google.cloud] resolves to itself, and the resolver returns
    [google-cloud-core] exactly when the input is that very string. *)
Theorem dotted_key_unreachable s :
  (exists base, base_module s = Ok base /\ mem_chr "." base = false /\
                base <> "google.cloud") /\
  (get_correct_package_name s = Ok "google-cloud-core" <->
   s = "google-cloud-core") /\
  get_correct_package_name "google.cloud" = Ok "google.cloud".
Proof.
  destruct (base_module_spec s) as (base & Hb & Hdot & Hform).
  assert (base <> "google.cloud") as Hne by (intros ->; by vm_compute in Hdot).
  split; [exists base; split; [exact Hb|split; [exact Hdot|exact Hne]]|].
  split; [|vm_compute; reflexivity].
  rewrite (get_correct_package_name_unfold _ _ Hb). split.
  - destruct (PACKAGE_NAME_MAP !! base) as [v|] eqn:Hl; simpl; [|congruence].
    intros [= ->]. apply package_items_lookup in Hl.
    by apply (proj1 (Forall_forall _ _) package_core_key) in Hl.
  - intros ->. vm_compute in Hb. injection Hb as <-.
    vm_compute. reflexivity.
Qed.

Lemma dotted_key_unreachable_witness :
  get_correct_package_name "google.cloud.storage" <> Ok "google-cloud-core".
Proof.
  destruct (dotted_key_unreachable "google.cloud.storage") as (_ & Hiff & _).
  intros H. apply Hiff in H. discriminate H.
Defined.

End PackagesFacts.

(* ===================================================================== *)
(** * Facts about the pattern matcher *)
(* ===================================================================== *)

Module ReFacts.
Import PyStr Vocab Re ReSpec.

Lemma app_cons a u s : String a u +:+ s = String a (u +:+ s).
Proof. reflexivity. Qed.

Lemma app_empty s : "" +:+ s = s.
Proof. reflexivity. Qed.

Lemma app_assoc' u v s : (u +:+ v) +:+ s = u +:+ (v +:+ s).
Proof. induction u as [|a u IH]; [done|]. by rewrite !app_cons, IH. Qed.

Lemma str_length_app u s :
  String.length (u +:+ s) = (String.length u + String.length s)%nat.
Proof. induction u as [|a u IH]; [done|]. rewrite app_cons. simpl. lia. Qed.

Lemma take_app u s :
  take (String.length (u +:+ s) - String.length s) (u +:+ s) = u.
Proof.
  rewrite str_length_app.
  replace (String.length u + String.length s - String.length s)%nat
    with (String.length u) by lia.
  induction u as [|a u IH]; [by destruct s|].
  rewrite app_cons. simpl. by rewrite IH.
Qed.

Lemma startswith_app l s :
  startswith l s = true -> s = l +:+ drop (String.length l) s.
Proof.
  revert s. induction l as [|a l IH]; intros s H; [done|].
  destruct s as [|b s]; [done|]. simpl in H.
  apply andb_true_iff in H as [Hab Hl]. apply bool_decide_eq_true in Hab.
  subst. rewrite app_cons. simpl. by rewrite <- (IH _ Hl).
Qed.

(** Each way a class repetition matches consumes a non-empty run of the
    class. *)
Lemma plus_alts_spec cls s s' :
  s' ∈ plus_alts cls s ->
  exists u, s = u +:+ s' /\ u <> "" /\ all_cls cls u = true.
Proof.
  revert s'. induction s as [|a s IH]; intros s' H; simpl in H.
  - by apply elem_of_nil in H.
  - destruct (cls a) eqn:Ha; [|by apply elem_of_nil in H].
    apply elem_of_app in H as [H|H].
    + destruct (IH _ H) as (u & -> & _ & Hu).
      exists (String a u). split; [done|]. split; [done|].
      simpl. by rewrite Ha, Hu.
    + apply list_elem_of_singleton in H as ->.
      exists (String a ""). split; [done|]. split; [done|].
      simpl. by rewrite Ha.
Qed.

(** A match consumes a prefix of the subject. *)
Lemma matches_suffix r s c s' c' :
  (s', c') ∈ matches r s c -> exists u, s = u +:+ s'.
Proof.
  revert s c s' c'. induction r as [l|cls|cls|r IH|r1 IH1 r2 IH2|n r IH];
    intros s c s' c' H; simpl in H.
  - destruct (startswith l s) eqn:Hl; [|by apply elem_of_nil in H].
    apply list_elem_of_singleton in H. injection H as -> ->.
    exists l. by apply startswith_app.
  - destruct s as [|a s]; [by apply elem_of_nil in H|].
    destruct (cls a); [|by apply elem_of_nil in H].
    apply list_elem_of_singleton in H. injection H as -> ->.
    by exists (String a "").
  - apply list_elem_of_fmap in H as (x & [= -> ->] & Hx).
    destruct (plus_alts_spec _ _ _ Hx) as (u & -> & _). by exists u.
  - apply elem_of_app in H as [H|H]; [by eapply IH|].
    apply list_elem_of_singleton in H. injection H as -> ->. by exists "".
  - apply list_elem_of_bind in H as ([s1 c1] & H2 & H1).
    destruct (IH1 _ _ _ _ H1) as (u1 & ->).
    destruct (IH2 _ _ _ _ H2) as (u2 & ->).
    exists (u1 +:+ u2). by rewrite app_assoc'.
  - apply list_elem_of_fmap in H as ([s1 c1] & [= -> ->] & Hx).
    by eapply IH.
Qed.

(** Groups outside a pattern are left as they were. *)
Lemma matches_frame r s c s' c' n :
  (s', c') ∈ matches r s c -> n ∉ groups r -> c' !! n = c !! n.
Proof.
  revert s c s' c'. induction r as [l|cls|cls|r IH|r1 IH1 r2 IH2|m r IH];
    intros s c s' c' H Hn; simpl in H, Hn.
  - destruct (startswith l s); [|by apply elem_of_nil in H].
    apply list_elem_of_singleton in H. by injection H as -> ->.
  - destruct s as [|a s]; [by apply elem_of_nil in H|].
    destruct (cls a); [|by apply elem_of_nil in H].
    apply list_elem_of_singleton in H. by injection H as -> ->.
  - by apply list_elem_of_fmap in H as (x & [= -> ->] & Hx).
  - apply elem_of_app in H as [H|H]; [by eapply IH|].
    apply list_elem_of_singleton in H. by injection H as -> ->.
  - apply list_elem_of_bind in H as ([s1 c1] & H2 & H1).
    rewrite not_elem_of_app in Hn. destruct Hn as [Hn1 Hn2].
    rewrite (IH2 _ _ _ _ H2 Hn2). by eapply IH1.
  - apply list_elem_of_fmap in H as ([s1 c1] & [= -> ->] & Hx).
    apply not_elem_of_cons in Hn as [Hnm Hn].
    rewrite lookup_insert_ne by done. by eapply IH.
Qed.

(** A group once set stays set. *)
Lemma matches_mono r s c s' c' n :
  (s', c') ∈ matches r s c -> is_Some (c !! n) -> is_Some (c' !! n).
Proof.
  revert s c s' c'. induction r as [l|cls|cls|r IH|r1 IH1 r2 IH2|m r IH];
    intros s c s' c' H Hn; simpl in H.
  - destruct (startswith l s); [|by apply elem_of_nil in H].
    apply list_elem_of_singleton in H. by injection H as -> ->.
  - destruct s as [|a s]; [by apply elem_of_nil in H|].
    destruct (cls a); [|by apply elem_of_nil in H].
    apply list_elem_of_singleton in H. by injection H as -> ->.
  - by apply list_elem_of_fmap in H as (x & [= -> ->] & Hx).
  - apply elem_of_app in H as [H|H]; [by eapply IH|].
    apply list_elem_of_singleton in H. by injection H as -> ->.
  - apply list_elem_of_bind in H as ([s1 c1] & H2 & H1).
    eapply IH2; [done|]. by eapply IH1.
  - apply list_elem_of_fmap in H as ([s1 c1] & [= -> ->] & Hx).
    destruct (decide (m = n)) as [->|Hne].
    + rewrite lookup_insert_eq. by eexists.
    + rewrite lookup_insert_ne by done. by eapply IH.
Qed.

(** Every group in [binds r] is set by every match of [r]. *)
Lemma matches_binds r s c s' c' n :
  (s', c') ∈ matches r s c -> n ∈ binds r -> is_Some (c' !! n).
Proof.
  revert s c s' c'. induction r as [l|cls|cls|r IH|r1 IH1 r2 IH2|m r IH];
    intros s c s' c' H Hn; simpl in H, Hn;
    try by apply elem_of_nil in Hn.
  - apply list_elem_of_bind in H as ([s1 c1] & H2 & H1).
    apply elem_of_app in Hn as [Hn|Hn].
    + eapply matches_mono; [done|]. by eapply IH1.
    + by eapply IH2.
  - apply list_elem_of_fmap in H as ([s1 c1] & [= -> ->] & Hx).
    apply elem_of_cons in Hn as [->|Hn].
    + rewrite lookup_insert_eq. by eexists.
    + destruct (decide (m = n)) as [->|Hne].
      * rewrite lookup_insert_eq. by eexists.
      * rewrite lookup_insert_ne by done. by eapply IH.
Qed.

Section GroupContents.
Variable P : nat -> string -> Prop.

Lemma matches_caps_ok r s c s' c' :
  groups_ok P r -> caps_ok P c -> (s', c') ∈ matches r s c -> caps_ok P c'.
Proof.
  revert s c s' c'. induction r as [l|cls|cls|r IH|r1 IH1 r2 IH2|m r IH];
    intros s c s' c' Hr Hc H; simpl in H.
  - destruct (startswith l s); [|by apply elem_of_nil in H].
    apply list_elem_of_singleton in H. by injection H as -> ->.
  - destruct s as [|a s]; [by apply elem_of_nil in H|].
    destruct (cls a); [|by apply elem_of_nil in H].
    apply list_elem_of_singleton in H. by injection H as -> ->.
  - by apply list_elem_of_fmap in H as (x & [= -> ->] & Hx).
  - apply elem_of_app in H as [H|H]; [by eapply IH|].
    apply list_elem_of_singleton in H. by injection H as -> ->.
  - destruct Hr as [Hr1 Hr2].
    apply list_elem_of_bind in H as ([s1 c1] & H2 & H1).
    eapply IH2; [done| |done]. by eapply IH1.
  - apply list_elem_of_fmap in H as ([s1 c1] & [= -> ->] & Hx).
    destruct r as [| |cls| | |]; try done. simpl in Hx.
    apply list_elem_of_fmap in Hx as (x & [= -> ->] & Hx).
    destruct (plus_alts_spec _ _ _ Hx) as (u & -> & Hne & Hu).
    rewrite take_app. intros n v Hv.
    destruct (decide (m = n)) as [->|Hmn].
    + rewrite lookup_insert_eq in Hv. injection Hv as <-. by apply Hr.
    + rewrite lookup_insert_ne in Hv by done. by apply Hc.
Qed.

End GroupContents.

Lemma search_matches r s c :
  search r s = Some c -> exists s0 s', (s', c) ∈ matches r s0 ∅.
Proof.
  induction s as [|a s IH]; simpl.
  - destruct (matches r "" ∅) as [|[s' c'] l] eqn:Hm; [done|].
    intros [= ->]. exists "", s'. rewrite Hm. apply elem_of_cons; by left.
  - destruct (matches r (String a s) ∅) as [|[s' c'] l] eqn:Hm; [done|].
    intros [= ->]. exists (String a s), s'. rewrite Hm.
    apply elem_of_cons; by left.
Qed.

Lemma search_binds r s c n :
  search r s = Some c -> n ∈ binds r -> is_Some (c !! n).
Proof.
  intros (s0 & s' & H)%search_matches Hn. by eapply matches_binds.
Qed.

Lemma search_caps_ok P r s c :
  groups_ok P r -> search r s = Some c -> caps_ok P c.
Proof.
  intros Hr (s0 & s' & H)%search_matches.
  eapply matches_caps_ok; [done| |done]. intros n u Hn.
  by rewrite lookup_empty in Hn.
Qed.

Lemma search_group_str P r s c n :
  groups_ok P r -> n ∈ binds r -> search r s = Some c ->
  exists u, group_str c n = Ok u /\ P n u.
Proof.
  intros Hr Hn Hs. destruct (search_binds _ _ _ _ Hs Hn) as [u Hu].
  exists u. unfold group_str, group. rewrite Hu. split; [done|].
  by eapply search_caps_ok.
Qed.

Lemma int_go_digits s acc :
  all_cls isdigit s = true -> exists n, int_go acc s = Ok n.
Proof.
  revert acc. induction s as [|a s IH]; intros acc H; simpl; [by eauto|].
  simpl in H. apply andb_true_iff in H as [-> Hs]. by apply IH.
Qed.

(** [int] converts a non-empty run of digits that is no longer than the
    limit, and raises on a longer string. *)
Lemma py_int_fits s :
  s <> "" -> all_cls isdigit s = true ->
  (Z.of_nat (String.length s) <=? int_max_str_digits) = true ->
  exists n, py_int s = Ok n.
Proof.
  intros Hne H Hlen. destruct s as [|a s]; [done|]. unfold py_int.
  apply Z.leb_le in Hlen.
  rewrite (proj2 (Z.ltb_ge _ _)) by exact Hlen.
  by apply int_go_digits.
Qed.

Lemma py_int_long s :
  (Z.of_nat (String.length s) <=? int_max_str_digits) = false ->
  py_int s = Raise ValueError.
Proof.
  intros Hlen. destruct s as [|a s]; [done|]. unfold py_int.
  apply Z.leb_gt in Hlen.
  by rewrite (proj2 (Z.ltb_lt _ _)) by exact Hlen.
Qed.

End ReFacts.

(* ===================================================================== *)
(** * When the parser returns *)
(* ===================================================================== *)

Module ParserFacts.
Import PyStr Vocab Re ReSpec ReFacts Packages PackagesFacts ErrorHandler.
Import FrameSpec.

Lemma rbind_ok {A B} (a : A) (f : A -> result B) : rbind (Ok a) f = f a.
Proof. reflexivity. Qed.

Ltac unfold_patterns :=
  unfold MODULE_NOT_FOUND_PATTERN, IMPORT_ERROR_PATTERN, NAME_ERROR_PATTERN,
    ATTRIBUTE_ERROR_PATTERN, KEY_ERROR_PATTERN, FILE_NOT_FOUND_PATTERN,
    TRACEBACK_LINE_PATTERN, quoted.
Ltac pattern_groups_ok := unfold_patterns; simpl; repeat split; auto.
Ltac pattern_binds := unfold_patterns; simpl; repeat constructor.

Lemma traceback_groups_ok :
  groups_ok (fun n u => u <> "" /\ (n = 2%nat -> all_cls isdigit u = true))
    TRACEBACK_LINE_PATTERN.
Proof.
  unfold TRACEBACK_LINE_PATTERN. simpl.
  repeat split; auto; intros; congruence.
Qed.

(** On a frame line the step converts the digits of group 2 and, if
    that succeeds, records the three groups, and the next line,
    trimmed, when it begins with four spaces. *)
Lemma frame_step_match lines i line st m :
  search TRACEBACK_LINE_PATTERN line = Some m ->
  exists d, group m 2 = Some d /\ d <> "" /\ all_cls isdigit d = true /\
    frame_step lines i line st =
      let! n := py_int d in
      Ok {| fs_file := group m 1; fs_line := Some n; fs_func := group m 3;
            fs_ctx := match lines !! (i + 1)%nat with
                      | Some nxt =>
                          if indented4 nxt then Some (strip nxt)
                          else fs_ctx st
                      | None => fs_ctx st
                      end |}.
Proof.
  intros Hm. unfold frame_step. rewrite Hm.
  assert (2%nat ∈ binds TRACEBACK_LINE_PATTERN) as Hb by pattern_binds.
  destruct (search_group_str _ _ _ _ _ traceback_groups_ok Hb Hm)
    as (d & Hd & Hne & Hdig).
  exists d. rewrite Hd, rbind_ok.
  unfold group_str in Hd. destruct (group m 2) as [d'|] eqn:Hg; [|done].
  injection Hd as ->. split; [done|]. split; [done|].
  split; [by apply Hdig|].
  destruct (py_int d) as [n|e]; [|done]. rewrite !rbind_ok.
  case_bool_decide as Hi.
  - destruct (lookup_lt_is_Some_2 lines (i + 1) Hi) as [nxt Hnxt].
    unfold getitem. rewrite Hnxt, rbind_ok. unfold indented4.
    by destruct (startswith "    " nxt).
  - rewrite rbind_ok. by rewrite lookup_ge_None_2 by lia.
Qed.

Lemma frame_step_no_match lines i line st :
  frame_line line = false -> frame_step lines i line st = Ok st.
Proof.
  unfold frame_line, frame_step.
  by destruct (search TRACEBACK_LINE_PATTERN line).
Qed.

(** The step returns when the line number of the line fits, and raises
    [ValueError] when it does not. *)
Lemma frame_step_fits lines i line st :
  number_fits line = true -> exists st', frame_step lines i line st = Ok st'.
Proof.
  unfold number_fits, frame_number. intros Hfit.
  destruct (search TRACEBACK_LINE_PATTERN line) as [m|] eqn:Hm.
  - destruct (frame_step_match lines i line st m Hm)
      as (d & Hd & Hne & Hdig & ->).
    rewrite Hd in Hfit.
    destruct (py_int_fits d Hne Hdig Hfit) as [n ->]. by eexists.
  - exists st. apply frame_step_no_match. unfold frame_line. by rewrite Hm.
Qed.

Lemma frame_step_raises lines i line st :
  number_fits line = false -> frame_step lines i line st = Raise ValueError.
Proof.
  unfold number_fits, frame_number. intros Hfit.
  destruct (search TRACEBACK_LINE_PATTERN line) as [m|] eqn:Hm; [|done].
  destruct (frame_step_match lines i line st m Hm)
    as (d & Hd & _ & _ & ->).
  rewrite Hd in Hfit. by rewrite (py_int_long d Hfit).
Qed.

Lemma frame_loop_fits lines todo i st :
  forallb number_fits todo = true ->
  exists st', frame_loop lines i todo st = Ok st'.
Proof.
  revert i st. induction todo as [|line rest IH]; intros i st; simpl.
  - by eauto.
  - intros [Hline Hrest]%andb_true_iff.
    destruct (frame_step_fits lines i line st Hline) as [st1 ->]. simpl.
    by apply IH.
Qed.

Lemma frame_loop_raises lines todo i st :
  forallb number_fits todo = false ->
  frame_loop lines i todo st = Raise ValueError.
Proof.
  revert i st. induction todo as [|line rest IH]; intros i st; simpl;
    [done|].
  destruct (number_fits line) eqn:Hline; simpl.
  - intros Hrest.
    destruct (frame_step_fits lines i line st Hline) as [st1 ->]. simpl.
    by apply IH.
  - intros _. by rewrite frame_step_raises.
Qed.

Lemma split_error_line_total line :
  exists ty msg, split_error_line line = Ok (ty, msg).
Proof.
  unfold split_error_line, split_max1.
  destruct (find_sub ": " line) as [[b r]|]; simpl; by eauto.
Qed.

Lemma scan_error_total rlines ty msg :
  exists ty' msg', scan_error rlines ty msg = Ok (ty', msg').
Proof.
  induction rlines as [|line rest IH]; simpl; [by eauto|].
  destruct (is_error_line line); [apply split_error_line_total|apply IH].
Qed.

Ltac group_of Hm n u Hu :=
  match type of Hm with
  | search ?r _ = Some _ =>
      let Hg := fresh "Hg" in
      let Hb := fresh "Hb" in
      assert (groups_ok (fun _ u => u <> "") r) as Hg
        by pattern_groups_ok;
      assert (n ∈ binds r) as Hb by pattern_binds;
      destruct (search_group_str _ _ _ _ _ Hg Hb Hm) as (u & -> & Hu)
  end.

Ltac one_group Hm :=
  let u := fresh "u" in
  let Hu := fresh "Hu" in
  group_of Hm 1%nat u Hu;
  simpl; eexists; split; [reflexivity|];
  intros p Hp; by rewrite lookup_insert_ne, lookup_empty in Hp.

(** The extraction returns, and a package name it records is not
    empty. *)
Lemma extract_total ty msg :
  exists v, _extract_error_values ty msg = Ok v /\
            forall p, v !! "package" = Some p -> p <> "".
Proof.
  assert (forall p : string, (∅ : gmap string string) !! "package" = Some p
                             -> p <> "") as Hempty
    by (intros p Hp; by rewrite lookup_empty in Hp).
  unfold _extract_error_values.
  destruct (if_type ty "ModuleNotFoundError").
  { destruct (search MODULE_NOT_FOUND_PATTERN msg) as [m|] eqn:Hm;
      [|by (exists ∅)].
    group_of Hm 1%nat u Hu.
    simpl. destruct (get_correct_package_name_total u) as (r & -> & Hr).
    simpl. eexists; split; [reflexivity|].
    intros p Hp. rewrite lookup_insert_eq in Hp. injection Hp as <-.
    by apply Hr. }
  destruct (if_type ty "ImportError").
  { destruct (search IMPORT_ERROR_PATTERN msg) as [m|] eqn:Hm; [|by (exists ∅)].
    one_group Hm. }
  destruct (if_type ty "NameError").
  { destruct (search NAME_ERROR_PATTERN msg) as [m|] eqn:Hm; [|by (exists ∅)].
    one_group Hm. }
  destruct (if_type ty "AttributeError").
  { destruct (search ATTRIBUTE_ERROR_PATTERN msg) as [m|] eqn:Hm;
      [|by (exists ∅)].
    group_of Hm 1%nat u Hu.
    group_of Hm 2%nat u2 Hu2.
    simpl. eexists; split; [reflexivity|].
    intros p Hp. by rewrite !lookup_insert_ne, lookup_empty in Hp. }
  destruct (if_type ty "KeyError").
  { destruct (search KEY_ERROR_PATTERN msg) as [m|] eqn:Hm; [|by (exists ∅)].
    one_group Hm. }
  destruct (if_type ty "FileNotFoundError").
  { destruct (search FILE_NOT_FOUND_PATTERN msg) as [m|] eqn:Hm;
      [|by (exists ∅)].
    one_group Hm. }
  by (exists ∅).
Qed.

(** A parse the parser returns is assembled from the results of its
    three stages. *)
Lemma parse_traceback_spec text p :
  parse_traceback text = Ok p ->
  exists ty msg st v,
    scan_error (rev (text_lines text)) "UnknownError" "" = Ok (ty, msg) /\
    frame_loop (text_lines text) 0 (text_lines text) frame_init = Ok st /\
    _extract_error_values ty msg = Ok v /\
    (forall p, v !! "package" = Some p -> p <> "") /\
    p = {| error_type := ty; error_message := msg;
           file_path := fs_file st; line_number := fs_line st;
           function_name := fs_func st; code_context := fs_ctx st;
           extracted_values := v |}.
Proof.
  destruct (scan_error_total (rev (text_lines text)) "UnknownError" "")
    as (ty & msg & Hscan).
  destruct (extract_total ty msg) as (v & Hv & Hpkg).
  unfold parse_traceback. rewrite Hscan, rbind_ok. cbn [fst snd].
  destruct (frame_loop (text_lines text) 0 (text_lines text) frame_init)
    as [st|e]; [|done].
  rewrite rbind_ok, Hv, rbind_ok. intros [= <-].
  by exists ty, msg, st, v.
Qed.

(** The parser returns exactly on the texts whose frame lines have line
    numbers that [int] converts; on every other text it raises
    [ValueError]. *)
Lemma parse_traceback_returns text :
  digits_bounded text = true -> exists p, parse_traceback text = Ok p.
Proof.
  intros Hb.
  destruct (scan_error_total (rev (text_lines text)) "UnknownError" "")
    as (ty & msg & Hscan).
  destruct (frame_loop_fits (text_lines text) (text_lines text) 0 frame_init
              Hb) as (st & Hloop).
  destruct (extract_total ty msg) as (v & Hv & _).
  unfold parse_traceback. rewrite Hscan, rbind_ok. cbn [fst snd].
  rewrite Hloop, rbind_ok, Hv, rbind_ok. by eexists.
Qed.

Lemma parse_traceback_raises text :
  digits_bounded text = false -> parse_traceback text = Raise ValueError.
Proof.
  intros Hb.
  destruct (scan_error_total (rev (text_lines text)) "UnknownError" "")
    as (ty & msg & Hscan).
  unfold parse_traceback. rewrite Hscan, rbind_ok.
  by rewrite (frame_loop_raises _ _ _ _ Hb).
Qed.

End ParserFacts.

(* ===================================================================== *)
(** * The backward scan for the typed error line *)
(* ===================================================================== *)

Module ScanFacts.
Import PyStr Vocab ReFacts ErrorHandler ParserFacts Claims.

Lemma none_of_app {A} (p : A -> bool) l1 l2 :
  none_of p (l1 ++ l2) = none_of p l1 && none_of p l2.
Proof.
  induction l1 as [|x l1 IH]; [done|]. simpl. rewrite IH.
  by rewrite andb_assoc.
Qed.

Lemma none_of_rev {A} (p : A -> bool) l : none_of p (rev l) = none_of p l.
Proof.
  induction l as [|x l IH]; [done|]. simpl. rewrite none_of_app, IH. simpl.
  rewrite andb_true_r. apply andb_comm.
Qed.

Lemma scan_error_skip l1 l2 ty msg :
  none_of is_error_line l1 = true ->
  scan_error (l1 ++ l2) ty msg = scan_error l2 ty msg.
Proof.
  induction l1 as [|x l1 IH]; [done|]. simpl.
  intros [Hx Hl]%andb_true_iff. apply negb_true_iff in Hx. rewrite Hx.
  by apply IH.
Qed.

Lemma scan_error_none l ty msg :
  none_of is_error_line l = true -> scan_error l ty msg = Ok (ty, msg).
Proof.
  intros H. rewrite <- (app_nil_r l). by rewrite scan_error_skip.
Qed.

(** The scan stops at the last line that passes the test. *)
Lemma scan_error_last pre line post ty msg :
  is_error_line line = true ->
  none_of is_error_line post = true ->
  scan_error (rev (pre ++ line :: post)) ty msg = split_error_line line.
Proof.
  intros Hline Hpost. rewrite rev_app_distr. simpl.
  rewrite <- app_assoc. rewrite scan_error_skip by by rewrite none_of_rev.
  simpl. by rewrite Hline.
Qed.

Lemma contains_find_sub sep s :
  contains sep s = true -> exists b r, find_sub sep s = Some (b, r).
Proof.
  induction s as [|a s IH]; simpl.
  - destruct (startswith sep ""); [by eauto|done].
  - destruct (startswith sep (String a s)); [by eauto|]. simpl.
    intros H. destruct (IH H) as (b & r & ->). by eauto.
Qed.

Lemma split_error_line_found line b r :
  find_sub ": " line = Some (b, r) ->
  split_error_line line = Ok (strip b, strip r).
Proof. unfold split_error_line, split_max1. by intros ->. Qed.

Lemma rstrip_empty s : rstrip s = "" <-> all_cls isspace s = true.
Proof.
  induction s as [|a s IH]; simpl; [done|].
  destruct (rstrip s) eqn:Hr; simpl.
  - destruct (isspace a); simpl; [|done]. by rewrite <- IH.
  - split; [done|]. intros [_ Hs]%andb_true_iff.
    by apply IH in Hs.
Qed.

Lemma lstrip_all_space s :
  all_cls isspace (lstrip s) = all_cls isspace s.
Proof.
  induction s as [|a s IH]; simpl; [done|].
  destruct (isspace a) eqn:Ha; simpl; [done|]. by rewrite Ha.
Qed.

(** Trimming leaves nothing exactly when every character is blank. *)
Lemma strip_empty s : strip s = "" <-> all_cls isspace s = true.
Proof. unfold strip. by rewrite rstrip_empty, lstrip_all_space. Qed.

(** C3, as stated, fails twice.  On a one-word text no line is typed
    and the kind is the sentinel, but the message is empty, not the
    text.  On a text that begins with a blank the only line is indented
    as given, yet the parser trims the text before it splits it, finds
    the line unindented and takes its kind from it. *)
Lemma unknown_claim_fails :
  ~ unknown_claim "foo" /\ ~ unknown_claim " ValueError: x".
Proof.
  split; intros H; destruct H as (p & Hp & Hty & Hmsg);
    try (vm_compute; reflexivity);
    vm_compute in Hp; injection Hp as <-.
  - vm_compute in Hmsg. discriminate.
  - vm_compute in Hty. discriminate.
Qed.

(** C3 (amended): when no line of the trimmed text is unindented and
    holds the separator, a parse the parser returns has error kind
    [UnknownError] and the empty string as error message. *)
Theorem unknown_error_empty_message text p :
  no_error_line text ->
  parse_traceback text = Ok p ->
  error_type p = "UnknownError" /\ error_message p = "".
Proof.
  intros Hnone Hp.
  destruct (parse_traceback_spec text p Hp)
    as (ty & msg & st & v & Hscan & _ & _ & _ & ->).
  rewrite scan_error_none in Hscan by by rewrite none_of_rev.
  by injection Hscan as <- <-.
Qed.

Lemma unknown_error_empty_message_witness :
  exists p, parse_traceback "foo" = Ok p /\
    error_type p = "UnknownError" /\ error_message p = "".
Proof.
  eexists. split; [vm_compute; reflexivity|].
  apply (unknown_error_empty_message "foo"); vm_compute; reflexivity.
Defined.

(** C4, as stated, fails twice: a line that starts with the separator
    gives the empty kind, and a typed line can itself spell the
    sentinel. *)
Lemma kind_claim_fails :
  ~ kind_claim ": foo" /\ ~ kind_claim "UnknownError: boom".
Proof.
  split; intros (p & Hp & Hne & Hiff); vm_compute in Hp;
    injection Hp as <-.
  - by apply Hne.
  - destruct Hiff as [Hiff _]. specialize (Hiff eq_refl).
    vm_compute in Hiff. discriminate.
Qed.

(** C4 (amended): in a parse the parser returns, the kind is the
    sentinel [UnknownError] when no typed line is found; otherwise it is
    the text before the first separator of the last typed line, trimmed,
    and it is non-empty exactly when that text has a character that is
    not blank. *)
Theorem error_kind_of_last_typed_line text p :
  parse_traceback text = Ok p ->
  (no_error_line text -> error_type p = "UnknownError") /\
  (forall pre line post,
      text_lines text = pre ++ line :: post ->
      is_error_line line = true ->
      none_of is_error_line post = true ->
      exists b r, find_sub ": " line = Some (b, r) /\
        error_type p = strip b /\
        (error_type p <> "" <-> all_cls isspace b = false)).
Proof.
  intros Hp.
  destruct (parse_traceback_spec text p Hp)
    as (ty & msg & st & v & Hscan & _ & _ & _ & ->).
  simpl. split.
  - intros Hnone.
    rewrite scan_error_none in Hscan by by rewrite none_of_rev.
    by injection Hscan as <- <-.
  - intros pre line post Hlines Hline Hpost.
    rewrite Hlines, (scan_error_last _ _ _ _ _ Hline Hpost) in Hscan.
    pose proof Hline as [Hc _]%andb_true_iff.
    destruct (contains_find_sub _ _ Hc) as (b & r & Hfind).
    rewrite (split_error_line_found _ _ _ Hfind) in Hscan.
    injection Hscan as <- <-. exists b, r. split; [done|]. split; [done|].
    rewrite strip_empty. by destruct (all_cls isspace b).
Qed.

Lemma error_kind_of_last_typed_line_witness :
  exists p, parse_traceback "ValueError: invalid literal" = Ok p /\
    exists b r, find_sub ": " "ValueError: invalid literal" = Some (b, r) /\
      error_type p = strip b /\
      (error_type p <> "" <-> all_cls isspace b = false).
Proof.
  eexists. split; [vm_compute; reflexivity|].
  refine (proj2 (error_kind_of_last_typed_line
                   "ValueError: invalid literal" _ _)
            [] "ValueError: invalid literal" [] _ _ _);
    vm_compute; reflexivity.
Defined.

End ScanFacts.

(* ===================================================================== *)
(** * Template rendering and the analyzer *)
(* ===================================================================== *)

Module AnalyzerFacts.
Import PyStr Vocab ReFacts Format FormatSpec ErrorFixes ErrorHandler.
Import ParserFacts FrameSpec.

Lemma app_nonempty_l u v : u <> "" -> u +:+ v <> "".
Proof. by destruct u. Qed.

Lemma app_nonempty_r u v : v <> "" -> u +:+ v <> "".
Proof. destruct u; [done|]. by rewrite app_cons. Qed.

(** On a well-formed template the only exception is a missing key. *)
Lemma fmt_well_formed t field kw :
  well_formed t field = true ->
  (exists s, fmt t field kw = Ok s) \/
  (exists k, fmt t field kw = Raise (KeyError k)).
Proof.
  revert field.
  induction t as [t IH] using (well_founded_induction
    (well_founded_ltof _ String.length)).
  assert (forall t' f, (String.length t' < String.length t)%nat ->
            well_formed t' f = true ->
            (exists s, fmt t' f kw = Ok s) \/
            (exists k, fmt t' f kw = Raise (KeyError k))) as IH'
    by (intros; by apply IH).
  clear IH. intros field Hwf.
  destruct t as [|c t']; destruct field as [name|]; simpl in *.
  - done.
  - left. by eauto.
  - case_bool_decide.
    + apply andb_true_iff in Hwf as [Hd Hwf]. apply negb_true_iff in Hd.
      unfold lookup_field. rewrite Hd.
      destruct (kw !! name); [|by eauto]. rewrite rbind_ok.
      destruct (IH' t' None ltac:(simpl; lia) Hwf) as [[s1 ->]|[k1 ->]];
        simpl; by eauto.
    + destruct (field_special c); [done|]. apply IH'; [simpl; lia|done].
  - case_bool_decide.
    + destruct t' as [|c' t'']; [done|]. case_bool_decide.
      * destruct (IH' t'' None ltac:(simpl; lia) Hwf) as [[s1 ->]|[k1 ->]];
          simpl; by eauto.
      * apply IH'; [simpl; lia|done].
    + case_bool_decide.
      * destruct t' as [|c' t'']; [done|]. case_bool_decide; [|done].
        destruct (IH' t'' None ltac:(simpl; lia) Hwf) as [[s1 ->]|[k1 ->]];
          simpl; by eauto.
      * destruct (IH' t' None ltac:(simpl; lia) Hwf) as [[s1 ->]|[k1 ->]];
          simpl; by eauto.
Qed.

(** A template led by literal text never renders to the empty string. *)
Lemma fmt_starts_literal t kw s :
  starts_literal t = true -> fmt t None kw = Ok s -> s <> "".
Proof.
  destruct t as [|c t']; [done|]. simpl.
  intros [Ho Hc]%andb_true_iff.
  apply negb_true_iff in Ho, Hc. rewrite Ho, Hc.
  destruct (fmt t' None kw); simpl; [|done]. by intros [= <-].
Qed.

Lemma format_renderable t kw :
  renderable t = true ->
  (exists s, format t kw = Ok s /\ s <> "") \/
  (exists k, format t kw = Raise (KeyError k)).
Proof.
  intros [Hwf Hlit]%andb_true_iff. unfold format.
  destruct (fmt_well_formed t None kw Hwf) as [[s Hs]|[k Hk]].
  - left. exists s. split; [done|]. by eapply fmt_starts_literal.
  - right. by eauto.
Qed.

Lemma catalog_entries_ok :
  Forall (fun kv => entry_ok kv.2 = true) ERROR_FIX_ITEMS.
Proof. unfold ERROR_FIX_ITEMS. repeat constructor. Qed.

(** Every catalog entry has a non-empty action template, and both its
    templates are renderable. *)
Lemma catalog_lookup k f :
  ERROR_FIX_MAP !! k = Some f ->
  renderable (message_template f) = true /\
  exists t, action_template f = Some t /\ t <> "" /\ renderable t = true.
Proof.
  intros Hl%elem_of_list_to_map_2.
  apply (proj1 (Forall_forall _ _) catalog_entries_ok) in Hl.
  simpl in Hl. unfold entry_ok in Hl.
  apply andb_true_iff in Hl as [Hm Ha]. split; [exact Hm|].
  destruct (action_template f) as [t|]; [|done].
  exists t. split; [done|]. split; [|exact Ha]. by destruct t.
Qed.

Lemma plain_tip_nonempty p : plain_tip p <> "".
Proof. unfold plain_tip. apply app_nonempty_r, app_nonempty_r. done. Qed.

Lemma generate_tip_total p :
  exists tip, _generate_claude_tip p (ERROR_FIX_MAP !! error_type p) = Ok tip
              /\ tip <> "".
Proof.
  unfold _generate_claude_tip.
  destruct (ERROR_FIX_MAP !! error_type p) as [f|] eqn:Hf;
    [|eexists; split; [reflexivity|apply plain_tip_nonempty]].
  destruct (catalog_lookup _ _ Hf) as (Hm & _).
  destruct (nonempty (message_template f));
    [|eexists; split; [reflexivity|apply plain_tip_nonempty]].
  destruct (format_renderable _ (extracted_values p) Hm)
    as [(s & -> & Hs)|(k & ->)].
  - by exists s.
  - eexists; split; [reflexivity|apply plain_tip_nonempty].
Qed.

(** What [_generate_claude_next] returns on the fourth and fifth branch,
    for a catalog lookup. *)
Lemma catalog_next p :
  match ERROR_FIX_MAP !! error_type p with
  | Some f =>
      exists t, action_template f = Some t /\ t <> "" /\
        (forall e, format t (extracted_values p) = Raise e ->
                   exists k, e = KeyError k) /\
        (forall s, format t (extracted_values p) = Ok s -> s <> "")
  | None => True
  end.
Proof.
  destruct (ERROR_FIX_MAP !! error_type p) as [f|] eqn:Hf; [|exact I].
  destruct (catalog_lookup _ _ Hf) as (_ & t & Ht & Hne & Hr).
  exists t. split; [done|]. split; [done|].
  destruct (format_renderable _ (extracted_values p) Hr)
    as [(s & Hs & Hsne)|(k & Hk)]; rewrite ?Hs, ?Hk.
  - split; [done|]. by intros ? [= <-].
  - split; [|done]. intros e [= <-]. by eauto.
Qed.

Lemma generate_next_total p :
  exists next,
    _generate_claude_next p (ERROR_FIX_MAP !! error_type p) = Ok next /\
    next <> "".
Proof.
  unfold _generate_claude_next.
  destruct (if_type (error_type p) "ModuleNotFoundError").
  { destruct (nonempty _); eexists; (split; [reflexivity|done]). }
  destruct (if_type (error_type p) "NameError").
  { eexists; split; [reflexivity|done]. }
  destruct (if_type (error_type p) "FileNotFoundError").
  { eexists; split; [reflexivity|done]. }
  pose proof (catalog_next p) as Hc.
  destruct (ERROR_FIX_MAP !! error_type p) as [f|];
    [|eexists; split; [reflexivity|done]].
  destruct Hc as (t & Ht & Hne & Hraise & Hok). rewrite Ht. simpl.
  assert (nonempty t = true) as -> by by destruct t.
  destruct (format t (extracted_values p)) as [s|e] eqn:Hfmt.
  - exists s. split; [done|]. by apply Hok.
  - destruct (Hraise e eq_refl) as [k ->]. by exists t.
Qed.

Lemma template_action_total p :
  exists action, template_action p (ERROR_FIX_MAP !! error_type p) = Ok action.
Proof.
  unfold template_action.
  pose proof (catalog_next p) as Hc.
  destruct (ERROR_FIX_MAP !! error_type p) as [f|]; [|by eauto].
  destruct Hc as (t & Ht & Hne & Hraise & Hok). rewrite Ht. simpl.
  assert (nonempty t = true) as -> by by destruct t.
  destruct (format t (extracted_values p)) as [s|e] eqn:Hfmt; [by eauto|].
  destruct (Hraise e eq_refl) as [k ->]. by eauto.
Qed.

Lemma generate_action_total p :
  exists action, _generate_action p (ERROR_FIX_MAP !! error_type p) = Ok action.
Proof.
  unfold _generate_action.
  destruct (if_type (error_type p) "ModuleNotFoundError");
    [|apply template_action_total].
  destruct (truthy_str _); [by eauto|apply template_action_total].
Qed.

(** After a parse the three generators return, with a tip and a next
    step that are not empty. *)
Lemma analyze_after_parse text p :
  parse_traceback text = Ok p ->
  exists tip next action,
    _generate_claude_tip p (ERROR_FIX_MAP !! error_type p) = Ok tip /\
    _generate_claude_next p (ERROR_FIX_MAP !! error_type p) = Ok next /\
    _generate_action p (ERROR_FIX_MAP !! error_type p) = Ok action /\
    tip <> "" /\ next <> "" /\
    analyze_error text =
      Ok {| parsed_error := p;
            fix_suggestion := ERROR_FIX_MAP !! error_type p;
            claude_tip := tip; claude_next := next;
            suggested_action := action |}.
Proof.
  intros Hp.
  destruct (generate_tip_total p) as (tip & Htip & Htne).
  destruct (generate_next_total p) as (next & Hnext & Hnne).
  destruct (generate_action_total p) as (action & Haction).
  exists tip, next, action.
  split; [exact Htip|].
  split; [exact Hnext|]. split; [exact Haction|].
  split; [exact Htne|]. split; [exact Hnne|].
  unfold analyze_error. rewrite Hp, rbind_ok, Htip, rbind_ok, Hnext,
    rbind_ok, Haction, rbind_ok. reflexivity.
Qed.

(** An analysis the analyzer returns is assembled from the parse and
    from the results of the three generators; its tip and next step are
    not empty. *)
Lemma analyze_error_spec text a :
  analyze_error text = Ok a ->
  exists p tip next action,
    parse_traceback text = Ok p /\
    (forall pkg, extracted_values p !! "package" = Some pkg -> pkg <> "") /\
    _generate_claude_tip p (ERROR_FIX_MAP !! error_type p) = Ok tip /\
    _generate_claude_next p (ERROR_FIX_MAP !! error_type p) = Ok next /\
    _generate_action p (ERROR_FIX_MAP !! error_type p) = Ok action /\
    tip <> "" /\ next <> "" /\
    a = {| parsed_error := p;
           fix_suggestion := ERROR_FIX_MAP !! error_type p;
           claude_tip := tip; claude_next := next;
           suggested_action := action |}.
Proof.
  intros Ha.
  destruct (parse_traceback text) as [p|e] eqn:Hp;
    [|unfold analyze_error in Ha; by rewrite Hp in Ha].
  destruct (parse_traceback_spec text p Hp)
    as (ty & msg & st & v & _ & _ & _ & Hpkg & Heq).
  destruct (analyze_after_parse text p Hp)
    as (tip & next & action & Htip & Hnext & Haction & Htne & Hnne & Ha').
  rewrite Ha' in Ha. injection Ha as <-.
  exists p, tip, next, action. split; [reflexivity|].
  split; [by rewrite Heq|]. by repeat (split; [assumption|]).
Qed.

(** The analyzer returns exactly where the parser does, and raises
    [ValueError] elsewhere. *)
Lemma analyze_error_returns text :
  digits_bounded text = true ->
  exists a, analyze_error text = Ok a /\
            claude_tip a <> "" /\ claude_next a <> "".
Proof.
  intros Hb. destruct (parse_traceback_returns text Hb) as [p Hp].
  destruct (analyze_after_parse text p Hp)
    as (tip & next & action & _ & _ & _ & Htne & Hnne & Ha).
  eexists. split; [exact Ha|]. by split.
Qed.

Lemma analyze_error_raises text :
  digits_bounded text = false -> analyze_error text = Raise ValueError.
Proof.
  intros Hb. unfold analyze_error.
  by rewrite (parse_traceback_raises text Hb).
Qed.

End AnalyzerFacts.

(* ===================================================================== *)
(** * The analyzer: next step and action *)
(* ===================================================================== *)

Module AnalyzerTheorems.
Import PyStr Vocab ReFacts Format FormatSpec ErrorFixes ErrorHandler.
Import ParserFacts ScanFacts AnalyzerFacts Claims.

Lemma if_type_true ty name : ty = name -> if_type ty name = true.
Proof. intros ->. by apply bool_decide_eq_true. Qed.

Lemma if_type_false ty name : ty <> name -> if_type ty name = false.
Proof. intros. by apply bool_decide_eq_false. Qed.



Lemma cv2_split :
  split_error_line cv2_line
  = Ok ("ModuleNotFoundError", "No module named 'cv2'").
Proof. vm_compute. reflexivity. Qed.

Lemma cv2_extract :
  _extract_error_values "ModuleNotFoundError" "No module named 'cv2'"
  = Ok {[ "module" := "cv2"; "package" := "opencv-python" ]}.
Proof. vm_compute. reflexivity. Qed.

Lemma cv2_action msg st :
  _generate_action
    {| error_type := "ModuleNotFoundError"; error_message := msg;
       file_path := fs_file st; line_number := fs_line st;
       function_name := fs_func st; code_context := fs_ctx st;
       extracted_values :=
         {[ "module" := "cv2"; "package" := "opencv-python" ]} |}
    (ERROR_FIX_MAP !! "ModuleNotFoundError")
  = Ok (Some "uv add opencv-python").
Proof. vm_compute. reflexivity. Qed.

(** C9: when the last typed line of a trace is
    [ModuleNotFoundError: No module named 'cv2'], the analysis the
    analyzer returns has error kind ModuleNotFoundError, extracted
    values mapping module to cv2 and package to opencv-python, and
    action [uv add opencv-python]. *)
Theorem cv2_scenario text pre post a :
  text_lines text = pre ++ cv2_line :: post ->
  none_of is_error_line post = true ->
  analyze_error text = Ok a ->
  error_type (parsed_error a) = "ModuleNotFoundError" /\
  extracted_values (parsed_error a)
    = {[ "module" := "cv2"; "package" := "opencv-python" ]} /\
  suggested_action a = Some "uv add opencv-python".
Proof.
  intros Hlines Hpost Ha.
  destruct (analyze_error_spec text a Ha)
    as (p & tip & next & action & Hp & _ & _ & _ & Haction & _ & _ & ->).
  destruct (parse_traceback_spec text p Hp)
    as (ty & msg & st & v & Hscan & _ & Hv & _ & ->).
  rewrite Hlines, scan_error_last, cv2_split in Hscan by done.
  injection Hscan as <- <-.
  rewrite cv2_extract in Hv. injection Hv as <-.
  change (ERROR_FIX_MAP !! _) with (ERROR_FIX_MAP !! "ModuleNotFoundError")
    in Haction.
  rewrite cv2_action in Haction. injection Haction as <-.
  split; [reflexivity|]. split; reflexivity.
Qed.

Lemma cv2_scenario_witness :
  exists a, analyze_error cv2_trace = Ok a /\
    error_type (parsed_error a) = "ModuleNotFoundError" /\
    extracted_values (parsed_error a)
      = {[ "module" := "cv2"; "package" := "opencv-python" ]} /\
    suggested_action a = Some "uv add opencv-python".
Proof.
  eexists. split; [vm_compute; reflexivity|].
  apply (cv2_scenario cv2_trace
           [ "Traceback (most recent call last):";
             "  File " +:+ String PyStr.dq "test.py"
               +:+ String PyStr.dq ", line 1, in <module>";
             "    import cv2" ] []).
  - vm_compute. reflexivity.
  - reflexivity.
  - vm_compute. reflexivity.
Defined.

End AnalyzerTheorems.

(* ===================================================================== *)
(** * The forward loop over frame lines *)
(* ===================================================================== *)

Module FrameFacts.
Import PyStr Vocab Re ReSpec ReFacts ErrorHandler ParserFacts FrameSpec.

(** A step that returns on a frame line has converted the digits of
    group 2 and recorded the three groups, and the next line, trimmed,
    when it begins with four spaces. *)
Lemma frame_step_inv lines i line st m st' :
  search TRACEBACK_LINE_PATTERN line = Some m ->
  frame_step lines i line st = Ok st' ->
  exists d n, group m 2 = Some d /\ py_int d = Ok n /\
    st' = {| fs_file := group m 1; fs_line := Some n; fs_func := group m 3;
             fs_ctx := match lines !! (i + 1)%nat with
                       | Some nxt =>
                           if indented4 nxt then Some (strip nxt)
                           else fs_ctx st
                       | None => fs_ctx st
                       end |}.
Proof.
  intros Hm Hstep.
  destruct (frame_step_match lines i line st m Hm)
    as (d & Hd & _ & _ & Heq).
  rewrite Heq in Hstep. destruct (py_int d) as [n|e] eqn:Hn; [|done].
  rewrite rbind_ok in Hstep. injection Hstep as <-. by exists d, n.
Qed.

Lemma frame_loop_cons lines i x rest st :
  frame_loop lines i (x :: rest) st =
    let! st1 := frame_step lines i x st in
    frame_loop lines (S i) rest st1.
Proof. reflexivity. Qed.

Lemma frame_loop_app lines i l1 l2 st :
  frame_loop lines i (l1 ++ l2) st =
    let! st1 := frame_loop lines i l1 st in
    frame_loop lines (i + length l1) l2 st1.
Proof.
  revert i st. induction l1 as [|x l1 IH]; intros i st; simpl.
  - by rewrite Nat.add_0_r.
  - destruct (frame_step lines i x st) as [st1|e]; simpl; [|done].
    rewrite IH. by replace (S i + length l1)%nat with (i + S (length l1))%nat
      by lia.
Qed.

Lemma frame_loop_no_frames lines i todo st :
  none_of frame_line todo = true -> frame_loop lines i todo st = Ok st.
Proof.
  revert i st. induction todo as [|x todo IH]; intros i st; simpl; [done|].
  intros [Hx Htodo]%andb_true_iff. apply negb_true_iff in Hx.
  rewrite frame_step_no_match by done. simpl. by apply IH.
Qed.

(** The location fields are those of the last frame line. *)
Lemma frame_loop_last lines i pre line post st st' m :
  search TRACEBACK_LINE_PATTERN line = Some m ->
  none_of frame_line post = true ->
  frame_loop lines i (pre ++ line :: post) st = Ok st' ->
  fs_file st' = group m 1 /\ fs_func st' = group m 3 /\
  exists d n, group m 2 = Some d /\ py_int d = Ok n /\ fs_line st' = Some n.
Proof.
  intros Hm Hpost. rewrite frame_loop_app.
  destruct (frame_loop lines i pre st) as [st1|e]; [|done].
  rewrite rbind_ok, frame_loop_cons.
  destruct (frame_step lines (i + length pre) line st1) as [st2|e] eqn:Hstep;
    [|done].
  destruct (frame_step_inv _ _ _ _ _ _ Hm Hstep) as (d & n & Hd & Hn & ->).
  rewrite rbind_ok, frame_loop_no_frames by done. intros [= <-]. simpl.
  split; [done|]. split; [done|]. by exists d, n.
Qed.

(** Lines after which no frame is followed by four spaces leave the
    code context as it was. *)
Lemma frame_loop_ctx_kept done todo st st' :
  ctx_kept indented4 todo = true ->
  frame_loop (done ++ todo) (length done) todo st = Ok st' ->
  fs_ctx st' = fs_ctx st.
Proof.
  revert done st. induction todo as [|line rest IH]; intros done st; simpl.
  - by intros _ [= <-].
  - intros [Hline Hrest]%andb_true_iff Hloop.
    apply negb_true_iff in Hline.
    destruct (frame_step (done ++ line :: rest) (length done) line st)
      as [st1|e] eqn:Hstep; [|done].
    assert (fs_ctx st1 = fs_ctx st) as Hctx.
    { destruct (search TRACEBACK_LINE_PATTERN line) as [m|] eqn:Hm.
      - destruct (frame_step_inv _ _ _ _ _ _ Hm Hstep)
          as (d & n & _ & _ & ->).
        simpl.
        rewrite lookup_app_r by lia.
        replace (length done + 1 - length done)%nat with 1%nat by lia.
        simpl. unfold frame_line in Hline. rewrite Hm in Hline.
        simpl in Hline. destruct rest as [|nxt rest']; simpl; [done|].
        by rewrite Hline.
      - rewrite frame_step_no_match in Hstep
          by (unfold frame_line; by rewrite Hm).
        by injection Hstep as <-. }
    simpl in Hloop. rewrite <- Hctx.
    apply (IH (done ++ [line]) st1 Hrest).
    rewrite <- app_assoc, length_app. simpl.
    by replace (length done + 1)%nat with (S (length done)) by lia.
Qed.

(** The code context is the trimmed line after the last frame line that
    is followed by a line beginning with four spaces. *)
Lemma frame_loop_ctx pre line nxt post st st' :
  frame_line line = true ->
  indented4 nxt = true ->
  ctx_kept indented4 (nxt :: post) = true ->
  frame_loop (pre ++ line :: nxt :: post) 0 (pre ++ line :: nxt :: post) st
    = Ok st' ->
  fs_ctx st' = Some (strip nxt).
Proof.
  intros Hline Hnxt Hkept Hloop.
  rewrite frame_loop_app in Hloop.
  destruct (frame_loop (pre ++ line :: nxt :: post) 0 pre st)
    as [st1|e]; [|done].
  rewrite rbind_ok, frame_loop_cons in Hloop.
  unfold frame_line in Hline.
  destruct (search TRACEBACK_LINE_PATTERN line) as [m|] eqn:Hm; [|done].
  destruct (frame_step (pre ++ line :: nxt :: post) (0 + length pre) line
              st1) as [st2|e] eqn:Hstep; [|done].
  destruct (frame_step_inv _ _ _ _ _ _ Hm Hstep) as (d & n & _ & _ & Hst2).
  rewrite rbind_ok in Hloop.
  rewrite lookup_app_r in Hst2 by lia.
  replace (0 + length pre + 1 - length pre)%nat with 1%nat in Hst2 by lia.
  change ((line :: nxt :: post) !! 1%nat) with (Some nxt) in Hst2.
  cbv beta iota in Hst2. rewrite Hnxt in Hst2.
  replace (pre ++ line :: nxt :: post) with ((pre ++ [line]) ++ nxt :: post)
    in Hloop by by rewrite <- app_assoc.
  replace (S (0 + length pre)) with (length (pre ++ [line])) in Hloop
    by (rewrite length_app; simpl; lia).
  rewrite (frame_loop_ctx_kept _ _ _ _ Hkept Hloop). by rewrite Hst2.
Qed.

End FrameFacts.

(* ===================================================================== *)
(** * Lines of the frame form are frame lines *)
(* ===================================================================== *)

Module FrameForm.
Import PyStr Vocab Re ReSpec ReFacts ErrorHandler ParserFacts FrameSpec.
Import FrameFacts Claims.

(** The first alternative of a match, which is the one [search] takes. *)
Lemma search_head r s s' c :
  head (matches r s ∅) = Some (s', c) -> search r s = Some c.
Proof.
  destruct s; simpl; by destruct (matches r _ ∅) as [|[? ?] ?]; intros [= -> ->].
Qed.

Lemma startswith_self l x : startswith l (l +:+ x) = true.
Proof.
  induction l as [|a l IH]; [done|]. rewrite app_cons. simpl.
  by rewrite bool_decide_eq_true_2, IH.
Qed.

Lemma drop_app l x : drop (String.length l) (l +:+ x) = x.
Proof. induction l as [|a l IH]; [by destruct x|]. by rewrite app_cons. Qed.

Lemma str_app_nil_r u : u +:+ "" = u.
Proof. induction u as [|a u IH]; [done|]. by rewrite app_cons, IH. Qed.

Lemma head_lit l x c : head (matches (Lit l) (l +:+ x) c) = Some (x, c).
Proof. simpl. by rewrite startswith_self, drop_app. Qed.

Lemma head_seq r1 r2 s c s1 c1 y :
  head (matches r1 s c) = Some (s1, c1) ->
  head (matches r2 s1 c1) = Some y ->
  head (matches (Seq r1 r2) s c) = Some y.
Proof.
  simpl. destruct (matches r1 s c) as [|[s1' c1'] tl]; [done|].
  intros [= -> ->]. csimpl.
  by destruct (matches r2 s1 c1).
Qed.

Lemma head_opt_some r s c y :
  head (matches r s c) = Some y -> head (matches (Opt r) s c) = Some y.
Proof. simpl. by destruct (matches r s c). Qed.

Lemma head_opt_none r s c :
  matches r s c = [] -> head (matches (Opt r) s c) = Some (s, c).
Proof. simpl. by intros ->. Qed.

Lemma plus_alts_stop cls v : ends_run cls v -> plus_alts cls v = [].
Proof. destruct v as [|a v]; [done|]. simpl. by intros ->. Qed.

(** Greedy repetition first takes the whole run. *)
Lemma plus_alts_head cls u v :
  u <> "" -> all_cls cls u = true -> ends_run cls v ->
  head (plus_alts cls (u +:+ v)) = Some v.
Proof.
  intros Hne Hu Hv. induction u as [|a u IH]; [done|].
  rewrite app_cons. simpl in *.
  apply andb_true_iff in Hu as [-> Hu].
  destruct u as [|b u].
  - rewrite app_empty, plus_alts_stop by done. done.
  - specialize (IH ltac:(done) Hu).
    by destruct (plus_alts cls (String b u +:+ v)).
Qed.

Lemma head_grp_plus n cls u v c :
  u <> "" -> all_cls cls u = true -> ends_run cls v ->
  head (matches (Grp n (Plus cls)) (u +:+ v) c) = Some (v, <[n := u]> c).
Proof.
  intros Hne Hu Hv. simpl.
  pose proof (plus_alts_head cls u v Hne Hu Hv) as Hh.
  destruct (plus_alts cls (u +:+ v)) as [|x tl]; [done|].
  injection Hh as ->. simpl. by rewrite take_app.
Qed.

Lemma search_skip_space r l indent s :
  all_cls (fun c => bool_decide (c = " "%char)) indent = true ->
  (forall x, startswith l (String " " x) = false) ->
  search (Seq (Lit l) r) (indent +:+ s) = search (Seq (Lit l) r) s.
Proof.
  intros Hind Hl. induction indent as [|a indent IH]; [done|].
  simpl in Hind. apply andb_true_iff in Hind as [Ha Hind].
  apply bool_decide_eq_true in Ha as ->.
  rewrite app_cons. simpl.
  rewrite Hl. csimpl. by apply IH.
Qed.

(** A line made of blanks and a frame text is matched by the frame
    pattern, with the path, the digits and the function as groups. *)
Lemma frame_line_form indent path digits fn :
  all_cls (fun c => bool_decide (c = " "%char)) indent = true ->
  path <> "" -> all_cls not_dq path = true ->
  digits <> "" -> all_cls isdigit digits = true ->
  match fn with
  | Some f => f <> "" /\ all_cls not_nl f = true
  | None => True
  end ->
  search TRACEBACK_LINE_PATTERN (indent +:+ frame_text path digits fn)
  = Some (frame_groups path digits fn).
Proof.
  intros Hind Hp1 Hp2 Hd1 Hd2 Hfn.
  unfold TRACEBACK_LINE_PATTERN.
  rewrite search_skip_space by done.
  apply (search_head _ _ ""). unfold frame_text, frame_groups.
  change ("File " +:+ String dq ?x) with (("File " +:+ String dq "") +:+ x).
  eapply head_seq; [apply head_lit|].
  eapply head_seq; [by apply head_grp_plus|].
  change (String dq ?x) with (String dq "" +:+ x).
  change (String dq "" +:+ ", line " +:+ ?x)
    with (String dq ", line " +:+ x).
  eapply head_seq; [apply head_lit|].
  destruct fn as [f|].
  - destruct Hfn as [Hf1 Hf2].
    eapply head_seq; [by apply head_grp_plus|].
    apply head_opt_some.
    eapply head_seq; [apply head_lit|].
    rewrite <- (str_app_nil_r f) at 1.
    by apply head_grp_plus.
  - eapply head_seq; [by apply head_grp_plus|].
    by apply head_opt_none.
Qed.

(** C7, as stated, fails when the line after a frame line is indented
    by fewer than four spaces: it is an indented line, yet no code
    context is recorded. *)
Lemma frame_claim_fails_on_two_spaces :
  ~ frame_spec indented1 two_space_trace.
Proof.
  intros (p & Hp & _ & Hctx).
  specialize (Hctx []
    ("File " +:+ String dq "a.py" +:+ String dq ", line 1") "  x = 1" []).
  vm_compute in Hp. injection Hp as <-.
  discriminate Hctx; vm_compute; reflexivity.
Qed.

(** C7 (amended): in a parse the parser returns, the file, line and
    function are the groups of the last line the frame pattern matches,
    and the code context is the trimmed line after the last frame line
    that is immediately followed by a line beginning with four spaces;
    when no frame line is followed by such a line, so also when every
    following line is indented by fewer than four spaces, no code
    context is recorded.  A line made of blanks, [File], a quoted path,
    [, line], digits and optionally [, in] and a function is a frame
    line, with the path, the digits and the function as groups. *)
Theorem last_frame_wins :
  (forall text p,
      parse_traceback text = Ok p ->
      frame_fields indented4 text p /\
      (ctx_kept indented4 (text_lines text) = true ->
       code_context p = None)) /\
  (forall indent path digits fn,
      all_cls (fun c => bool_decide (c = " "%char)) indent = true ->
      path <> "" -> all_cls not_dq path = true ->
      digits <> "" -> all_cls isdigit digits = true ->
      match fn with
      | Some f => f <> "" /\ all_cls not_nl f = true
      | None => True
      end ->
      search TRACEBACK_LINE_PATTERN (indent +:+ frame_text path digits fn)
      = Some (frame_groups path digits fn)).
Proof.
  split; [|apply frame_line_form].
  intros text p Hp.
  destruct (parse_traceback_spec text p Hp)
    as (ty & msg & st & v & _ & Hloop & _ & _ & ->).
  simpl. split; [split|].
  - intros pre line post m Hlines Hm Hpost.
    rewrite Hlines in Hloop at 2.
    by apply (frame_loop_last _ _ _ _ _ _ _ _ Hm Hpost Hloop).
  - intros pre line nxt post Hlines Hline Hnxt Hkept.
    rewrite Hlines in Hloop.
    by apply (frame_loop_ctx _ _ _ _ _ _ Hline Hnxt Hkept Hloop).
  - intros Hkept.
    by rewrite (frame_loop_ctx_kept [] _ _ _ Hkept Hloop).
Qed.

Lemma last_frame_wins_witness :
  (exists p, parse_traceback two_frame_trace = Ok p /\
     file_path p = Some "lib.py" /\
     line_number p = Some 7 /\
     function_name p = Some "run" /\
     code_context p = Some "return data[0]") /\
  (exists p, parse_traceback two_space_trace = Ok p /\
     code_context p = None).
Proof.
  destruct last_frame_wins as [Hspec Hform].
  split.
  - assert (exists p, parse_traceback two_frame_trace = Ok p) as [p Hp]
      by (eexists; vm_compute; reflexivity).
    destruct (Hspec two_frame_trace p Hp) as [[Hloc Hctx] _].
    exists p. split; [exact Hp|].
    assert (search TRACEBACK_LINE_PATTERN
              ("  " +:+ frame_text "lib.py" "7" (Some "run"))
            = Some (frame_groups "lib.py" "7" (Some "run"))) as Hm.
    { apply Hform; try discriminate; try (vm_compute; reflexivity).
      split; [discriminate|vm_compute; reflexivity]. }
    destruct (Hloc
      [ "Traceback (most recent call last):";
        "  File " +:+ String dq "app.py" +:+ String dq ", line 12, in main";
        "    run(data)" ]
      ("  " +:+ frame_text "lib.py" "7" (Some "run"))
      [ "    return data[0]"; "IndexError: list index out of range" ]
      _ ltac:(vm_compute; reflexivity) Hm ltac:(vm_compute; reflexivity))
      as (Hfile & Hfunc & d & n & Hd & Hn & Hline).
    split; [exact Hfile|].
    split; [|split; [exact Hfunc|]].
    + rewrite Hline. vm_compute in Hd. injection Hd as <-.
      vm_compute in Hn. injection Hn as <-. reflexivity.
    + apply (Hctx
        [ "Traceback (most recent call last):";
          "  File " +:+ String dq "app.py" +:+ String dq ", line 12, in main";
          "    run(data)" ]
        ("  " +:+ frame_text "lib.py" "7" (Some "run"))
        "    return data[0]"
        [ "IndexError: list index out of range" ]);
        vm_compute; reflexivity.
  - assert (exists p, parse_traceback two_space_trace = Ok p) as [p Hp]
      by (eexists; vm_compute; reflexivity).
    destruct (Hspec two_space_trace p Hp) as [_ Hnone].
    exists p. split; [exact Hp|]. apply Hnone. vm_compute. reflexivity.
Defined.

End FrameForm.

(* ===================================================================== *)
(** * Running the entry points on the heap *)
(* ===================================================================== *)

Module HeapFacts.
Import PyStr Vocab Heap ErrorHandler ParserFacts AnalyzerFacts EntryPoints.
Open Scope heap_scope.

Lemma bind_ret {A B} (a : A) (k : A -> M B) h : bind (ret a) k h = k a h.
Proof. reflexivity. Qed.

Lemma bind_lift_ok {A B} (a : A) (k : A -> M B) h :
  bind (lift (Ok a)) k h = k a h.
Proof. reflexivity. Qed.

Lemma bind_bind {A B C} (m : M A) (f : A -> M B) (g : B -> M C) h :
  bind (bind m f) g h = bind m (fun a => bind (f a) g) h.
Proof. unfold bind. by destruct (m h) as [[a|e] h']. Qed.

Lemma fresh_free (h : heap) : h !! fresh (dom h) = None.
Proof. apply not_elem_of_dom, is_fresh. Qed.

(** [dict(response)] allocates a copy at a location free in the heap. *)
Lemma bind_dict_copy {B} r d (k : loc -> M B) (h : heap) :
  h !! r = Some (ODict d) ->
  bind (dict_copy r) k h
  = k (fresh (dom h)) (<[fresh (dom h) := ODict d]> h).
Proof. intros Hr. unfold bind, dict_copy, alloc. by rewrite Hr. Qed.

(** Assignment into the dictionary being built. *)
Lemma bind_setitem {B} l d key v (k : unit -> M B) (h : heap) :
  bind (setitem l key v) k (<[l := ODict d]> h)
  = k tt (<[l := ODict (<[key := v]> d)]> h).
Proof.
  unfold bind, setitem. by rewrite lookup_insert_eq, insert_insert_eq.
Qed.

Lemma bind_iadd_str {B} l d key s suffix (k : unit -> M B) (h : heap) :
  d !! key = Some (VStr s) ->
  bind (iadd_str l key suffix) k (<[l := ODict d]> h)
  = k tt (<[l := ODict (<[key := VStr (s +:+ suffix)]> d)]> h).
Proof.
  intros Hk. unfold iadd_str. rewrite bind_bind.
  unfold bind at 1, getitem. rewrite lookup_insert_eq, Hk.
  apply bind_setitem.
Qed.

(** The shape every wrapper ends in: one fresh dictionary on top of the
    starting heap. *)
Lemma enriched_post_intro W G (h : heap) d l d' :
  h !! l = None ->
  (forall k, k ∉ W -> d' !! k = d !! k) ->
  (forall k, k ∈ G -> is_Some (d' !! k)) ->
  enriched_post W G h d (Ok l, <[l := ODict d']> h).
Proof.
  intros Hl HW HG. exists l, d'. simpl.
  split; [done|]. split; [done|]. split; [by rewrite lookup_insert_eq|].
  split; [|done].
  intros l0 [o Ho]. rewrite lookup_insert_ne; [done|].
  intros ->. by rewrite Hl in Ho.
Qed.

Ltac keys_outside :=
  let k := fresh "k" in
  let Hk := fresh "Hk" in
  intros k Hk; unfold wrapper_keys, enrich_keys in Hk;
  repeat (apply not_elem_of_cons in Hk as [? Hk]);
  by rewrite ?lookup_insert_ne by done.

Ltac keys_present :=
  let k := fresh "k" in
  let Hk := fresh "Hk" in
  intros k Hk; unfold wrapper_keys in Hk;
  repeat (apply elem_of_cons in Hk as [->|Hk]);
  [..|by apply elem_of_nil in Hk];
  repeat first [rewrite lookup_insert_eq
               |rewrite lookup_insert_ne by discriminate];
  by eexists.

Ltac step :=
  cbv beta;
  first [ rewrite bind_bind
        | rewrite bind_setitem
        | rewrite bind_ret
        | rewrite bind_lift_ok
        | rewrite (bind_iadd_str _ _ _ _ _ _ _ (lookup_insert_eq _ _ _)) ].

Ltac finish_wrapper :=
  repeat step; cbv beta; unfold ret; apply enriched_post_intro;
  [apply fresh_free|keys_outside|keys_present].

Lemma success_lists_total output namespace_vars :
  exists lists, ResponseWrapper.success_lists output namespace_vars = Ok lists.
Proof.
  unfold ResponseWrapper.success_lists.
  destruct namespace_vars as [vars|]; [|by eauto].
  destruct (ResponseWrapper.nonempty_list vars); [|by eauto].
  destruct (filter _ vars) as [|v df_vars]; simpl.
  - case_bool_decide; by eauto.
  - case_bool_decide; by eauto.
Qed.

Lemma wrap_execution_success_post r d (h : heap) output namespace_vars :
  h !! r = Some (ODict d) ->
  enriched_post wrapper_keys wrapper_keys h d
    (ResponseWrapper.wrap_execution_success r output namespace_vars h).
Proof.
  intros Hr. unfold ResponseWrapper.wrap_execution_success.
  rewrite (bind_dict_copy _ _ _ _ Hr), bind_setitem.
  destruct (success_lists_total output namespace_vars) as [lists ->].
  finish_wrapper.
Qed.

Lemma wrap_notebook_created_post r d (h : heap) notebook_path kernel_name :
  h !! r = Some (ODict d) ->
  enriched_post wrapper_keys wrapper_keys h d
    (ResponseWrapper.wrap_notebook_created r notebook_path kernel_name h).
Proof.
  intros Hr. unfold ResponseWrapper.wrap_notebook_created.
  rewrite (bind_dict_copy _ _ _ _ Hr).
  destruct (truthy_str kernel_name); finish_wrapper.
Qed.

Lemma wrap_cell_added_post r d (h : heap) cell_type cell_index :
  h !! r = Some (ODict d) ->
  enriched_post wrapper_keys wrapper_keys h d
    (ResponseWrapper.wrap_cell_added r cell_type cell_index h).
Proof.
  intros Hr. unfold ResponseWrapper.wrap_cell_added.
  rewrite (bind_dict_copy _ _ _ _ Hr).
  case_bool_decide; finish_wrapper.
Qed.

Lemma wrap_kernel_status_post r d (h : heap) is_alive execution_count :
  h !! r = Some (ODict d) ->
  enriched_post wrapper_keys wrapper_keys h d
    (ResponseWrapper.wrap_kernel_status r is_alive execution_count h).
Proof.
  intros Hr. unfold ResponseWrapper.wrap_kernel_status.
  rewrite (bind_dict_copy _ _ _ _ Hr).
  destruct is_alive; [destruct execution_count|]; finish_wrapper.
Qed.

Lemma wrap_generic_success_post r d (h : heap) operation details :
  h !! r = Some (ODict d) ->
  enriched_post wrapper_keys wrapper_keys h d
    (ResponseWrapper.wrap_generic_success r operation details h).
Proof.
  intros Hr. unfold ResponseWrapper.wrap_generic_success.
  rewrite (bind_dict_copy _ _ _ _ Hr).
  destruct (truthy_str details); finish_wrapper.
Qed.

End HeapFacts.

(* ===================================================================== *)
(** * The error path and the postcondition of every entry point *)
(* ===================================================================== *)

Module EnrichFacts.
Import PyStr Vocab Heap ErrorHandler ParserFacts AnalyzerFacts EntryPoints.
Import HeapFacts FrameSpec.
Open Scope heap_scope.

Lemma bind_alloc {B} o (k : loc -> M B) (h : heap) :
  bind (alloc o) k h = k (fresh (dom h)) (<[fresh (dom h) := o]> h).
Proof. reflexivity. Qed.

(** When the analyzer raises, [enrich_response] raises the same
    exception before it touches the heap. *)
Lemma enrich_response_raise r (h : heap) text e :
  analyze_error text = Raise e ->
  Enrich.enrich_response r text h = (Raise e, h).
Proof. intros Ha. unfold Enrich.enrich_response. by rewrite Ha. Qed.

Lemma enrich_response_post r d (h : heap) text a :
  h !! r = Some (ODict d) ->
  analyze_error text = Ok a ->
  enriched_post enrich_keys ["claude_tip"; "claude_next"; "error_details"]
    h d (Enrich.enrich_response r text h).
Proof.
  intros Hr Ha. unfold Enrich.enrich_response. rewrite Ha.
  set (tip := claude_tip a). set (next := claude_next a).
  set (action := suggested_action a). set (p := parsed_error a).
  rewrite bind_lift_ok, (bind_dict_copy _ _ _ _ Hr). simpl.
  set (l := fresh (dom h)).
  assert (h !! l = None) as Hl by apply fresh_free.
  assert (exists dx,
    (forall k, k ∉ enrich_keys -> dx !! k = d !! k) /\
    is_Some (dx !! "claude_tip") /\ is_Some (dx !! "claude_next") /\
    forall B (k : unit -> M B),
      bind (setitem l "claude_tip" (VStr tip))
        (fun _ => bind (setitem l "claude_next" (VStr next))
           (fun _ => bind
              (if truthy_str action
               then setitem l "suggested_action" (VStr (default "" action))
               else ret tt) k))
        (<[l := ODict d]> h)
      = k tt (<[l := ODict dx]> h)) as (dx & Hout & Htip & Hnext & Hrun).
  { destruct (truthy_str action).
    - eexists. split; [|split; [|split]];
        [| | |intros B k; rewrite !bind_setitem; reflexivity].
      + keys_outside.
      + rewrite !lookup_insert_ne by discriminate.
        rewrite lookup_insert_eq. by eexists.
      + rewrite !lookup_insert_ne by discriminate.
        rewrite lookup_insert_eq. by eexists.
    - eexists. split; [|split; [|split]];
        [| | |intros B k; rewrite !bind_setitem, bind_ret; reflexivity].
      + keys_outside.
      + rewrite !lookup_insert_ne by discriminate.
        rewrite lookup_insert_eq. by eexists.
      + rewrite lookup_insert_eq. by eexists. }
  rewrite Hrun, bind_alloc.
  set (h1 := <[l := ODict dx]> h).
  set (l3 := fresh (dom h1)).
  assert (h1 !! l3 = None) as Hl3 by apply fresh_free.
  assert (l3 <> l) as Hne.
  { intros Heq. rewrite Heq in Hl3. unfold h1 in Hl3.
    by rewrite lookup_insert_eq in Hl3. }
  unfold bind at 1, setitem.
  rewrite lookup_insert_ne by done. unfold h1 at 1.
  rewrite lookup_insert_eq. cbv beta. unfold ret.
  exists l, (<["error_details" := VRef l3]> dx). simpl.
  split; [done|]. split; [done|].
  split; [by rewrite lookup_insert_eq|]. split; [|split].
  - intros l0 [o Ho].
    assert (l0 <> l) by (intros ->; by rewrite Hl in Ho).
    assert (l0 <> l3).
    { intros ->. unfold h1 in Hl3.
      rewrite lookup_insert_ne in Hl3 by done. by rewrite Hl3 in Ho. }
    rewrite lookup_insert_ne by done. rewrite lookup_insert_ne by done.
    unfold h1. by rewrite lookup_insert_ne.
  - intros k Hk. rewrite lookup_insert_ne.
    + by apply Hout.
    + intros <-. apply Hk. unfold enrich_keys. repeat constructor.
  - intros k Hk.
    repeat (apply elem_of_cons in Hk as [->|Hk]);
      [| | |by apply elem_of_nil in Hk].
    + by rewrite lookup_insert_ne by discriminate.
    + by rewrite lookup_insert_ne by discriminate.
    + rewrite lookup_insert_eq. by eexists.
Qed.

Lemma wrap_execution_error_raise r d (h : heap) text e :
  h !! r = Some (ODict d) ->
  analyze_error text = Raise e ->
  ResponseWrapper.wrap_execution_error r text h
  = (Raise e, <[fresh (dom h) := ODict (<["status" := VStr "error"]> d)]> h).
Proof.
  intros Hr Ha. unfold ResponseWrapper.wrap_execution_error.
  rewrite (bind_dict_copy _ _ _ _ Hr), bind_setitem.
  by apply enrich_response_raise.
Qed.

Lemma wrap_execution_error_post r d (h : heap) text a :
  h !! r = Some (ODict d) ->
  analyze_error text = Ok a ->
  enriched_post ("status" :: enrich_keys)
    ["status"; "claude_tip"; "claude_next"; "error_details"]
    h d (ResponseWrapper.wrap_execution_error r text h).
Proof.
  intros Hr Ha. unfold ResponseWrapper.wrap_execution_error.
  rewrite (bind_dict_copy _ _ _ _ Hr), bind_setitem.
  set (l1 := fresh (dom h)).
  assert (h !! l1 = None) as Hl1 by apply fresh_free.
  set (d1 := <["status" := VStr "error"]> d).
  set (h1 := <[l1 := ODict d1]> h).
  destruct (enrich_response_post l1 d1 h1 text a)
    as (l & d' & Hout & Hl & Hd' & Hframe & Hkeys & Hpres); [|exact Ha|].
  { unfold h1. by rewrite lookup_insert_eq. }
  assert (l <> l1) as Hne.
  { intros ->. unfold h1 in Hl. by rewrite lookup_insert_eq in Hl. }
  exists l, d'. split; [done|]. split; [|split; [done|split; [|split]]].
  - unfold h1 in Hl. by rewrite lookup_insert_ne in Hl.
  - intros l0 [o Ho].
    assert (l0 <> l1) by (intros ->; by rewrite Hl1 in Ho).
    rewrite Hframe.
    + unfold h1. by rewrite lookup_insert_ne.
    + unfold h1. rewrite lookup_insert_ne by done. by eexists.
  - intros k Hk. apply not_elem_of_cons in Hk as [Hks Hk].
    rewrite (Hkeys k Hk). unfold d1. by rewrite lookup_insert_ne.
  - intros k Hk. apply elem_of_cons in Hk as [->|Hk].
    + rewrite Hkeys.
      * unfold d1. rewrite lookup_insert_eq. by eexists.
      * unfold enrich_keys. intros Hin.
        repeat (apply elem_of_cons in Hin as [Hin|Hin]; [discriminate|]).
        by apply elem_of_nil in Hin.
    + by apply Hpres.
Qed.

(** The postcondition of every entry point, for the entry points that
    analyse a trace when the analyzer returns on it. *)
Lemma call_post ep r d (h : heap) :
  h !! r = Some (ODict d) ->
  match analysed ep with
  | Some text => exists a, analyze_error text = Ok a
  | None => True
  end ->
  enriched_post (written_keys ep) (guaranteed_keys ep) h d (call ep r h).
Proof.
  intros Hr Ha. destruct ep; simpl in *.
  - by apply wrap_execution_success_post.
  - destruct Ha as [a Ha]. by eapply wrap_execution_error_post.
  - by apply wrap_notebook_created_post.
  - by apply wrap_cell_added_post.
  - by apply wrap_kernel_status_post.
  - by apply wrap_generic_success_post.
  - destruct Ha as [a Ha]. by eapply enrich_response_post.
Qed.

(** When the analyzer raises on the trace of an entry point, the call
    raises the same exception and leaves every object of the heap as it
    was. *)
Lemma call_raise ep r d (h : heap) text e :
  h !! r = Some (ODict d) ->
  analysed ep = Some text ->
  analyze_error text = Raise e ->
  exists h', call ep r h = (Raise e, h') /\
    forall l0, is_Some (h !! l0) -> h' !! l0 = h !! l0.
Proof.
  intros Hr Hep Ha. destruct ep; try discriminate; injection Hep as ->;
    simpl.
  - rewrite (wrap_execution_error_raise _ _ _ _ _ Hr Ha).
    eexists. split; [reflexivity|].
    intros l0 [o Ho]. rewrite lookup_insert_ne; [done|].
    intros <-. by rewrite fresh_free in Ho.
  - rewrite (enrich_response_raise _ _ _ _ Ha). by eexists.
Qed.

(** Every outcome of a call: the objects of the heap are as they were;
    a call that returns has built its dictionary at a location that was
    free; and a call raises only [ValueError], and only on a trace with
    a frame line whose number [int] does not convert. *)
Lemma call_outcome ep r d (h : heap) res h' :
  h !! r = Some (ODict d) ->
  call ep r h = (res, h') ->
  (forall l0, is_Some (h !! l0) -> h' !! l0 = h !! l0) /\
  match res with
  | Ok l =>
      call_defined ep = true /\
      h !! l = None /\
      exists d', h' !! l = Some (ODict d') /\
        (forall k, k ∉ written_keys ep -> d' !! k = d !! k) /\
        (forall k, k ∈ guaranteed_keys ep -> is_Some (d' !! k))
  | Raise e => e = ValueError /\ call_defined ep = false
  end.
Proof.
  intros Hr Hcall. unfold call_defined.
  assert (match analysed ep with
          | Some text => exists a, analyze_error text = Ok a
          | None => True
          end ->
          match analysed ep with
          | Some text => digits_bounded text
          | None => true
          end = true ->
          (forall l0, is_Some (h !! l0) -> h' !! l0 = h !! l0) /\
          match res with
          | Ok l =>
              match analysed ep with
              | Some text => digits_bounded text
              | None => true
              end = true /\
              h !! l = None /\
              exists d', h' !! l = Some (ODict d') /\
                (forall k, k ∉ written_keys ep -> d' !! k = d !! k) /\
                (forall k, k ∈ guaranteed_keys ep -> is_Some (d' !! k))
          | Raise e =>
              e = ValueError /\
              match analysed ep with
              | Some text => digits_bounded text
              | None => true
              end = false
          end) as Hret.
  { intros Ha Hb.
    destruct (call_post ep r d h Hr Ha)
      as (l & d' & Hout & Hfree & Hl & Hframe & Hkeys & Hpres).
    rewrite Hcall in Hout, Hl, Hframe. simpl in Hout, Hl, Hframe.
    subst res. split; [exact Hframe|]. split; [exact Hb|].
    split; [exact Hfree|]. by exists d'. }
  destruct (analysed ep) as [text|] eqn:Hep; [|by apply Hret].
  destruct (digits_bounded text) eqn:Hb.
  - apply Hret; [|done].
    destruct (analyze_error_returns text Hb) as (a & Ha & _). by exists a.
  - destruct (call_raise ep r d h text ValueError Hr Hep
                (analyze_error_raises text Hb)) as (h0 & Hcall0 & Hframe).
    rewrite Hcall in Hcall0. injection Hcall0 as -> ->. by split.
Qed.

End EnrichFacts.

(* ===================================================================== *)
(** * Enrichment: preservation and frame *)
(* ===================================================================== *)

Module EnrichTheorems.
Import PyStr Vocab Heap ErrorHandler ParserFacts AnalyzerFacts EntryPoints.
Import HeapFacts EnrichFacts Claims.

Lemma queued_result :
  exists l h',
    call (GenericSuccess "Export" None) 1%positive queued_heap = (Ok l, h') /\
    match h' !! l with
    | Some (ODict d') => d' !! "status"
    | _ => None
    end = Some (VStr "success").
Proof. eexists _, _. split; vm_compute; reflexivity. Qed.

(** C1, as stated, fails on a response that already has a status: the
    generic-success wrapper overwrites it. *)
Lemma preserve_claim_fails_on_status :
  ~ preserve_claim (GenericSuccess "Export" None) queued_heap 1%positive.
Proof.
  intros H.
  destruct (H {[ "status" := VStr "queued" ]})
    as (l & h' & d' & Hcall & Hl & Hkeep); [vm_compute; reflexivity|].
  destruct queued_result as (l0 & h0 & Hcall0 & Hstatus).
  rewrite Hcall in Hcall0. injection Hcall0 as <- <-.
  rewrite Hl, (Hkeep "status" (VStr "queued")) in Hstatus;
    [discriminate|vm_compute; reflexivity].
Qed.

(** C1 (amended): for every entry point and every response mapping, in
    the dictionary a call returns every key/value pair of the response
    is present with the same value, provided its key is not one of the
    keys the entry point itself assigns (status, claude_tip and
    claude_next for the wrappers; claude_tip, claude_next,
    suggested_action and error_details for [enrich_response]; all five
    for the error wrapper); and every object the heap held, so every
    object a retained value refers to, is as it was. *)
Theorem enrichment_keeps_other_keys ep (h : heap) r d l h' :
  h !! r = Some (ODict d) ->
  call ep r h = (Ok l, h') ->
  exists d',
    h' !! l = Some (ODict d') /\
    (forall k v, k ∉ written_keys ep -> d !! k = Some v -> d' !! k = Some v) /\
    (forall l0, is_Some (h !! l0) -> h' !! l0 = h !! l0).
Proof.
  intros Hr Hcall.
  destruct (call_outcome ep r d h _ _ Hr Hcall)
    as (Hframe & _ & _ & d' & Hl & Hkeys & _).
  exists d'. split; [exact Hl|].
  split; [|exact Hframe].
  intros k v Hk Hv. by rewrite (Hkeys k Hk).
Qed.

Lemma enrichment_keeps_other_keys_witness :
  exists l h' d',
    call (ExecutionSuccess (Some "ok") (Some ["df"; "x"])) 1%positive
      ok_heap = (Ok l, h') /\
    h' !! l = Some (ODict d') /\
    d' !! "output" = Some (VStr "ok").
Proof.
  pose (out := call (ExecutionSuccess (Some "ok") (Some ["df"; "x"]))
                 1%positive ok_heap).
  assert (call (ExecutionSuccess (Some "ok") (Some ["df"; "x"]))
            1%positive ok_heap = (Ok 2%positive, out.2)) as Hcall
    by (vm_compute; reflexivity).
  destruct (enrichment_keeps_other_keys
              (ExecutionSuccess (Some "ok") (Some ["df"; "x"]))
              ok_heap 1%positive {[ "output" := VStr "ok" ]}
              2%positive out.2)
    as (d' & Hl & Hkeep & _); [vm_compute; reflexivity|exact Hcall|].
  exists 2%positive, out.2, d'. split; [exact Hcall|]. split; [exact Hl|].
  apply Hkeep; [|vm_compute; reflexivity].
  unfold written_keys, wrapper_keys. intros Hin.
  repeat (apply elem_of_cons in Hin as [Hin|Hin]; [discriminate|]).
  by apply elem_of_nil in Hin.
Defined.

(** C8: whatever the outcome of a call, the response, and every other
    object of the heap, has exactly the items it had; and a call that
    returns has built a new dictionary, at a location that was free
    before the call and differs from the response. *)
Theorem original_response_untouched ep (h : heap) r d res h' :
  h !! r = Some (ODict d) ->
  call ep r h = (res, h') ->
  h' !! r = Some (ODict d) /\
  (forall l0, is_Some (h !! l0) -> h' !! l0 = h !! l0) /\
  (forall l, res = Ok l ->
     l <> r /\ h !! l = None /\ exists d', h' !! l = Some (ODict d')).
Proof.
  intros Hr Hcall.
  destruct (call_outcome ep r d h _ _ Hr Hcall) as (Hframe & Hres).
  split; [|split; [exact Hframe|]].
  - rewrite <- Hr. apply Hframe. rewrite Hr. by eexists.
  - intros l ->. destruct Hres as (_ & Hfree & d' & Hl & _).
    split; [intros ->; by rewrite Hfree in Hr|]. split; [exact Hfree|].
    by exists d'.
Qed.

Lemma original_response_untouched_witness :
  exists l h',
    call (ExecutionError "CustomError: oops") 1%positive queued_heap
      = (Ok l, h') /\
    l <> 1%positive /\
    h' !! 1%positive = Some (ODict {[ "status" := VStr "queued" ]}).
Proof.
  pose (out := call (ExecutionError "CustomError: oops") 1%positive
                 queued_heap).
  assert (call (ExecutionError "CustomError: oops") 1%positive queued_heap
          = (Ok 3%positive, out.2)) as Hcall
    by (vm_compute; reflexivity).
  destruct (original_response_untouched (ExecutionError "CustomError: oops")
              queued_heap 1%positive {[ "status" := VStr "queued" ]}
              (Ok 3%positive) out.2)
    as (Hr & _ & Hnew); [vm_compute; reflexivity|exact Hcall|].
  exists 3%positive, out.2. split; [exact Hcall|].
  split; [|exact Hr]. by destruct (Hnew _ eq_refl) as (Hne & _).
Defined.

End EnrichTheorems.

(* ===================================================================== *)
(** * More on the package-name resolver *)
(* ===================================================================== *)

Module ResolverMore.
Import PyStr Vocab Packages PyStrFacts PackagesFacts ReFacts.

#[local] Arguments PACKAGE_NAME_MAP : simpl never.

Lemma split_chr_root c root rest :
  mem_chr c root = false ->
  split_chr c (root +:+ String c rest) = root :: split_chr c rest.
Proof.
  induction root as [|a root IH]; simpl; intros H.
  - rewrite ?app_empty. simpl. by rewrite bool_decide_eq_true_2.
  - apply orb_false_iff in H as [Ha Hroot]. rewrite ?app_cons. simpl.
    rewrite Ha. by rewrite IH.
Qed.

(** Every package name of the table resolves to itself. *)
Lemma package_values_fixed :
  Forall (fun kv => get_correct_package_name kv.2 = Ok kv.2)
    PACKAGE_NAME_ITEMS.
Proof.
  unfold PACKAGE_NAME_ITEMS.
  repeat (apply List.Forall_cons; [vm_compute; reflexivity|]).
  apply List.Forall_nil.
Qed.

(** X1: resolving is idempotent: what the resolver returns, it resolves
    to itself. *)
Theorem resolver_idempotent s r :
  get_correct_package_name s = Ok r -> get_correct_package_name r = Ok r.
Proof.
  destruct (base_module_spec s) as (base & Hb & _).
  rewrite (get_correct_package_name_unfold _ _ Hb).
  destruct (PACKAGE_NAME_MAP !! base) as [v|] eqn:Hl; simpl.
  - intros [= <-]. apply package_items_lookup in Hl.
    by apply (proj1 (Forall_forall _ _) package_values_fixed) in Hl.
  - intros [= <-]. rewrite (get_correct_package_name_unfold _ _ Hb).
    by rewrite Hl.
Qed.

Lemma resolver_idempotent_witness :
  get_correct_package_name "opencv-python" = Ok "opencv-python".
Proof.
  apply (resolver_idempotent "cv2.dnn"). vm_compute. reflexivity.
Defined.

(** X2: a dotted name resolves by its root alone: when the root is a
    key of the table every submodule gets the root's package, and when
    it is not the whole dotted name comes back. *)
Theorem submodule_resolves_by_root root rest :
  mem_chr "." root = false ->
  get_correct_package_name (root +:+ String "." rest)
  = Ok match PACKAGE_NAME_MAP !! root with
       | Some pkg => pkg
       | None => root +:+ String "." rest
       end.
Proof.
  intros Hroot. unfold get_correct_package_name, base_module.
  rewrite split_chr_root by done.
  change (getitem (root :: ?l) 0) with (Ok root).
  rewrite ParserFacts.rbind_ok.
  destruct (PACKAGE_NAME_MAP !! root); reflexivity.
Qed.

Lemma submodule_resolves_by_root_witness :
  get_correct_package_name ("PIL" +:+ String "." "Image") = Ok "pillow".
Proof.
  rewrite (submodule_resolves_by_root "PIL" "Image"); [|reflexivity].
  vm_compute. reflexivity.
Defined.

End ResolverMore.

(* ===================================================================== *)
(** * More on the parser *)
(* ===================================================================== *)

Module ParserMore.
Import PyStr Vocab Re ReSpec ReFacts ErrorHandler ParserFacts ScanFacts.
Import FrameSpec FrameFacts MoreSpec.

Lemma startswith_space_app K X :
  startswith " " K = false ->
  startswith " " (K +:+ String ":" X) = false.
Proof. destruct K as [|b K]; [done|]. rewrite app_cons. simpl. by destruct K. Qed.

(** The first separator of [K: M] is the one written, when [K] holds
    none. *)
Lemma find_sub_first K M :
  contains ": " K = false ->
  find_sub ": " (K +:+ ": " +:+ M) = Some (K, M).
Proof.
  induction K as [|a K IH]; intros HK.
  - reflexivity.
  - simpl in HK. apply orb_false_iff in HK as [Hhead Htail].
    rewrite app_cons.
    assert (startswith ": " (String a (K +:+ ": " +:+ M)) = false) as Hno.
    { simpl. simpl in Hhead.
      destruct (bool_decide (":"%char = a)); [|done]. simpl in *.
      destruct K as [|b K]; [done|]. rewrite app_cons. simpl.
      simpl in Hhead. by destruct (bool_decide (" "%char = b)). }
    cbn [find_sub]. rewrite Hno. fold find_sub. by rewrite IH.
Qed.

Lemma contains_sep K sep M : contains sep (K +:+ sep +:+ M) = true.
Proof.
  induction K as [|a K IH].
  - rewrite app_empty. destruct (sep +:+ M) eqn:Heq; simpl;
      rewrite <- ?Heq, FrameForm.startswith_self; done.
  - rewrite app_cons. simpl. rewrite IH. by rewrite orb_true_r.
Qed.

(** The backward scan on a text whose last typed line reads [K: M]. *)
Lemma scan_typed_line lines pre K M post ty msg :
  lines = pre ++ (K +:+ ": " +:+ M) :: post ->
  contains ": " K = false ->
  startswith " " K = false ->
  none_of is_error_line post = true ->
  scan_error (rev lines) ty msg = Ok (strip K, strip M).
Proof.
  intros -> HK Hind Hpost.
  assert (is_error_line (K +:+ ": " +:+ M) = true) as Hline.
  { unfold is_error_line. rewrite contains_sep.
    change (K +:+ ": " +:+ M) with (K +:+ String ":" (" " +:+ M)).
    by rewrite startswith_space_app. }
  rewrite (scan_error_last _ _ _ _ _ Hline Hpost).
  by rewrite (split_error_line_found _ _ _ (find_sub_first K M HK)).
Qed.

(** X3: when the last typed line of the text reads [K: M], with no
    separator inside [K], a parse the parser returns has [K] trimmed as
    error kind and [M] trimmed as error message. *)
Theorem kind_and_message_of_typed_line text pre K M post p :
  text_lines text = pre ++ (K +:+ ": " +:+ M) :: post ->
  contains ": " K = false ->
  startswith " " K = false ->
  none_of is_error_line post = true ->
  parse_traceback text = Ok p ->
  error_type p = strip K /\ error_message p = strip M.
Proof.
  intros Hlines HK Hind Hpost Hp.
  destruct (parse_traceback_spec text p Hp)
    as (ty & msg & st & v & Hscan & _ & _ & _ & ->).
  rewrite (scan_typed_line _ _ _ _ _ _ _ Hlines HK Hind Hpost) in Hscan.
  by injection Hscan as <- <-.
Qed.

Lemma kind_and_message_of_typed_line_witness :
  exists p, parse_traceback "ValueError: invalid literal " = Ok p /\
    error_type p = "ValueError" /\ error_message p = "invalid literal".
Proof.
  eexists. split; [vm_compute; reflexivity|].
  apply (kind_and_message_of_typed_line "ValueError: invalid literal "
           [] "ValueError" "invalid literal" []);
    vm_compute; reflexivity.
Defined.

(** Without frame lines there is no line number for [int] to convert. *)
Lemma no_frames_bounded l :
  none_of frame_line l = true -> forallb number_fits l = true.
Proof.
  induction l as [|x l IH]; [done|]. simpl.
  intros [Hx Hl]%andb_true_iff. apply negb_true_iff in Hx.
  rewrite (IH Hl), andb_true_r.
  unfold number_fits, frame_number. unfold frame_line in Hx.
  by destruct (search TRACEBACK_LINE_PATTERN x).
Qed.

(** X4: when the frame pattern matches no line of the text, the parse
    has no file path, no line number, no function name and no code
    context. *)
Theorem no_frame_no_location text :
  none_of frame_line (text_lines text) = true ->
  exists p, parse_traceback text = Ok p /\
    file_path p = None /\ line_number p = None /\
    function_name p = None /\ code_context p = None.
Proof.
  intros Hnone.
  destruct (parse_traceback_returns text) as [p Hp].
  { by apply no_frames_bounded. }
  destruct (parse_traceback_spec text p Hp)
    as (ty & msg & st & v & _ & Hloop & _ & _ & ->).
  rewrite frame_loop_no_frames in Hloop by done. injection Hloop as <-.
  by eexists.
Qed.

Lemma no_frame_no_location_witness :
  exists p, parse_traceback "ValueError: invalid literal" = Ok p /\
    file_path p = None /\ line_number p = None /\
    function_name p = None /\ code_context p = None.
Proof.
  apply (no_frame_no_location "ValueError: invalid literal").
  vm_compute. reflexivity.
Defined.

Lemma int_go_nonneg s acc n :
  0 <= acc -> int_go acc s = Ok n -> 0 <= n.
Proof.
  revert acc. induction s as [|a s IH]; intros acc Hacc; simpl.
  - by intros [= <-].
  - destruct (isdigit a) eqn:Ha; [|done]. apply IH.
    unfold isdigit in Ha. apply andb_true_iff in Ha as [Hlo _].
    apply N.leb_le in Hlo. unfold digit_val. lia.
Qed.

Lemma py_int_nonneg s n : py_int s = Ok n -> 0 <= n.
Proof.
  destruct s as [|a s]; [done|]. unfold py_int.
  destruct (_ <? _); [done|]. by apply int_go_nonneg.
Qed.

Lemma frame_step_ok lines i line st st' :
  frame_state_ok st -> frame_step lines i line st = Ok st' ->
  frame_state_ok st'.
Proof.
  intros Hst Hstep.
  destruct (search TRACEBACK_LINE_PATTERN line) as [m|] eqn:Hm.
  - destruct (frame_step_inv lines i line st m st' Hm Hstep)
      as (d & n & Hd & Hn & ->).
    assert (1%nat ∈ binds TRACEBACK_LINE_PATTERN) as Hb by pattern_binds.
    destruct (search_group_str _ _ _ _ _ traceback_groups_ok Hb Hm)
      as (f & Hf & Hne & _).
    unfold group_str in Hf. destruct (group m 1) as [f'|] eqn:Hg; [|done].
    injection Hf as ->.
    right. exists f, n. simpl. split; [done|]. split; [done|].
    split; [done|]. by eapply py_int_nonneg.
  - rewrite frame_step_no_match in Hstep by (unfold frame_line; by rewrite Hm).
    by injection Hstep as <-.
Qed.

Lemma frame_loop_ok lines todo i st st' :
  frame_state_ok st -> frame_loop lines i todo st = Ok st' ->
  frame_state_ok st'.
Proof.
  revert i st. induction todo as [|line rest IH]; intros i st Hst; simpl.
  - by intros [= <-].
  - destruct (frame_step lines i line st) as [st1|] eqn:Hstep; [|done].
    simpl. apply IH. by eapply frame_step_ok.
Qed.

(** X5: in every parse the parser returns the location fields are all
    absent, or the file path and the line number are both present, the
    path non-empty and the number not negative. *)
Theorem location_fields_come_together text p :
  parse_traceback text = Ok p -> location_ok p.
Proof.
  intros Hp.
  destruct (parse_traceback_spec text p Hp)
    as (ty & msg & st & v & _ & Hloop & _ & _ & ->).
  apply frame_loop_ok in Hloop; [exact Hloop|].
  left. by unfold frame_init.
Qed.

Lemma location_fields_come_together_witness :
  exists p, parse_traceback two_frame_trace = Ok p /\ location_ok p.
Proof.
  eexists. split; [vm_compute; reflexivity|].
  apply (location_fields_come_together two_frame_trace).
  vm_compute. reflexivity.
Defined.

Lemma rstrip_idem s : rstrip (rstrip s) = rstrip s.
Proof.
  induction s as [|c s IH]; [done|]. simpl.
  destruct (rstrip s) as [|b r] eqn:Hr; simpl.
  - destruct (isspace c) eqn:Hc; simpl; [done|]. by rewrite Hc.
  - simpl in IH. rewrite IH. done.
Qed.

Lemma lstrip_head s :
  lstrip s = "" \/ exists c r, lstrip s = String c r /\ isspace c = false.
Proof.
  induction s as [|c s IH]; simpl; [by left|].
  destruct (isspace c) eqn:Hc; [done|]. right. by exists c, s.
Qed.

Lemma strip_idem s : strip (strip s) = strip s.
Proof.
  unfold strip. destruct (lstrip_head s) as [->|(c & r & -> & Hc)]; [done|].
  assert (rstrip (String c r) = String c (rstrip r)) as Hr.
  { simpl. by rewrite Hc, andb_false_r. }
  rewrite Hr. simpl lstrip. rewrite Hc. rewrite <- Hr. apply rstrip_idem.
Qed.

(** X6: blanks around the trace do not matter: the parser and the
    analyzer give the same result on a text and on the text trimmed. *)
Theorem surrounding_blanks_ignored text :
  parse_traceback (strip text) = parse_traceback text /\
  analyze_error (strip text) = analyze_error text.
Proof.
  assert (parse_traceback (strip text) = parse_traceback text) as H.
  { unfold parse_traceback, text_lines. by rewrite strip_idem. }
  split; [exact H|]. unfold analyze_error. by rewrite H.
Qed.

End ParserMore.

(* ===================================================================== *)
(** * The kind-specific extraction rules *)
(* ===================================================================== *)

Module ExtractFacts.
Import PyStr Vocab Re ReSpec ReFacts ErrorHandler ParserFacts FrameSpec.
Import FrameForm AnalyzerTheorems.

Lemma head_cls cls a s c :
  cls a = true -> head (matches (Cls cls) (String a s) c) = Some (s, c).
Proof. simpl. by intros ->. Qed.

(** A name in single quotes is matched by [quoted n] as group [n]. *)
Lemma head_quoted n u rest c :
  u <> "" -> all_cls not_quote u = true ->
  head (matches (quoted n) (String sq (u +:+ String sq rest)) c)
  = Some (rest, <[n := u]> c).
Proof.
  intros Hne Hu. unfold quoted.
  eapply head_seq; [by apply head_opt_some, head_cls|].
  eapply head_seq; [by apply head_grp_plus|].
  by apply head_opt_some, head_cls.
Qed.

Lemma group_str_insert n u (c : captures) :
  group_str (<[n := u]> c) n = Ok u.
Proof. unfold group_str, group. by rewrite lookup_insert_eq. Qed.

Lemma search_module_not_found m rest :
  m <> "" -> all_cls not_quote m = true ->
  search MODULE_NOT_FOUND_PATTERN
    ("No module named " +:+ String sq (m +:+ String sq rest))
  = Some (<[1%nat := m]> ∅).
Proof.
  intros Hne Hm. apply (search_head _ _ rest).
  unfold MODULE_NOT_FOUND_PATTERN.
  eapply head_seq; [apply head_lit|]. by apply head_quoted.
Qed.

Lemma search_name_error x rest :
  x <> "" -> all_cls not_quote x = true ->
  search NAME_ERROR_PATTERN
    ("name " +:+ String sq (x +:+ String sq (" is not defined" +:+ rest)))
  = Some (<[1%nat := x]> ∅).
Proof.
  intros Hne Hx. apply (search_head _ _ rest).
  unfold NAME_ERROR_PATTERN.
  eapply head_seq; [apply head_lit|].
  eapply head_seq; [by apply head_quoted|]. apply head_lit.
Qed.

(** X7: ModuleNotFoundError: from [No module named 'm'] the extraction
    records [m] as module and the resolved package of [m] as package. *)
Theorem extract_module_not_found m rest :
  m <> "" -> all_cls not_quote m = true ->
  exists pkg,
    Packages.get_correct_package_name m = Ok pkg /\
    _extract_error_values "ModuleNotFoundError"
      ("No module named " +:+ String sq (m +:+ String sq rest))
    = Ok (<["package" := pkg]> (<["module" := m]> ∅)).
Proof.
  intros Hne Hm.
  destruct (PackagesFacts.get_correct_package_name_total m) as (pkg & Hpkg & _).
  exists pkg. split; [exact Hpkg|].
  unfold _extract_error_values. rewrite if_type_true by done.
  rewrite search_module_not_found by done.
  by rewrite group_str_insert, rbind_ok, Hpkg.
Qed.

Lemma extract_module_not_found_witness :
  exists pkg,
    Packages.get_correct_package_name "cv2" = Ok pkg /\
    _extract_error_values "ModuleNotFoundError"
      ("No module named " +:+ String sq ("cv2" +:+ String sq ""))
    = Ok (<["package" := pkg]> (<["module" := "cv2"]> ∅)).
Proof.
  apply (extract_module_not_found "cv2" ""); [discriminate|reflexivity].
Defined.

(** X8: ImportError: from [cannot import name 'n'], whatever follows,
    the extraction records [n] as name and nothing else. *)
Theorem extract_import_error n rest :
  n <> "" -> all_cls not_quote n = true ->
  _extract_error_values "ImportError"
    ("cannot import name " +:+ String sq (n +:+ String sq rest))
  = Ok (<["name" := n]> ∅).
Proof.
  intros Hne Hn.
  unfold _extract_error_values.
  rewrite if_type_false by discriminate. rewrite if_type_true by done.
  erewrite search_head; last first.
  { unfold IMPORT_ERROR_PATTERN.
    eapply head_seq; [apply head_lit|]. by apply head_quoted. }
  by rewrite group_str_insert.
Qed.

Lemma extract_import_error_witness :
  _extract_error_values "ImportError"
    ("cannot import name " +:+
       String sq ("nonexistent" +:+ String sq " from 'sklearn'"))
  = Ok (<["name" := "nonexistent"]> ∅).
Proof.
  apply (extract_import_error "nonexistent" " from 'sklearn'");
    [discriminate|reflexivity].
Defined.

(** X9: NameError: from [name 'x' is not defined] the extraction
    records [x] as name. *)
Theorem extract_name_error x rest :
  x <> "" -> all_cls not_quote x = true ->
  _extract_error_values "NameError"
    ("name " +:+ String sq (x +:+ String sq (" is not defined" +:+ rest)))
  = Ok (<["name" := x]> ∅).
Proof.
  intros Hne Hx.
  unfold _extract_error_values.
  rewrite !if_type_false by discriminate. rewrite if_type_true by done.
  rewrite search_name_error by done.
  by rewrite group_str_insert.
Qed.

Lemma extract_name_error_witness :
  _extract_error_values "NameError"
    ("name " +:+
       String sq ("undefined_var" +:+ String sq (" is not defined" +:+ "")))
  = Ok (<["name" := "undefined_var"]> ∅).
Proof.
  apply (extract_name_error "undefined_var" ""); [discriminate|reflexivity].
Defined.

(** X10: AttributeError: from ['T' object has no attribute 'a'] the
    extraction records [T] as type and [a] as attribute. *)
Theorem extract_attribute_error t a rest :
  t <> "" -> all_cls not_quote t = true ->
  a <> "" -> all_cls not_quote a = true ->
  _extract_error_values "AttributeError"
    (String sq (t +:+ String sq
       (" object has no attribute " +:+ String sq (a +:+ String sq rest))))
  = Ok (<["attribute" := a]> (<["type" := t]> ∅)).
Proof.
  intros Ht1 Ht2 Ha1 Ha2.
  unfold _extract_error_values.
  rewrite !if_type_false by discriminate. rewrite if_type_true by done.
  erewrite search_head; last first.
  { unfold ATTRIBUTE_ERROR_PATTERN.
    eapply head_seq; [by apply head_quoted|].
    eapply head_seq; [apply head_lit|]. by apply head_quoted. }
  unfold group_str, group.
  rewrite lookup_insert_ne by done. rewrite !lookup_insert_eq. done.
Qed.

Lemma extract_attribute_error_witness :
  _extract_error_values "AttributeError"
    (String sq ("str" +:+ String sq
       (" object has no attribute " +:+
          String sq ("nonexistent_method" +:+ String sq ""))))
  = Ok (<["attribute" := "nonexistent_method"]> (<["type" := "str"]> ∅)).
Proof.
  apply (extract_attribute_error "str" "nonexistent_method" "");
    try discriminate; reflexivity.
Defined.

(** X11: KeyError: from a message that is the key in single quotes the
    extraction records the key without its quotes. *)
Theorem extract_key_error k rest :
  k <> "" -> all_cls not_quote k = true ->
  _extract_error_values "KeyError" (String sq (k +:+ String sq rest))
  = Ok (<["key" := k]> ∅).
Proof.
  intros Hne Hk.
  unfold _extract_error_values.
  rewrite !if_type_false by discriminate. rewrite if_type_true by done.
  erewrite search_head; last first.
  { unfold KEY_ERROR_PATTERN. by apply head_quoted. }
  by rewrite group_str_insert.
Qed.

Lemma extract_key_error_witness :
  _extract_error_values "KeyError"
    (String sq ("missing_key" +:+ String sq ""))
  = Ok (<["key" := "missing_key"]> ∅).
Proof.
  apply (extract_key_error "missing_key" ""); [discriminate|reflexivity].
Defined.

(** X12: FileNotFoundError: from
    [[Errno 2] No such file or directory: 'p'] the extraction records
    [p] as path. *)
Theorem extract_file_not_found p rest :
  p <> "" -> all_cls not_quote p = true ->
  _extract_error_values "FileNotFoundError"
    ("[Errno 2] No such file or directory: "
       +:+ String sq (p +:+ String sq rest))
  = Ok (<["path" := p]> ∅).
Proof.
  intros Hne Hp.
  unfold _extract_error_values.
  rewrite !if_type_false by discriminate. rewrite if_type_true by done.
  erewrite search_head; last first.
  { unfold FILE_NOT_FOUND_PATTERN.
    eapply head_seq; [apply head_lit|]. by apply head_quoted. }
  by rewrite group_str_insert.
Qed.

Lemma extract_file_not_found_witness :
  _extract_error_values "FileNotFoundError"
    ("[Errno 2] No such file or directory: "
       +:+ String sq ("/path/to/missing.txt" +:+ String sq ""))
  = Ok (<["path" := "/path/to/missing.txt"]> ∅).
Proof.
  apply (extract_file_not_found "/path/to/missing.txt" "");
    [discriminate|reflexivity].
Defined.

End ExtractFacts.

(* ===================================================================== *)
(** * What the extraction can record *)
(* ===================================================================== *)

Module ShapeFacts.
Import PyStr Vocab Re ReSpec ReFacts ErrorHandler ParserFacts MoreSpec.

Lemma if_type_eq ty name : if_type ty name = true -> ty = name.
Proof. apply bool_decide_eq_true. Qed.

Ltac one_key Hm :=
  let u := fresh "u" in
  let Hu := fresh "Hu" in
  group_of Hm 1%nat u Hu; rewrite rbind_ok;
  eexists; split; [reflexivity|].

Lemma extract_shape ty msg :
  exists v, _extract_error_values ty msg = Ok v /\ values_shape ty v.
Proof.
  unfold _extract_error_values, values_shape.
  destruct (if_type ty "ModuleNotFoundError") eqn:H1.
  { apply if_type_eq in H1.
    destruct (search MODULE_NOT_FOUND_PATTERN msg) as [m|] eqn:Hm;
      [|exists ∅; by auto].
    group_of Hm 1%nat u Hu. rewrite rbind_ok.
    destruct (PackagesFacts.get_correct_package_name_total u)
      as (r & Hr & Hrne).
    rewrite Hr, rbind_ok. eexists. split; [reflexivity|].
    right. left. split; [done|]. exists u, r. auto. }
  destruct (if_type ty "ImportError") eqn:H2.
  { apply if_type_eq in H2.
    destruct (search IMPORT_ERROR_PATTERN msg) as [m|] eqn:Hm;
      [|exists ∅; by auto].
    one_key Hm. right. right. left. split; [done|]. by eexists. }
  destruct (if_type ty "NameError") eqn:H3.
  { apply if_type_eq in H3.
    destruct (search NAME_ERROR_PATTERN msg) as [m|] eqn:Hm;
      [|exists ∅; by auto].
    one_key Hm. do 3 right. left. split; [done|]. by eexists. }
  destruct (if_type ty "AttributeError") eqn:H4.
  { apply if_type_eq in H4.
    destruct (search ATTRIBUTE_ERROR_PATTERN msg) as [m|] eqn:Hm;
      [|exists ∅; by auto].
    group_of Hm 1%nat u Hu. group_of Hm 2%nat u2 Hu2. rewrite !rbind_ok.
    eexists. split; [reflexivity|].
    do 4 right. left. split; [done|]. by exists u, u2. }
  destruct (if_type ty "KeyError") eqn:H5.
  { apply if_type_eq in H5.
    destruct (search KEY_ERROR_PATTERN msg) as [m|] eqn:Hm;
      [|exists ∅; by auto].
    one_key Hm. do 5 right. left. split; [done|]. by eexists. }
  destruct (if_type ty "FileNotFoundError") eqn:H6.
  { apply if_type_eq in H6.
    destruct (search FILE_NOT_FOUND_PATTERN msg) as [m|] eqn:Hm;
      [|exists ∅; by auto].
    one_key Hm. do 6 right. split; [done|]. by eexists. }
  exists ∅. by auto.
Qed.

(** X13: for every kind and message the extraction returns, and what
    it returns is empty or holds exactly the keys of the rule of the
    kind, each with a non-empty value: module and package (the resolved
    package of the module) for ModuleNotFoundError, name for
    ImportError and NameError, type and attribute for AttributeError,
    key for KeyError, path for FileNotFoundError; for every other kind
    it is empty.  The extracted values of a parse the parser returns
    have that shape for the kind of the parse. *)
Theorem extracted_values_follow_the_kind :
  (forall ty msg,
      exists v, _extract_error_values ty msg = Ok v /\ values_shape ty v) /\
  (forall text p,
      parse_traceback text = Ok p ->
      values_shape (error_type p) (extracted_values p)).
Proof.
  split; [exact extract_shape|].
  intros text p Hp.
  destruct (parse_traceback_spec text p Hp)
    as (ty & msg & st & v & _ & _ & Hv & _ & ->).
  simpl.
  destruct (extract_shape ty msg) as (v' & Hv' & Hshape).
  rewrite Hv in Hv'. by injection Hv' as <-.
Qed.

Lemma extracted_values_follow_the_kind_witness :
  exists p, parse_traceback Claims.cv2_trace = Ok p /\
    values_shape (error_type p) (extracted_values p).
Proof.
  eexists. split; [vm_compute; reflexivity|].
  apply (proj2 extracted_values_follow_the_kind Claims.cv2_trace).
  vm_compute. reflexivity.
Defined.

End ShapeFacts.

(* ===================================================================== *)
(** * Guidance for particular kinds, end to end *)
(* ===================================================================== *)

Module GuidanceFacts.
Import PyStr Vocab Re ReSpec ReFacts Format FormatSpec ErrorFixes.
Import ErrorHandler ParserFacts ScanFacts AnalyzerFacts AnalyzerTheorems.
Import FrameSpec FrameForm ParserMore ExtractFacts ShapeFacts MoreSpec.

#[local] Arguments ERROR_FIX_MAP : simpl never.

Lemma rstrip_app_keep u t :
  rstrip t = t -> t <> "" -> rstrip (u +:+ t) = u +:+ t.
Proof.
  intros Ht Hne. induction u as [|a u IH]; [done|].
  rewrite app_cons. simpl. rewrite IH.
  destruct (u +:+ t) eqn:Heq; [|done].
  destruct u; [by rewrite app_empty in Heq|by rewrite app_cons in Heq].
Qed.

Lemma strip_name_msg x : strip (name_msg x) = name_msg x.
Proof.
  unfold strip, name_msg.
  change (lstrip ("name " +:+ ?s)) with ("name " +:+ s).
  change ("name " +:+ String sq (x +:+ String sq " is not defined"))
    with (("name " +:+ String sq "") +:+ x +:+ String sq " is not defined").
  rewrite rstrip_app_keep; [done| |by destruct x].
  by rewrite rstrip_app_keep.
Qed.

Lemma strip_module_msg m : strip (module_msg m) = module_msg m.
Proof.
  unfold strip, module_msg.
  change (lstrip ("No module named " +:+ ?s)) with ("No module named " +:+ s).
  change ("No module named " +:+ String sq (m +:+ String sq ""))
    with (("No module named " +:+ String sq "") +:+ m +:+ String sq "").
  rewrite rstrip_app_keep; [done| |by destruct m].
  by rewrite rstrip_app_keep.
Qed.

Lemma extract_name_msg x :
  x <> "" -> all_cls not_quote x = true ->
  _extract_error_values "NameError" (name_msg x) = Ok (<["name" := x]> ∅).
Proof.
  intros Hne Hx. unfold _extract_error_values, name_msg.
  rewrite !if_type_false by discriminate. rewrite if_type_true by done.
  change (" is not defined") with (" is not defined" +:+ "").
  rewrite search_name_error by done. by rewrite group_str_insert.
Qed.

Lemma extract_module_msg m pkg :
  m <> "" -> all_cls not_quote m = true ->
  Packages.get_correct_package_name m = Ok pkg ->
  _extract_error_values "ModuleNotFoundError" (module_msg m)
  = Ok (<["package" := pkg]> (<["module" := m]> ∅)).
Proof.
  intros Hne Hm Hpkg. unfold _extract_error_values, module_msg.
  rewrite if_type_true by done.
  rewrite search_module_not_found by done.
  by rewrite group_str_insert, rbind_ok, Hpkg.
Qed.

Lemma name_error_fields x msg fp ln fn cc :
  let p := {| error_type := "NameError"; error_message := msg;
              file_path := fp; line_number := ln; function_name := fn;
              code_context := cc; extracted_values := <["name" := x]> ∅ |} in
  _generate_claude_tip p (ERROR_FIX_MAP !! "NameError")
    = Ok ("Name '" +:+ x +:+ "' is not defined.") /\
  _generate_claude_next p (ERROR_FIX_MAP !! "NameError")
    = Ok ("Define '" +:+ x +:+ "' before using it, or check for typos.") /\
  _generate_action p (ERROR_FIX_MAP !! "NameError")
    = Ok (Some "Define the variable before use, or check for typos.").
Proof. repeat split; vm_compute; reflexivity. Qed.

(** X14: when the last typed line of the text is
    [NameError: name 'x' is not defined], the analysis the analyzer
    returns has kind NameError, records [x] as name, says in its tip
    that [x] is not defined, tells in its next step to define [x] or
    check for typos, and carries the catalog action. *)
Theorem name_error_guidance text pre x post a :
  x <> "" -> all_cls not_quote x = true ->
  text_lines text = pre ++ ("NameError" +:+ ": " +:+ name_msg x) :: post ->
  none_of is_error_line post = true ->
  analyze_error text = Ok a ->
  error_type (parsed_error a) = "NameError" /\
  extracted_values (parsed_error a) = <["name" := x]> ∅ /\
  claude_tip a = "Name '" +:+ x +:+ "' is not defined." /\
  claude_next a
    = "Define '" +:+ x +:+ "' before using it, or check for typos." /\
  suggested_action a
    = Some "Define the variable before use, or check for typos.".
Proof.
  intros Hne Hx Hlines Hpost Ha.
  destruct (analyze_error_spec text a Ha)
    as (p & tip & next & action & Hp & _ & Htip & Hnext & Haction
        & _ & _ & ->).
  destruct (parse_traceback_spec text p Hp)
    as (ty & msg & st & v & Hscan & _ & Hv & _ & ->).
  rewrite (scan_typed_line _ _ _ _ _ _ _ Hlines eq_refl eq_refl Hpost)
    in Hscan.
  rewrite strip_name_msg in Hscan. injection Hscan as <- <-.
  change (strip "NameError") with "NameError" in *.
  rewrite (extract_name_msg x Hne Hx) in Hv. injection Hv as <-.
  cbn [error_type] in Htip, Hnext, Haction.
  destruct (name_error_fields x (name_msg x) (fs_file st) (fs_line st)
              (fs_func st) (fs_ctx st)) as (Et & En & Eact).
  cbv zeta in Et, En, Eact.
  rewrite Et in Htip. rewrite En in Hnext. rewrite Eact in Haction.
  injection Htip as <-. injection Hnext as <-. injection Haction as <-.
  by repeat split.
Qed.

Lemma name_error_guidance_witness :
  exists a, analyze_error ("NameError" +:+ ": " +:+ name_msg "x") = Ok a /\
    claude_tip a = "Name 'x' is not defined." /\
    claude_next a = "Define 'x' before using it, or check for typos.".
Proof.
  assert (exists a,
            analyze_error ("NameError" +:+ ": " +:+ name_msg "x") = Ok a)
    as [a Ha] by (eexists; vm_compute; reflexivity).
  destruct (name_error_guidance ("NameError" +:+ ": " +:+ name_msg "x")
              [] "x" [] a) as (_ & _ & Ht & Hn & _);
    [discriminate|reflexivity|vm_compute; reflexivity|reflexivity
    |exact Ha|].
  by exists a.
Defined.

Lemma module_fields m pkg msg fp ln fn cc :
  pkg <> "" ->
  let p := {| error_type := "ModuleNotFoundError"; error_message := msg;
              file_path := fp; line_number := ln; function_name := fn;
              code_context := cc;
              extracted_values :=
                <["package" := pkg]> (<["module" := m]> ∅) |} in
  _generate_claude_tip p (ERROR_FIX_MAP !! "ModuleNotFoundError")
    = Ok ("Module '" +:+ m +:+ "' is not installed.") /\
  _generate_claude_next p (ERROR_FIX_MAP !! "ModuleNotFoundError")
    = Ok ("Install the missing package using: uv add " +:+ pkg) /\
  _generate_action p (ERROR_FIX_MAP !! "ModuleNotFoundError")
    = Ok (Some ("uv add " +:+ pkg)).
Proof.
  intros Hne. destruct pkg as [|c pkg]; [done|].
  repeat split; vm_compute; reflexivity.
Qed.

Lemma no_module_fields msg fp ln fn cc :
  let p := {| error_type := "ModuleNotFoundError"; error_message := msg;
              file_path := fp; line_number := ln; function_name := fn;
              code_context := cc; extracted_values := ∅ |} in
  _generate_claude_next p (ERROR_FIX_MAP !! "ModuleNotFoundError")
    = Ok "Install the missing module using uv or pip." /\
  _generate_action p (ERROR_FIX_MAP !! "ModuleNotFoundError") = Ok None.
Proof. repeat split; vm_compute; reflexivity. Qed.

(** X15: when the last typed line of the text is
    [ModuleNotFoundError: No module named 'm'], the analysis the
    analyzer returns records [m] as module and the resolved package of
    [m] as package, names [m] in its tip, and both its next step and its
    action install that package with [uv add]. *)
Theorem module_not_found_guidance text pre m post a :
  m <> "" -> all_cls not_quote m = true ->
  text_lines text
    = pre ++ ("ModuleNotFoundError" +:+ ": " +:+ module_msg m) :: post ->
  none_of is_error_line post = true ->
  analyze_error text = Ok a ->
  exists pkg,
    Packages.get_correct_package_name m = Ok pkg /\
    extracted_values (parsed_error a)
      = <["package" := pkg]> (<["module" := m]> ∅) /\
    claude_tip a = "Module '" +:+ m +:+ "' is not installed." /\
    claude_next a = "Install the missing package using: uv add " +:+ pkg /\
    suggested_action a = Some ("uv add " +:+ pkg).
Proof.
  intros Hne Hm Hlines Hpost Ha.
  destruct (PackagesFacts.get_correct_package_name_total m)
    as (pkg & Hpkg & Hpne).
  destruct (analyze_error_spec text a Ha)
    as (p & tip & next & action & Hp & _ & Htip & Hnext & Haction
        & _ & _ & ->).
  destruct (parse_traceback_spec text p Hp)
    as (ty & msg & st & v & Hscan & _ & Hv & _ & ->).
  rewrite (scan_typed_line _ _ _ _ _ _ _ Hlines eq_refl eq_refl Hpost)
    in Hscan.
  rewrite strip_module_msg in Hscan. injection Hscan as <- <-.
  change (strip "ModuleNotFoundError") with "ModuleNotFoundError" in *.
  rewrite (extract_module_msg m pkg Hne Hm Hpkg) in Hv. injection Hv as <-.
  cbn [error_type] in Htip, Hnext, Haction.
  destruct (module_fields m pkg (module_msg m) (fs_file st) (fs_line st)
              (fs_func st) (fs_ctx st) (Hpne Hne)) as (Et & En & Eact).
  cbv zeta in Et, En, Eact.
  rewrite Et in Htip. rewrite En in Hnext. rewrite Eact in Haction.
  injection Htip as <-. injection Hnext as <-. injection Haction as <-.
  exists pkg. by repeat split.
Qed.

Lemma module_not_found_guidance_witness :
  exists a pkg,
    analyze_error ("ModuleNotFoundError" +:+ ": " +:+ module_msg "yaml.x")
      = Ok a /\
    Packages.get_correct_package_name "yaml.x" = Ok pkg /\
    suggested_action a = Some ("uv add " +:+ pkg).
Proof.
  assert (exists a,
            analyze_error
              ("ModuleNotFoundError" +:+ ": " +:+ module_msg "yaml.x")
            = Ok a)
    as [a Ha] by (eexists; vm_compute; reflexivity).
  destruct (module_not_found_guidance
              ("ModuleNotFoundError" +:+ ": " +:+ module_msg "yaml.x")
              [] "yaml.x" [] a)
    as (pkg & Hpkg & _ & _ & _ & Hact);
    [discriminate|reflexivity|vm_compute; reflexivity|reflexivity
    |exact Ha|].
  by exists a, pkg.
Defined.

(** X16: in every analysis of kind ModuleNotFoundError the analyzer
    returns the action is present exactly when a package was recorded;
    it is then the [uv add] command of that package, which the next
    step quotes, and otherwise the next step is the generic install
    instruction. *)
Theorem module_action_follows_package text a :
  analyze_error text = Ok a ->
  error_type (parsed_error a) = "ModuleNotFoundError" ->
  match extracted_values (parsed_error a) !! "package" with
  | Some pkg =>
      suggested_action a = Some ("uv add " +:+ pkg) /\
      claude_next a
        = "Install the missing package using: " +:+ "uv add " +:+ pkg
  | None =>
      suggested_action a = None /\
      claude_next a = "Install the missing module using uv or pip."
  end.
Proof.
  intros Ha.
  destruct (analyze_error_spec text a Ha)
    as (p & tip & next & action & Hp & _ & _ & Hnext & Haction
        & _ & _ & ->).
  destruct (parse_traceback_spec text p Hp)
    as (ty & msg & st & v & _ & _ & Hv & _ & ->).
  cbn. intros ->.
  cbn [error_type] in Hnext, Haction.
  destruct (extract_shape "ModuleNotFoundError" msg) as (v' & Hv' & Hshape).
  rewrite Hv in Hv'. injection Hv' as <-.
  destruct Hshape as [->|[(_ & m & pkg & _ & Hpne & _ & ->)|Hrest]].
  - destruct (no_module_fields msg (fs_file st) (fs_line st) (fs_func st)
                (fs_ctx st)) as (En & Eact).
    cbv zeta in En, Eact. rewrite En in Hnext. rewrite Eact in Haction.
    injection Hnext as <-. injection Haction as <-.
    by rewrite lookup_empty.
  - destruct (module_fields m pkg msg (fs_file st) (fs_line st) (fs_func st)
                (fs_ctx st) Hpne) as (_ & En & Eact).
    cbv zeta in En, Eact. rewrite En in Hnext. rewrite Eact in Haction.
    injection Hnext as <-. injection Haction as <-.
    by rewrite lookup_insert_eq.
  - exfalso. destruct Hrest as [[? _]|[[? _]|[[? _]|[[? _]|[? _]]]]];
      discriminate.
Qed.

Lemma module_action_follows_package_witness :
  exists a, analyze_error "ModuleNotFoundError: import failed" = Ok a /\
    suggested_action a = None /\
    claude_next a = "Install the missing module using uv or pip.".
Proof.
  destruct (analyze_error "ModuleNotFoundError: import failed")
    as [a|e] eqn:Ha; [|vm_compute in Ha; discriminate].
  exists a. split; [reflexivity|].
  pose proof (module_action_follows_package
                "ModuleNotFoundError: import failed" a Ha) as Hrule.
  vm_compute in Ha. injection Ha as <-. apply Hrule. reflexivity.
Defined.




End GuidanceFacts.

(* ===================================================================== *)
(** * Catalog templates without placeholders *)
(* ===================================================================== *)

Module PlainTemplates.
Import PyStr Vocab ReFacts Format FormatSpec ErrorFixes.
Import ErrorHandler ParserFacts AnalyzerFacts AnalyzerTheorems MoreSpec.

#[local] Arguments ERROR_FIX_MAP : simpl never.

(** A template without braces renders to itself. *)
Lemma fmt_no_brace t kw :
  mem_chr "{" t = false -> mem_chr "}" t = false -> fmt t None kw = Ok t.
Proof.
  induction t as [|c t IH]; [done|]. simpl.
  intros [Ho Ht1]%orb_false_iff [Hc Ht2]%orb_false_iff.
  rewrite Ho, Hc, (IH Ht1 Ht2). done.
Qed.

Lemma format_no_brace t kw : no_brace t = true -> format t kw = Ok t.
Proof.
  unfold no_brace. intros [H1 H2]%andb_true_iff.
  apply negb_true_iff in H1, H2. by apply fmt_no_brace.
Qed.

Lemma catalog_module_not_found :
  ERROR_FIX_MAP !! "ModuleNotFoundError"
  = Some (fix_ "Module '{module}' is not installed." "uv add {package}").
Proof. vm_compute. reflexivity. Qed.

Lemma catalog_name_error :
  ERROR_FIX_MAP !! "NameError"
  = Some (fix_ "Name '{name}' is not defined."
               "Define the variable before use, or check for typos.").
Proof. vm_compute. reflexivity. Qed.

Lemma catalog_file_not_found :
  ERROR_FIX_MAP !! "FileNotFoundError"
  = Some (fix_ "File or directory not found: '{path}'."
       "Verify the path exists. Current directory: use os.getcwd() to check.").
Proof. vm_compute. reflexivity. Qed.

(** X18: when the catalog entry of the error kind has templates without
    placeholders (as for TypeError, ValueError, IndexError and the
    like), in the analysis the analyzer returns the tip is the message
    template and both the next step and the action are the action
    template, verbatim. *)
Theorem plain_templates_verbatim text a f t :
  analyze_error text = Ok a ->
  fix_suggestion a = Some f ->
  action_template f = Some t ->
  no_brace (message_template f) = true ->
  no_brace t = true ->
  claude_tip a = message_template f /\
  claude_next a = t /\
  suggested_action a = Some t.
Proof.
  intros Ha.
  destruct (analyze_error_spec text a Ha)
    as (p & tip & next & action & _ & _ & Htip & Hnext & Haction
        & _ & _ & ->).
  cbn. intros Hf Ht Hm Hnb.
  assert (error_type p <> "ModuleNotFoundError") as N1.
  { intros E. rewrite E, catalog_module_not_found in Hf.
    injection Hf as <-. vm_compute in Hm. discriminate. }
  assert (error_type p <> "NameError") as N2.
  { intros E. rewrite E, catalog_name_error in Hf.
    injection Hf as <-. vm_compute in Hm. discriminate. }
  assert (error_type p <> "FileNotFoundError") as N3.
  { intros E. rewrite E, catalog_file_not_found in Hf.
    injection Hf as <-. vm_compute in Hm. discriminate. }
  destruct (catalog_lookup _ _ Hf) as (Hrm & t' & Ht' & Hne & _).
  rewrite Ht in Ht'. injection Ht' as <-.
  assert (nonempty (message_template f) = true) as Hmne.
  { apply andb_true_iff in Hrm as [_ Hlit].
    by destruct (message_template f). }
  assert (nonempty t = true) as Htne by by destruct t.
  unfold _generate_claude_tip in Htip. rewrite Hf, Hmne in Htip.
  rewrite (format_no_brace _ _ Hm) in Htip. injection Htip as <-.
  unfold _generate_claude_next in Hnext.
  rewrite !if_type_false in Hnext by done.
  rewrite Hf, Ht in Hnext. cbn [truthy_str default] in Hnext.
  rewrite Htne, (format_no_brace _ _ Hnb) in Hnext. injection Hnext as <-.
  unfold _generate_action, template_action in Haction.
  rewrite if_type_false in Haction by done.
  rewrite Hf, Ht in Haction. cbn [truthy_str default] in Haction.
  rewrite Htne, (format_no_brace _ _ Hnb) in Haction.
  by injection Haction as <-.
Qed.

Lemma plain_templates_verbatim_witness :
  exists a, analyze_error "ValueError: invalid literal" = Ok a /\
    claude_tip a = "Invalid value provided." /\
    claude_next a = "Check the expected value format or range." /\
    suggested_action a = Some "Check the expected value format or range.".
Proof.
  eexists. split; [vm_compute; reflexivity|].
  apply (plain_templates_verbatim "ValueError: invalid literal" _
           (fix_ "Invalid value provided."
                 "Check the expected value format or range."));
    vm_compute; reflexivity.
Defined.

End PlainTemplates.

(* ===================================================================== *)
(** * Guidance on success *)
(* ===================================================================== *)

Module SuccessFacts.
Import PyStr Vocab ReFacts Heap ErrorHandler ResponseWrapper.
Import ParserFacts EntryPoints HeapFacts.
Open Scope heap_scope.

Lemma startswith_prefix p s : startswith p (p +:+ s) = true.
Proof.
  induction p as [|a p IH]; [done|].
  rewrite app_cons. simpl. by rewrite bool_decide_eq_true_2, IH.
Qed.

Lemma app_nil_end u : u +:+ "" = u.
Proof. induction u as [|a u IH]; [done|]. by rewrite app_cons, IH. Qed.

Lemma rev_app_app u v acc :
  String.rev_app (u +:+ v) acc = String.rev_app v (String.rev_app u acc).
Proof.
  revert acc. induction u as [|a u IH]; intros acc; [done|].
  rewrite app_cons. simpl. apply IH.
Qed.

Lemma rev_app_acc v acc :
  String.rev_app v acc = String.rev_app v "" +:+ acc.
Proof.
  revert acc. induction v as [|a v IH]; intros acc; [done|].
  simpl. rewrite (IH (String a acc)), (IH (String a "")).
  by rewrite app_assoc'.
Qed.

Lemma string_rev_app u v :
  String.rev (u +:+ v) = String.rev v +:+ String.rev u.
Proof. unfold String.rev. by rewrite rev_app_app, rev_app_acc. Qed.

Lemma endswith_suffix p s : endswith p (s +:+ p) = true.
Proof. unfold endswith. rewrite string_rev_app. apply startswith_prefix. Qed.

(** A joined list starts with its first element and ends with its last
    one. *)
Lemma join_first sep x l : exists u, join sep (x :: l) = x +:+ u.
Proof.
  destruct l as [|y l]; [exists ""; by rewrite app_nil_end|].
  by exists (sep +:+ join sep (y :: l)).
Qed.

Lemma join_last sep l x : exists u, join sep (l ++ [x]) = u +:+ x.
Proof.
  induction l as [|y l [u IH]]; [by exists ""|].
  destruct l as [|z l].
  - exists (y +:+ sep). simpl. by rewrite app_assoc'.
  - exists (y +:+ sep +:+ u).
    change (join sep ((y :: z :: l) ++ [x]))
      with (y +:+ sep +:+ join sep ((z :: l) ++ [x])).
    by rewrite IH, !app_assoc'.
Qed.

(** The two lists of the success wrapper: the first tip is one of the
    two opening sentences; without variables nothing else is collected,
    and with variables both lists end with the namespace entries. *)
Lemma success_lists_shape output namespace_vars :
  exists tips next_steps rest,
    success_lists output namespace_vars = Ok (tips, next_steps) /\
    tips = (if truthy_str output
            then "Code executed successfully with output."
            else "Code executed successfully (no output).") :: rest /\
    match namespace_vars with
    | None | Some [] => rest = [] /\ next_steps = []
    | Some (v :: vs) =>
        exists t n,
          tips = t ++ ["Namespace contains "
                       +:+ str_of_Z (Z.of_nat (length (v :: vs)))
                       +:+ " variable(s)."] /\
          next_steps
          = n ++ ["Use jupyter_inspect_namespace() to see all defined variables."]
    end.
Proof.
  unfold success_lists.
  destruct (truthy_str output);
    (destruct namespace_vars as [[|v vs]|];
     [eexists _, _, []; repeat split| |eexists _, _, []; repeat split]).
  all: change (nonempty_list (v :: vs)) with true; cbv iota.
  all: rewrite (bool_decide_eq_true_2 (0 < length (v :: vs))%nat)
         by (simpl; lia).
  all: destruct (filter _ (v :: vs)) as [|f fs].
  all: try change (nonempty_list (f :: fs)) with true.
  all: try change (nonempty_list (@nil string)) with false.
  all: cbv iota.
  all: try change (getitem (f :: fs) 0) with (Ok (A:=string) f).
  all: rewrite ?rbind_ok; cbn [fst snd app].
  all: eexists _, _, _; split; [reflexivity|]; split; [reflexivity|].
  all: try (by eexists [_], []).
  all: by eexists [_; _], [_].
Qed.

(** X22: a successful execution is never given the fallback tip: the
    tip always opens with the sentence on the code having executed.
    Without namespace variables (none passed, or an empty list) the tip
    is that sentence alone and the next step is the fallback
    "Continue with your analysis."; with variables the tip ends with
    their count and the next step ends with the advice to inspect the
    namespace. *)
Theorem success_guidance r d (h : heap) output namespace_vars :
  h !! r = Some (ODict d) ->
  exists l h' d' tip next,
    wrap_execution_success r output namespace_vars h = (Ok l, h') /\
    h' !! l = Some (ODict d') /\
    d' !! "claude_tip" = Some (VStr tip) /\
    d' !! "claude_next" = Some (VStr next) /\
    startswith "Code executed successfully" tip = true /\
    match namespace_vars with
    | None | Some [] =>
        tip = (if truthy_str output
               then "Code executed successfully with output."
               else "Code executed successfully (no output).") /\
        next = "Continue with your analysis."
    | Some (v :: vs) =>
        endswith ("Namespace contains "
                  +:+ str_of_Z (Z.of_nat (length (v :: vs)))
                  +:+ " variable(s).") tip = true /\
        endswith
          "Use jupyter_inspect_namespace() to see all defined variables."
          next = true
    end.
Proof.
  intros Hr.
  destruct (success_lists_shape output namespace_vars)
    as (tips & next_steps & rest & Hlists & Htips & Hvars).
  unfold wrap_execution_success.
  rewrite (bind_dict_copy _ _ _ _ Hr), bind_setitem, Hlists, bind_lift_ok.
  cbn [fst snd]. rewrite !bind_setitem. unfold ret.
  eexists _, _, _, _, _. split; [reflexivity|].
  split; [apply lookup_insert_eq|].
  split; [rewrite lookup_insert_ne by discriminate;
          apply lookup_insert_eq|].
  split; [apply lookup_insert_eq|].
  split.
  - rewrite Htips. change (nonempty_list (_ :: rest)) with true. cbv iota.
    destruct (join_first " " (if truthy_str output
            then "Code executed successfully with output."
            else "Code executed successfully (no output).") rest)
      as [u ->].
    destruct (truthy_str output).
    + change "Code executed successfully with output."
        with ("Code executed successfully" +:+ " with output.").
      rewrite app_assoc'. apply startswith_prefix.
    + change "Code executed successfully (no output)."
        with ("Code executed successfully" +:+ " (no output).").
      rewrite app_assoc'. apply startswith_prefix.
  - destruct namespace_vars as [[|v vs]|].
    + destruct Hvars as [-> ->]. by rewrite Htips.
    + destruct Hvars as (t & n & Ht & ->). rewrite Ht.
      assert (forall (l : list string) x,
                 nonempty_list (l ++ [x]) = true) as Hne
        by (by intros [|??] ?).
      rewrite !Hne.
      destruct (join_last " " t ("Namespace contains "
                  +:+ str_of_Z (Z.of_nat (length (v :: vs)))
                  +:+ " variable(s).")) as [u1 ->].
      destruct (join_last " " n
        "Use jupyter_inspect_namespace() to see all defined variables.")
        as [u2 ->].
      split; apply endswith_suffix.
    + destruct Hvars as [-> ->]. by rewrite Htips.
Qed.

Lemma success_guidance_witness :
  exists l h' d' tip next,
    wrap_execution_success 1%positive (Some "42") (Some ["sales_df"; "n"])
      Claims.ok_heap = (Ok l, h') /\
    h' !! l = Some (ODict d') /\
    d' !! "claude_tip" = Some (VStr tip) /\
    d' !! "claude_next" = Some (VStr next) /\
    startswith "Code executed successfully" tip = true /\
    endswith "Namespace contains 2 variable(s)." tip = true /\
    endswith "Use jupyter_inspect_namespace() to see all defined variables."
      next = true.
Proof.
  destruct (success_guidance 1%positive {[ "output" := VStr "ok" ]}
              Claims.ok_heap (Some "42") (Some ["sales_df"; "n"]))
    as (l & h' & d' & tip & next & Hcall & Hl & Ht & Hn & Hs & He1 & He2);
    [vm_compute; reflexivity|].
  by exists l, h', d', tip, next.
Defined.

End SuccessFacts.

(* ===================================================================== *)
(** * More on the response wrappers *)
(* ===================================================================== *)

Module WrapperMore.
Import PyStr Vocab Heap ErrorHandler ParserFacts AnalyzerFacts EntryPoints.
Import HeapFacts EnrichFacts EnrichTheorems SuccessFacts MoreSpec.
Open Scope heap_scope.

Ltac run_wrapper Hr :=
  rewrite (bind_dict_copy _ _ _ _ Hr); repeat step; cbv beta; unfold ret;
  rewrite ?insert_insert_eq; reflexivity.

Ltac nonempty_text :=
  first [ discriminate
        | apply app_nonempty_l; nonempty_text
        | apply app_nonempty_r; nonempty_text ].

(** The tip and the next step of the success wrapper are not empty. *)
Lemma success_texts_nonempty output vars lists :
  ResponseWrapper.success_lists output vars = Ok lists ->
  (if ResponseWrapper.nonempty_list lists.1 then join " " lists.1
   else "Execution complete.") <> "" /\
  (if ResponseWrapper.nonempty_list lists.2 then join " " lists.2
   else "Continue with your analysis.") <> "".
Proof.
  intros Hlists.
  destruct (success_lists_shape output vars)
    as (tips & next_steps & rest & Hshape & Htips & Hvars).
  rewrite Hshape in Hlists. injection Hlists as <-. cbn [fst snd].
  split.
  - rewrite Htips. change (ResponseWrapper.nonempty_list (_ :: rest)) with true.
    cbv iota.
    destruct (join_first " "
                (if truthy_str output
                 then "Code executed successfully with output."
                 else "Code executed successfully (no output).") rest)
      as [u ->].
    apply app_nonempty_l. by destruct (truthy_str output).
  - destruct vars as [[|v vs]|].
    + by destruct Hvars as [_ ->].
    + destruct Hvars as (t & n & _ & ->).
      assert (ResponseWrapper.nonempty_list
                (n ++ ["Use jupyter_inspect_namespace() to see all defined variables."])
              = true) as -> by (by destruct n).
      destruct (join_last " " n
        "Use jupyter_inspect_namespace() to see all defined variables.")
        as [u ->].
      by apply app_nonempty_r.
    + by destruct Hvars as [_ ->].
Qed.

(** A wrapper that analyses no trace writes three non-empty strings
    that depend on its arguments only, on top of a copy of the
    response. *)
Lemma simple_call_form ep :
  simple ep = true ->
  exists s t n,
    status_written ep = Some s /\
    (forall (h : heap) r d,
      h !! r = Some (ODict d) ->
      call ep r h
      = (Ok (fresh (dom h)),
         <[fresh (dom h) :=
             ODict (<["claude_next" := VStr n]>
                      (<["claude_tip" := VStr t]>
                         (<["status" := VStr s]> d)))]> h)) /\
    s <> "" /\ t <> "" /\ n <> "".
Proof.
  destruct ep as [output vars|text|path kernel|ctype idx|alive count
                  |op details|text]; try discriminate; intros _.
  - destruct (success_lists_total output vars) as [lists Hlists].
    destruct (success_texts_nonempty output vars lists Hlists) as [Ht Hn].
    eexists _, _, _. split; [reflexivity|]. split.
    + intros h r d Hr.
      unfold call, ResponseWrapper.wrap_execution_success.
      rewrite Hlists. run_wrapper Hr.
    + split; [discriminate|]. by split.
  - destruct (truthy_str kernel) eqn:Hk;
      (eexists _, _, _; split; [reflexivity|]; split;
       [intros h r d Hr;
        unfold call, ResponseWrapper.wrap_notebook_created;
        rewrite Hk; run_wrapper Hr
       |repeat split; nonempty_text]).
  - destruct (bool_decide (ctype = "code")) eqn:Hc;
      (eexists _, _, _; split; [reflexivity|]; split;
       [intros h r d Hr;
        unfold call, ResponseWrapper.wrap_cell_added;
        rewrite Hc; run_wrapper Hr
       |repeat split; nonempty_text]).
  - destruct alive; [destruct count|];
      (eexists _, _, _; split; [reflexivity|]; split;
       [intros h r d Hr;
        unfold call, ResponseWrapper.wrap_kernel_status; run_wrapper Hr
       |repeat split; nonempty_text]).
  - destruct (truthy_str details) eqn:Hk;
      (eexists _, _, _; split; [reflexivity|]; split;
       [intros h r d Hr;
        unfold call, ResponseWrapper.wrap_generic_success;
        rewrite Hk; run_wrapper Hr
       |repeat split; nonempty_text]).
Qed.




End WrapperMore.

(* ===================================================================== *)
(** * What the error path writes *)
(* ===================================================================== *)

Module GuidanceWritten.
Import PyStr Vocab ReFacts Heap ErrorFixes ErrorHandler ParserFacts.
Import AnalyzerFacts AnalyzerTheorems EntryPoints HeapFacts EnrichFacts.
Import FrameForm MoreSpec.
Open Scope heap_scope.

#[local] Arguments ERROR_FIX_MAP : simpl never.

(** An action, when there is one, is not the empty string. *)
Lemma generate_action_nonempty p s :
  _generate_action p (ERROR_FIX_MAP !! error_type p) = Ok (Some s) ->
  s <> "".
Proof.
  assert (template_action p (ERROR_FIX_MAP !! error_type p) = Ok (Some s)
          -> s <> "") as Htemplate.
  { unfold template_action. pose proof (catalog_next p) as Hc.
    destruct (ERROR_FIX_MAP !! error_type p) as [f|]; [|done].
    destruct Hc as (t & Ht & Hne & Hraise & Hok). rewrite Ht. simpl.
    destruct (nonempty t); [|done].
    destruct (Format.format t (extracted_values p)) as [s'|e] eqn:Hfmt.
    - intros [= <-]. by apply Hok.
    - destruct (Hraise e eq_refl) as [k ->]. done. }
  unfold _generate_action.
  destruct (if_type (error_type p) "ModuleNotFoundError"); [|done].
  destruct (truthy_str _); [|done]. by intros [= <-].
Qed.

Lemma bind_setitem_under {B} l l' o d key v (k : unit -> M B) (h : heap) :
  l' <> l ->
  bind (setitem l key v) k (<[l' := o]> (<[l := ODict d]> h))
  = k tt (<[l := ODict (<[key := v]> d)]>
            (<[l' := o]> (<[l := ODict d]> h))).
Proof.
  intros Hne. unfold bind, setitem.
  rewrite lookup_insert_ne by done. by rewrite lookup_insert_eq.
Qed.

(** What [enrich_response] returns and the heap it leaves, when the
    analyzer returns. *)
Lemma enrich_response_form r d (h : heap) text a :
  h !! r = Some (ODict d) ->
  analyze_error text = Ok a ->
  exists l details,
    h !! l = None /\ h !! details = None /\ details <> l /\
    Enrich.enrich_response r text h
    = (Ok l,
       <[l := ODict (<["error_details" := VRef details]>
                       (enriched_items d a))]>
         (<[details := ODict (Enrich.error_details (parsed_error a))]>
            (<[l := ODict (enriched_items d a)]> h))).
Proof.
  intros Hr Ha.
  destruct (analyze_error_spec text a Ha)
    as (p & tip & next & action & _ & _ & _ & _ & Haction & _ & _ & Heq).
  unfold Enrich.enrich_response. rewrite Ha.
  rewrite bind_lift_ok, (bind_dict_copy _ _ _ _ Hr), !bind_setitem.
  set (l := fresh (dom h)).
  assert (h !! l = None) as Hl by apply fresh_free.
  assert (forall B (k : unit -> M B),
    bind (if truthy_str (suggested_action a)
          then setitem l "suggested_action"
                 (VStr (default "" (suggested_action a)))
          else ret tt) k
      (<[l := ODict (<["claude_next" := VStr (claude_next a)]>
                       (<["claude_tip" := VStr (claude_tip a)]> d))]> h)
    = k tt (<[l := ODict (enriched_items d a)]> h)) as Hrun.
  { intros B k. unfold enriched_items. rewrite Heq in *.
    cbn [suggested_action claude_tip claude_next].
    destruct action as [s|]; cbn [truthy_str default].
    - assert (nonempty s = true) as ->.
      { apply generate_action_nonempty in Haction. by destruct s. }
      by rewrite bind_setitem.
    - by rewrite bind_ret. }
  rewrite Hrun, bind_alloc.
  set (h1 := <[l := ODict (enriched_items d a)]> h).
  set (l3 := fresh (dom h1)).
  assert (h1 !! l3 = None) as Hl3 by apply fresh_free.
  assert (l3 <> l) as Hne.
  { intros Heq3. rewrite Heq3 in Hl3. unfold h1 in Hl3.
    by rewrite lookup_insert_eq in Hl3. }
  unfold h1. rewrite bind_setitem_under by done. unfold ret.
  exists l, l3. split; [done|]. split; [|done].
  unfold h1 in Hl3. by rewrite lookup_insert_ne in Hl3.
Qed.

(** The items [enrich_response] has assigned before the details. *)
Lemma enriched_items_lookup d a :
  enriched_items d a !! "claude_tip" = Some (VStr (claude_tip a)) /\
  enriched_items d a !! "claude_next" = Some (VStr (claude_next a)) /\
  enriched_items d a !! "suggested_action"
    = match suggested_action a with
      | Some s => Some (VStr s)
      | None => d !! "suggested_action"
      end /\
  enriched_items d a !! "status" = d !! "status".
Proof.
  unfold enriched_items. cbv zeta.
  destruct (suggested_action a) as [s|]; repeat split;
    repeat first [rewrite lookup_insert_eq
                 |rewrite lookup_insert_ne by discriminate];
    reflexivity.
Qed.

(** The dictionary literal of the details holds the five fields of the
    parse, and nothing else. *)
Lemma error_details_lookup p :
  Enrich.error_details p !! "type" = Some (VStr (error_type p)) /\
  Enrich.error_details p !! "message" = Some (VStr (error_message p)) /\
  Enrich.error_details p !! "file" = Some (Enrich.opt_str (file_path p)) /\
  Enrich.error_details p !! "line" = Some (Enrich.opt_int (line_number p)) /\
  Enrich.error_details p !! "function"
    = Some (Enrich.opt_str (function_name p)) /\
  (forall k, k ∉ ["type"; "message"; "file"; "line"; "function"] ->
             Enrich.error_details p !! k = None).
Proof.
  unfold Enrich.error_details.
  repeat split;
    try (repeat first [rewrite lookup_insert_eq
                      |rewrite lookup_insert_ne by discriminate];
         reflexivity).
  intros k Hk.
  repeat (apply not_elem_of_cons in Hk as [? Hk]).
  by rewrite !lookup_insert_ne, lookup_empty by done.
Qed.

(** X21: the dictionary [enrich_response] returns holds the analysis of
    the text: the tip and the next step under claude_tip and
    claude_next; the action under suggested_action when there is one,
    while without an action a suggested_action already in the response
    stays; and under error_details a reference to a new dictionary that
    holds the kind, message, file, line and function of the parse under
    type, message, file, line and function, and no other key. *)
Theorem enrich_response_records_analysis r d (h : heap) text l h' :
  h !! r = Some (ODict d) ->
  Enrich.enrich_response r text h = (Ok l, h') ->
  exists a d' details items,
    analyze_error text = Ok a /\
    h' !! l = Some (ODict d') /\
    d' !! "claude_tip" = Some (VStr (claude_tip a)) /\
    d' !! "claude_next" = Some (VStr (claude_next a)) /\
    d' !! "suggested_action"
      = match suggested_action a with
        | Some s => Some (VStr s)
        | None => d !! "suggested_action"
        end /\
    d' !! "error_details" = Some (VRef details) /\
    h !! details = None /\ details <> l /\
    h' !! details = Some (ODict items) /\
    items !! "type" = Some (VStr (error_type (parsed_error a))) /\
    items !! "message" = Some (VStr (error_message (parsed_error a))) /\
    items !! "file" = Some (Enrich.opt_str (file_path (parsed_error a))) /\
    items !! "line" = Some (Enrich.opt_int (line_number (parsed_error a))) /\
    items !! "function"
      = Some (Enrich.opt_str (function_name (parsed_error a))) /\
    (forall k, k ∉ ["type"; "message"; "file"; "line"; "function"] ->
               items !! k = None).
Proof.
  intros Hr Hcall.
  destruct (analyze_error text) as [a|e] eqn:Ha;
    [|by rewrite (enrich_response_raise _ _ _ _ Ha) in Hcall].
  destruct (enrich_response_form r d h text a Hr Ha)
    as (l0 & details & Hl0 & Hdet & Hne & Hrun).
  rewrite Hrun in Hcall. injection Hcall as <- <-.
  destruct (enriched_items_lookup d a) as (Ht & Hn & Hs & _).
  destruct (error_details_lookup (parsed_error a))
    as (E1 & E2 & E3 & E4 & E5 & E6).
  exists a. eexists _, details, _. split; [reflexivity|].
  split; [by rewrite lookup_insert_eq|].
  rewrite !(lookup_insert_ne _ "error_details") by discriminate.
  split; [exact Ht|]. split; [exact Hn|]. split; [exact Hs|].
  split; [by rewrite lookup_insert_eq|].
  split; [exact Hdet|]. split; [exact Hne|].
  split; [by rewrite lookup_insert_ne, lookup_insert_eq|].
  by repeat (split; [assumption|]).
Qed.

Lemma enrich_response_records_analysis_witness :
  exists l h' d' details items,
    Enrich.enrich_response 1%positive "CustomError: oops" Claims.ok_heap
      = (Ok l, h') /\
    h' !! l = Some (ODict d') /\
    d' !! "error_details" = Some (VRef details) /\
    h' !! details = Some (ODict items) /\
    items !! "type" = Some (VStr "CustomError") /\
    items !! "message" = Some (VStr "oops") /\
    items !! "line" = Some VNone.
Proof.
  pose (out := Enrich.enrich_response 1%positive "CustomError: oops"
                 Claims.ok_heap).
  assert (Enrich.enrich_response 1%positive "CustomError: oops"
            Claims.ok_heap = (Ok 2%positive, out.2)) as Hcall
    by (vm_compute; reflexivity).
  destruct (enrich_response_records_analysis 1%positive
              {[ "output" := VStr "ok" ]} Claims.ok_heap "CustomError: oops"
              2%positive out.2)
    as (a & d' & details & items & Ha & Hl & _ & _ & _ & Hd & _ & _ & Hdet
        & Hty & Hmsg & _ & Hline & _);
    [vm_compute; reflexivity|exact Hcall|].
  exists 2%positive, out.2, d', details, items.
  split; [exact Hcall|]. split; [exact Hl|]. split; [exact Hd|].
  split; [exact Hdet|].
  vm_compute in Ha. injection Ha as <-.
  split; [exact Hty|]. split; [exact Hmsg|]. exact Hline.
Defined.

(** What the error wrapper returns and the heap it leaves, when the
    analyzer returns: it enriches a copy of the response that it has
    given the status error. *)
Lemma wrap_execution_error_form r d (h : heap) text a :
  h !! r = Some (ODict d) ->
  analyze_error text = Ok a ->
  exists l h' details,
    ResponseWrapper.wrap_execution_error r text h = (Ok l, h') /\
    h' !! l
    = Some (ODict (<["error_details" := VRef details]>
                     (enriched_items (<["status" := VStr "error"]> d) a))) /\
    h' !! details = Some (ODict (Enrich.error_details (parsed_error a))).
Proof.
  intros Hr Ha. unfold ResponseWrapper.wrap_execution_error.
  rewrite (bind_dict_copy _ _ _ _ Hr), bind_setitem.
  set (l1 := fresh (dom h)).
  set (d1 := <["status" := VStr "error"]> d).
  set (h1 := <[l1 := ODict d1]> h).
  destruct (enrich_response_form l1 d1 h1 text a)
    as (l & details & _ & _ & Hne & ->); [|exact Ha|].
  { unfold h1. by rewrite lookup_insert_eq. }
  eexists _, _, details. split; [reflexivity|].
  split; [by rewrite lookup_insert_eq|].
  by rewrite lookup_insert_ne, lookup_insert_eq.
Qed.

End GuidanceWritten.

(* ===================================================================== *)
(** * The status an entry point leaves *)
(* ===================================================================== *)

Module StatusFacts.
Import PyStr Vocab Heap ErrorHandler ParserFacts AnalyzerFacts EntryPoints.
Import HeapFacts EnrichFacts WrapperMore GuidanceWritten MoreSpec.
Open Scope heap_scope.

(** X20: the status of the dictionary a call returns is fixed by the
    entry point: success for the execution-success, notebook, cell and
    generic wrappers, error for the error wrapper, running or stopped
    for the kernel wrapper according to its liveness flag; and
    [enrich_response] leaves the status as the response had it. *)
Theorem status_is_fixed_by_entry_point ep (h : heap) r d l h' :
  h !! r = Some (ODict d) ->
  call ep r h = (Ok l, h') ->
  exists d',
    h' !! l = Some (ODict d') /\
    d' !! "status" = match status_written ep with
                     | Some s => Some (VStr s)
                     | None => d !! "status"
                     end.
Proof.
  intros Hr Hcall. destruct (simple ep) eqn:Hs.
  - destruct (simple_call_form ep Hs) as (s & t & n & -> & Hform & _).
    rewrite (Hform h r d Hr) in Hcall. injection Hcall as <- <-.
    eexists. split; [by rewrite lookup_insert_eq|].
    rewrite !lookup_insert_ne by discriminate. by rewrite lookup_insert_eq.
  - destruct ep; try discriminate; unfold call in Hcall;
      cbn [status_written].
    + destruct (analyze_error traceback_text) as [a|e] eqn:Ha;
        [|by rewrite (wrap_execution_error_raise _ _ _ _ _ Hr Ha) in Hcall].
      destruct (wrap_execution_error_form r d h traceback_text a Hr Ha)
        as (l0 & h0 & details & Hrun & Hl0 & _).
      rewrite Hrun in Hcall. injection Hcall as <- <-.
      eexists. split; [exact Hl0|].
      rewrite lookup_insert_ne by discriminate.
      destruct (enriched_items_lookup (<["status" := VStr "error"]> d) a)
        as (_ & _ & _ & ->).
      by rewrite lookup_insert_eq.
    + destruct (analyze_error traceback_text) as [a|e] eqn:Ha;
        [|by rewrite (enrich_response_raise _ _ _ _ Ha) in Hcall].
      destruct (enrich_response_form r d h traceback_text a Hr Ha)
        as (l0 & details & _ & _ & _ & Hrun).
      rewrite Hrun in Hcall. injection Hcall as <- <-.
      eexists. split; [by rewrite lookup_insert_eq|].
      rewrite lookup_insert_ne by discriminate.
      by destruct (enriched_items_lookup d a) as (_ & _ & _ & ->).
Qed.

Lemma status_is_fixed_by_entry_point_witness :
  exists l h' d',
    call (ExecutionError "CustomError: oops") 1%positive Claims.queued_heap
      = (Ok l, h') /\
    h' !! l = Some (ODict d') /\
    d' !! "status" = Some (VStr "error").
Proof.
  pose (out := call (ExecutionError "CustomError: oops") 1%positive
                 Claims.queued_heap).
  assert (call (ExecutionError "CustomError: oops") 1%positive
            Claims.queued_heap = (Ok 3%positive, out.2)) as Hcall
    by (vm_compute; reflexivity).
  destruct (status_is_fixed_by_entry_point
              (ExecutionError "CustomError: oops") Claims.queued_heap
              1%positive {[ "status" := VStr "queued" ]} 3%positive out.2)
    as (d' & Hl & Hstatus); [vm_compute; reflexivity|exact Hcall|].
  by exists 3%positive, out.2, d'.
Defined.

End StatusFacts.
(* ===================================================================== *)
(** * The validation script *)
(* ===================================================================== *)

Module ValidateFacts.
Import PyStr ReFacts ErrorHandler Validate ValidateSpec.



(** X23: the environment check passes exactly when the variable is set
    to a non-empty value, and it carries a fix hint exactly when it
    fails; the hint is then the export command for that variable. *)
Theorem env_check_verdict environ var_name :
  let r := check_env_var environ var_name in
  (passed r = true <->
   exists v, environ !! var_name = Some v /\ v <> "") /\
  (fix_hint r = None <-> passed r = true) /\
  (passed r = false ->
   fix_hint r = Some ("export " +:+ var_name +:+ "='your-value'")) /\
  name r = "$" +:+ var_name.
Proof.
  unfold check_env_var.
  destruct (environ !! var_name) as [[|c v]|]; cbn.
  - repeat split; try done. intros (v & [= <-] & Hv). done.
  - repeat split; try done. intros _. by eexists.
  - repeat split; try done. by intros (v & ? & _).
Qed.

(** X24: a value of at most eight characters is hidden completely: two
    environments that both set the variable to such a value give the
    same result. *)
Theorem short_values_hidden environ1 environ2 var_name v1 v2 :
  environ1 !! var_name = Some v1 ->
  environ2 !! var_name = Some v2 ->
  v1 <> "" -> v2 <> "" ->
  (String.length v1 <= 8)%nat ->
  (String.length v2 <= 8)%nat ->
  check_env_var environ1 var_name = check_env_var environ2 var_name /\
  message (check_env_var environ1 var_name) = "Set (****)".
Proof.
  intros H1 H2 Hv1 Hv2 Hl1 Hl2. unfold check_env_var. rewrite H1, H2.
  destruct v1 as [|c1 v1]; [done|]. destruct v2 as [|c2 v2]; [done|].
  cbn [truthy_str nonempty default id].
  rewrite !bool_decide_eq_false_2 by lia. done.
Qed.

Lemma short_values_hidden_witness :
  check_env_var {[ "JUPYTER_TOKEN" := "secret" ]} "JUPYTER_TOKEN"
  = check_env_var {[ "JUPYTER_TOKEN" := "hunter2" ]} "JUPYTER_TOKEN" /\
  message (check_env_var {[ "JUPYTER_TOKEN" := "secret" ]} "JUPYTER_TOKEN")
  = "Set (****)".
Proof.
  apply (short_values_hidden _ _ _ "secret" "hunter2");
    first [vm_compute; reflexivity | discriminate | (simpl; lia)].
Defined.


(** The loop only ever lowers the flag, and prints the lines of each
    result after what was printed before. *)
Lemma results_loop_spec results all_passed out :
  exists body,
    results_loop results all_passed out
    = (all_passed && forallb passed results, out ++ body) /\
    length body = sum_list (lines_for <$> results).
Proof.
  revert all_passed out.
  induction results as [|r results IH]; intros all_passed out.
  - exists []. cbn. by rewrite andb_true_r, app_nil_r.
  - cbn [results_loop]. unfold print.
    set (line := _ +:+ _).
    destruct (IH (if negb (passed r) then false else all_passed)
                (if truthy_str (fix_hint r)
                 then (out ++ [line])
                        ++ ["       Fix: " +:+ default "" (fix_hint r)]
                 else out ++ [line]))
      as (body & -> & Hlen).
    cbn [forallb fmap list_fmap sum_list sum_list_with]. unfold lines_for at 1.
    destruct (truthy_str (fix_hint r)).
    + exists (line :: ("       Fix: " +:+ default "" (fix_hint r)) :: body).
      split; [|cbn [length id]; lia].
      f_equal; [by destruct (passed r), all_passed|].
      by rewrite <- !app_assoc.
    + exists (line :: body). split; [|cbn [length id]; lia].
      f_equal; [by destruct (passed r), all_passed|].
      by rewrite <- !app_assoc.
Qed.

(** X26: [print_results] returns True exactly when every result passed,
    and the closing line it prints says the same.  What was printed
    before stays; after it come the three header lines, one line for
    each result plus one for each non-empty fix hint, and the three
    closing lines. *)
Theorem print_results_verdict results out :
  exists body,
    print_results results out
    = (forallb passed results,
       out ++ header ++ body ++ footer (forallb passed results)) /\
    length body = sum_list (lines_for <$> results).
Proof.
  unfold print_results, print.
  destruct (results_loop_spec results true
              (((out ++ [String nl "" +:+ str_mul "=" 60])
                  ++ ["OpenCode Jupyter Integration - Validation Results"])
                 ++ [str_mul "=" 60 +:+ String nl ""]))
    as (body & -> & Hlen).
  exists body. split; [|done].
  cbn [fst snd andb]. unfold header, footer.
  destruct (forallb passed results);
    f_equal; rewrite <- !app_assoc; reflexivity.
Qed.

End ValidateFacts.

(* ===================================================================== *)
(** * Totality *)
(* ===================================================================== *)

Module Totality.
Import PyStr Vocab Heap ErrorHandler ParserFacts AnalyzerFacts EntryPoints.
Import HeapFacts EnrichFacts FrameSpec WrapperMore GuidanceWritten.
Import MoreSpec Claims.
Open Scope heap_scope.





End Totality.
